(** * The MCP chatbot client: capability registry and conversation loop

    A shallow embedding of [src/client/mcp_chatbot.py].  The Python methods of
    [McpChatBot] become computations in a small state-and-exception monad
    [Py]; the interpreter state carries the fields of [self], the heap of list
    objects the methods allocate and mutate, and the trace of observable
    events (lines printed, requests sent to the model backend and to the
    provider sessions). *)

From Stdlib Require Import String List Bool Arith Lia.
From stdpp Require Import base option list.
Import ListNotations.

Local Open Scope string_scope.
Local Open Scope list_scope.

(** ** Python values *)

(** An exception object whose class derives from [Exception], the ones an
    [except Exception] clause catches; [str(ex)] is its message. *)
Inductive Exn : Type := Exception (msg : string).

Definition str_exn (ex : Exn) : string :=
  match ex with Exception msg => msg end.

(** What a call into the outside world (a provider session, the model
    backend) does: it returns a value or raises an exception of class
    [Exception].  A call that is interrupted ([KeyboardInterrupt], a
    cancelled task) is outside this model. *)
Inductive Reply (A : Type) : Type :=
| Returns (a : A)
| Throws (ex : Exn).
Arguments Returns {A} a.
Arguments Throws {A} ex.

(** A provider session.  Each [connect_to_server] call creates one
    [ClientSession] object; the configuration key it was created for
    identifies it. *)
Inductive Session : Type := SessionOf (server_name : string).

(** The configuration key of the provider behind a session. *)
Definition server_of (s : Session) : string :=
  match s with SessionOf n => n end.

(** ** Insertion-ordered dictionaries

    A Python [dict] with string keys: [d[k] = v] replaces the value of an
    existing key in place and appends a new key at the end; iteration follows
    insertion order. *)
Module Dict.

Definition t (V : Type) : Type := list (string * V).

Definition empty {V : Type} : t V := [].

Fixpoint get {V : Type} (d : t V) (k : string) : option V :=
  match d with
  | [] => None
  | (k', v) :: d' => if String.eqb k' k then Some v else get d' k
  end.

Fixpoint set {V : Type} (d : t V) (k : string) (v : V) : t V :=
  match d with
  | [] => [(k, v)]
  | (k', v') :: d' =>
      if String.eqb k' k then (k', v) :: d' else (k', v') :: set d' k v
  end.

Definition items {V : Type} (d : t V) : list (string * V) := d.

Definition keys {V : Type} (d : t V) : list string := map fst d.

End Dict.

(** ** Capability descriptors *)

Record Tool : Type := {
  tool_name : string;
  tool_description : string;
  tool_inputSchema : string
}.

Record PromptDecl : Type := {
  prompt_name : string;
  prompt_description : string;
  prompt_arguments : list string
}.

Record Resource : Type := { resource_uri : string }.

(** The dictionaries appended to [available_tools] and [available_prompts]. *)
Record ToolDescriptor : Type := {
  td_name : string;
  td_description : string;
  td_input_schema : string
}.

Record PromptDescriptor : Type := {
  pd_name : string;
  pd_description : string;
  pd_arguments : list string
}.

Definition tool_descriptor (tool : Tool) : ToolDescriptor :=
  {| td_name := tool_name tool;
     td_description := tool_description tool;
     td_input_schema := tool_inputSchema tool |}.

Definition prompt_descriptor (prompt : PromptDecl) : PromptDescriptor :=
  {| pd_name := prompt_name prompt;
     pd_description := prompt_description prompt;
     pd_arguments := prompt_arguments prompt |}.

(** ** Model-backend content and conversation messages *)

(** One item of [response.content]; [content.type] is ["text"],
    ["tool_use"] or something else. *)
Inductive ContentItem : Type :=
| TextBlock (text : string)
| ToolUseBlock (id name input : string)
| OtherBlock (type : string).

Definition is_tool_use (c : ContentItem) : bool :=
  match c with ToolUseBlock _ _ _ => true | _ => false end.

(** Addresses of heap objects. *)
Abbreviation addr := nat.

(** An element of the [messages] list.  The assistant turn holds a reference
    to the [assistant_content] list object, not a copy of it. *)
Inductive Msg : Type :=
| MUser (content : string)
| MAssistant (content_ref : addr)
| MToolResult (tool_use_id : string) (content : string).

(** The list objects a method allocates. *)
Inductive PyObj : Type :=
| OMessages (l : list Msg)
| OContent (l : list ContentItem).

Abbreviation Heap := (list PyObj).

(** A message as the backend receives it: references followed. *)
Inductive Message : Type :=
| UserMessage (content : string)
| AssistantMessage (content : list ContentItem)
| ToolResultMessage (tool_use_id : string) (content : string).

Definition deref_content (h : Heap) (a : addr) : list ContentItem :=
  match h !! a with
  | Some (OContent l) => l
  | _ => []
  end.

Definition deref_messages (h : Heap) (a : addr) : list Msg :=
  match h !! a with
  | Some (OMessages l) => l
  | _ => []
  end.

Definition view_msg (h : Heap) (m : Msg) : Message :=
  match m with
  | MUser c => UserMessage c
  | MAssistant r => AssistantMessage (deref_content h r)
  | MToolResult i c => ToolResultMessage i c
  end.

Definition snapshot (h : Heap) (a : addr) : list Message :=
  map (view_msg h) (deref_messages h a).

(** ** Observable events *)

Inductive Event : Type :=
| EvPrint (line : string)
| EvBackend (tools : list ToolDescriptor) (messages : list Message)
| EvCallTool (sess : Session) (name input : string)
| EvGetPrompt (sess : Session) (name : string) (args : list (string * string))
| EvReadResource (sess : Session) (uri : string)
| EvOpen (server_name : string)
| EvInitialize (sess : Session)
| EvListTools (sess : Session)
| EvListPrompts (sess : Session)
| EvListResources (sess : Session).

Definition is_backend (e : Event) : bool :=
  match e with EvBackend _ _ => true | _ => false end.

Definition is_call_tool (e : Event) : bool :=
  match e with EvCallTool _ _ _ => true | _ => false end.

Definition backend_requests (tr : list Event) : nat :=
  length (filter (fun e => is_backend e) tr).

(** ** Interpreter state *)

(** The fields of [self] that the modelled methods read or write. *)
Record McpChatBot : Type := {
  sessions : Dict.t Session;
  available_tools : list ToolDescriptor;
  available_prompts : list PromptDescriptor
}.

(** [McpChatBot.__init__]. *)
Definition init_bot : McpChatBot :=
  {| sessions := Dict.empty; available_tools := []; available_prompts := [] |}.

Record PyState : Type := {
  self : McpChatBot;
  heap : Heap;
  events : list Event
}.

Definition init_state : PyState :=
  {| self := init_bot; heap := []; events := [] |}.

(** ** The monad of Python computations

    A computation transforms the state and returns, raises an exception of
    class [Exception], is left by an exception that is not of class
    [Exception] (named by [signal]), or runs out of fuel.  The only such
    exception of the model is the [KeyboardInterrupt] that [input] raises
    in [chat_loop].  Mutations made before a raise persist. *)
Inductive Result (A : Type) : Type :=
| Ok (a : A)
| Raise (ex : Exn)
| Interrupted (signal : string)
| OutOfFuel.
Arguments Ok {A} a.
Arguments Raise {A} ex.
Arguments Interrupted {A} signal.
Arguments OutOfFuel {A}.

Definition Py (A : Type) : Type := PyState -> Result A * PyState.

Definition ret {A : Type} (a : A) : Py A := fun st => (Ok a, st).

Definition raise {A : Type} (ex : Exn) : Py A := fun st => (Raise ex, st).

(** [raise KeyboardInterrupt]: not an [Exception]. *)
Definition interrupt {A : Type} (signal : string) : Py A :=
  fun st => (Interrupted signal, st).

Definition bind {A B : Type} (m : Py A) (k : A -> Py B) : Py B :=
  fun st =>
    match m st with
    | (Ok a, st') => k a st'
    | (Raise ex, st') => (Raise ex, st')
    | (Interrupted signal, st') => (Interrupted signal, st')
    | (OutOfFuel, st') => (OutOfFuel, st')
    end.

(** [try: body / except Exception as ex: handler ex].  The clause catches
    the exceptions of class [Exception] only: an interrupt passes through. *)
Definition try_except {A : Type} (body : Py A) (handler : Exn -> Py A) : Py A :=
  fun st =>
    match body st with
    | (Raise ex, st') => handler ex st'
    | (Ok a, st') => (Ok a, st')
    | (Interrupted signal, st') => (Interrupted signal, st')
    | (OutOfFuel, st') => (OutOfFuel, st')
    end.

Notation "'let!' x ':=' m 'in' k" := (bind m (fun x => k))
  (at level 10, x name, m at level 100, k at level 200).
Notation "'do!' m 'in' k" := (bind m (fun _ => k))
  (at level 10, m at level 100, k at level 200).

Definition get_self : Py McpChatBot := fun st => (Ok (self st), st).

Definition put_self (b : McpChatBot) : Py unit :=
  fun st => (Ok tt, {| self := b; heap := heap st; events := events st |}).

Definition emit (e : Event) : Py unit :=
  fun st =>
    (Ok tt, {| self := self st; heap := heap st; events := events st ++ [e] |}).

Definition print (line : string) : Py unit := emit (EvPrint line).

(** An outside call: the request is recorded, then the reply is returned or
    raised. *)
Definition call {A : Type} (e : Event) (r : Reply A) : Py A :=
  do! emit e in
  match r with
  | Returns a => ret a
  | Throws ex => raise ex
  end.

(** Allocation of a fresh list object. *)
Definition alloc (o : PyObj) : Py addr :=
  fun st =>
    (Ok (length (heap st)),
     {| self := self st; heap := heap st ++ [o]; events := events st |}).

Definition append_msg (m : Msg) (o : PyObj) : PyObj :=
  match o with
  | OMessages l => OMessages (l ++ [m])
  | OContent l => OContent l
  end.

Definition append_content (c : ContentItem) (o : PyObj) : PyObj :=
  match o with
  | OContent l => OContent (l ++ [c])
  | OMessages l => OMessages l
  end.

Definition modify_heap (f : PyObj -> PyObj) (a : addr) : Py unit :=
  fun st =>
    (Ok tt,
     {| self := self st; heap := alter f a (heap st); events := events st |}).

Definition get_heap : Py Heap := fun st => (Ok (heap st), st).

(** The newline character of a format string. *)
Definition nl : string := String (Ascii.ascii_of_nat 10) EmptyString.

(** Loop control. *)
Inductive Flow : Type := Next | Break.

(** [for x in l: body], for a body without [break]. *)
Fixpoint for_each {A : Type} (l : list A) (body : A -> Py unit) : Py unit :=
  match l with
  | [] => ret tt
  | x :: l' => do! body x in for_each l' body
  end.

(** [for x in l: body], with a local variable [acc] the body may assign. *)
Fixpoint for_in {A B : Type} (l : list A) (acc : B)
    (body : A -> B -> Py (Flow * B)) : Py B :=
  match l with
  | [] => ret acc
  | x :: l' =>
      let! r := body x acc in
      match r with
      | (Next, acc') => for_in l' acc' body
      | (Break, acc') => ret acc'
      end
  end.

(** [while True: body]; the body returns [Break] to leave the loop. *)
Fixpoint while_true (fuel : nat) (body : Py Flow) : Py unit :=
  match fuel with
  | O => fun st => (OutOfFuel, st)
  | S fuel' =>
      let! f := body in
      match f with
      | Break => ret tt
      | Next => while_true fuel' body
      end
  end.

(** ** The outside world *)

(** The text of a rendered prompt message: a string, an object with a
    [text] attribute, or a list of items. *)
Inductive PromptItem : Type :=
| ItemWithText (text : string)
| ItemOther (str : string).

Inductive PromptContent : Type :=
| ContentStr (s : string)
| ContentWithText (text : string)
| ContentItems (items : list PromptItem).

(** [result.messages] of a [get_prompt] result, each message reduced to its
    [content]; [None] is a falsy result. *)
Definition PromptResult : Type := option (list PromptContent).

(** [result.contents] of a [read_resource] result, each reduced to its
    [text]. *)
Definition ResourceResult : Type := option (list string).

(** How one configured provider behaves.  [session_str] is [str(session)]
    for the [ClientSession] object created for the provider; the class
    defines neither [__str__] nor [__repr__], so it is the default text
    [<mcp.client.session.ClientSession object at 0x...>] with the address of
    the object. *)
Record Provider : Type := {
  session_str : string;
  open_transport : Reply unit;
  initialize : Reply unit;
  list_tools : Reply (list Tool);
  list_prompts : Reply (option (list PromptDecl));
  list_resources : Reply (option (list Resource));
  call_tool : string -> string -> Reply string;
  get_prompt : string -> list (string * string) -> Reply PromptResult;
  read_resource : string -> Reply ResourceResult
}.

(** The collaborators of the client: the provider behind each configured
    server name and the model backend ([anthropic.messages.create]). *)
Record Env : Type := {
  remote : string -> Provider;
  backend : list ToolDescriptor -> list Message -> Reply (list ContentItem)
}.

Definition provider_of (env : Env) (s : Session) : Provider :=
  remote env (server_of s).

(** ** McpChatBot: building the registry *)

Section Client.

Variable env : Env.

(** [self.sessions[key] = session]. *)
Definition sessions_set (key : string) (session : Session) : Py unit :=
  let! b := get_self in
  put_self {| sessions := Dict.set (sessions b) key session;
              available_tools := available_tools b;
              available_prompts := available_prompts b |}.

(** [self.available_tools.append(d)]. *)
Definition available_tools_append (d : ToolDescriptor) : Py unit :=
  let! b := get_self in
  put_self {| sessions := sessions b;
              available_tools := available_tools b ++ [d];
              available_prompts := available_prompts b |}.

(** [self.available_prompts.append(d)]. *)
Definition available_prompts_append (d : PromptDescriptor) : Py unit :=
  let! b := get_self in
  put_self {| sessions := sessions b;
              available_tools := available_tools b;
              available_prompts := available_prompts b ++ [d] |}.

(** The body of the [try] block of [load_mcp_components]. *)
Definition load_mcp_components_body (session : Session) : Py unit :=
  let p := provider_of env session in
  let! tools := call (EvListTools session) (list_tools p) in
  do! for_each tools (fun tool =>
        do! sessions_set (tool_name tool) session in
        available_tools_append (tool_descriptor tool)) in
  let! prompts_response := call (EvListPrompts session) (list_prompts p) in
  do! match prompts_response with
      | Some prompts =>
          for_each prompts (fun prompt =>
            do! sessions_set (prompt_name prompt) session in
            available_prompts_append (prompt_descriptor prompt))
      | None => ret tt
      end in
  let! resources_response :=
    call (EvListResources session) (list_resources p) in
  match resources_response with
  | Some resources =>
      for_each resources (fun resource =>
        sessions_set (resource_uri resource) session)
  | None => ret tt
  end.

Definition load_mcp_components (session : Session) : Py unit :=
  try_except (load_mcp_components_body session)
    (fun ex =>
       print ("Error loading MCP component from session="
              ++ session_str (provider_of env session) ++ ": " ++ str_exn ex)).

(** The body of the [try] block of [connect_to_server]: the transport and
    the [ClientSession] are entered, the session is initialized and its
    components are loaded. *)
Definition connect_to_server_body (server_name server_config : string)
    : Py unit :=
  let p := remote env server_name in
  do! call (EvOpen server_name) (open_transport p) in
  let session := SessionOf server_name in
  do! call (EvInitialize session) (initialize p) in
  load_mcp_components session.

Definition connect_to_server (server_name server_config : string) : Py unit :=
  try_except (connect_to_server_body server_name server_config)
    (fun ex =>
       print ("Error connecting to server: " ++ server_name
              ++ ": " ++ str_exn ex)).

(** [servers] is [connectors_config.get("mcpServers", {}).items()]. *)
Definition connect_to_servers (servers : list (string * string)) : Py unit :=
  try_except
    (for_each servers (fun '(server_name, server_config) =>
       connect_to_server server_name server_config))
    (fun ex => raise (Exception ("Error loading server config: " ++ str_exn ex))).

(** ** McpChatBot: the conversation loop *)

(** [messages.append(m)] and [assistant_content.append(c)]: the list object
    at the address is mutated. *)
Definition messages_append (messages : addr) (m : Msg) : Py unit :=
  modify_heap (append_msg m) messages.

Definition assistant_content_append (assistant_content : addr)
    (c : ContentItem) : Py unit :=
  modify_heap (append_content c) assistant_content.

(** The body of [for content in response.content], with the local
    [has_tool_use] threaded through. *)
Definition process_content (messages assistant_content : addr)
    (content : ContentItem) (has_tool_use : bool) : Py (Flow * bool) :=
  match content with
  | TextBlock text =>
      do! print text in
      do! assistant_content_append assistant_content content in
      ret (Next, has_tool_use)
  | ToolUseBlock id name input =>
      let has_tool_use := true in
      do! assistant_content_append assistant_content content in
      do! messages_append messages (MAssistant assistant_content) in
      let! b := get_self in
      match Dict.get (sessions b) name with
      | None =>
          do! print ("Tool '" ++ name ++ "' not found.") in
          ret (Break, has_tool_use)
      | Some session =>
          let! result :=
            call (EvCallTool session name input)
                 (call_tool (provider_of env session) name input) in
          do! messages_append messages (MToolResult id result) in
          ret (Next, has_tool_use)
      end
  | OtherBlock _ => ret (Next, has_tool_use)
  end.

(** One iteration of [while True] in [process_query]. *)
Definition round (messages : addr) : Py Flow :=
  let! b := get_self in
  let! h := get_heap in
  let! response :=
    call (EvBackend (available_tools b) (snapshot h messages))
         (backend env (available_tools b) (snapshot h messages)) in
  let! assistant_content := alloc (OContent []) in
  let! has_tool_use :=
    for_in response false (process_content messages assistant_content) in
  if negb has_tool_use then ret Break else ret Next.

Definition process_query (fuel : nat) (query : string) : Py unit :=
  let! messages := alloc (OMessages [MUser query]) in
  while_true fuel (round messages).

(** ** McpChatBot: resources and prompts *)

(** [s.startswith(p)]. *)
Definition startswith (s p : string) : bool := String.prefix p s.

(** The fallback loop of [get_resource]: the session of the first item of
    [self.sessions.items()] whose key starts with ["papers://"]. *)
Fixpoint first_papers_session (items : list (string * Session))
    : option Session :=
  match items with
  | [] => None
  | (uri, sess) :: rest =>
      if startswith uri "papers://" then Some sess
      else first_papers_session rest
  end.

(** The session [get_resource] settles on before it reads. *)
Definition resolve_resource (b : McpChatBot) (resource_uri : string)
    : option Session :=
  match Dict.get (sessions b) resource_uri with
  | Some session => Some session
  | None =>
      if startswith resource_uri "papers://"
      then first_papers_session (Dict.items (sessions b))
      else None
  end.

Definition get_resource (resource_uri : string) : Py unit :=
  let! b := get_self in
  match resolve_resource b resource_uri with
  | None => print ("Resource '" ++ resource_uri ++ "' not found.")
  | Some session =>
      try_except
        (let! result :=
           call (EvReadResource session resource_uri)
                (read_resource (provider_of env session) resource_uri) in
         match result with
         | Some (text :: _) =>
             do! print (nl ++ "Resource: " ++ resource_uri) in
             do! print "Content:" in
             print text
         | _ => print "No content available."
         end)
        (fun ex =>
           print ("Error getting resource=" ++ resource_uri
                  ++ ": " ++ str_exn ex))
  end.

Definition item_text (item : PromptItem) : string :=
  match item with
  | ItemWithText text => text
  | ItemOther s => s
  end.

Definition prompt_text (prompt_content : PromptContent) : string :=
  match prompt_content with
  | ContentStr s => s
  | ContentWithText text => text
  | ContentItems items => String.concat " " (map item_text items)
  end.

Definition execute_prompt (fuel : nat) (prompt_name : string)
    (args : list (string * string)) : Py unit :=
  let! b := get_self in
  match Dict.get (sessions b) prompt_name with
  | None => print ("Prompt '" ++ prompt_name ++ "' not found.")
  | Some session =>
      try_except
        (let! result :=
           call (EvGetPrompt session prompt_name args)
                (get_prompt (provider_of env session) prompt_name args) in
         match result with
         | Some (prompt_content :: _) =>
             let text := prompt_text prompt_content in
             do! print (nl ++ "Executing prompt '" ++ prompt_name ++ "'...") in
             process_query fuel text
         | _ => ret tt
         end)
        (fun e =>
           print ("Error executing prompt=" ++ prompt_name
                  ++ ": " ++ str_exn e))
  end.

End Client.

(** ** What a provider contributes to the registry

    Closed forms of the registry after [load_mcp_components] and
    [connect_to_server]; the lemmas [load_mcp_components_loaded] and
    [connect_to_server_connected] below relate them to the code. *)

Definition opt_list {A : Type} (o : option (list A)) : list A :=
  match o with
  | Some l => l
  | None => []
  end.

(** The tools, prompts and resources inserted before the first listing call
    that raises. *)
Definition loaded_tools (p : Provider) : list Tool :=
  match list_tools p with
  | Returns tools => tools
  | Throws _ => []
  end.

Definition loaded_prompts (p : Provider) : list PromptDecl :=
  match list_tools p, list_prompts p with
  | Returns _, Returns r => opt_list r
  | _, _ => []
  end.

Definition loaded_resources (p : Provider) : list Resource :=
  match list_tools p, list_prompts p, list_resources p with
  | Returns _, Returns _, Returns r => opt_list r
  | _, _, _ => []
  end.

Definition loaded_keys (p : Provider) : list string :=
  map tool_name (loaded_tools p) ++
  map prompt_name (loaded_prompts p) ++
  map resource_uri (loaded_resources p).

Definition register_keys (ks : list string) (s : Session)
    (d : Dict.t Session) : Dict.t Session :=
  fold_left (fun d k => Dict.set d k s) ks d.

Definition loaded (session : Session) (p : Provider) (b : McpChatBot)
    : McpChatBot :=
  {| sessions := register_keys (loaded_keys p) session (sessions b);
     available_tools := available_tools b ++ map tool_descriptor (loaded_tools p);
     available_prompts :=
       available_prompts b ++ map prompt_descriptor (loaded_prompts p) |}.

(** The transport opens and the handshake succeeds. *)
Definition connects (p : Provider) : bool :=
  match open_transport p, initialize p with
  | Returns _, Returns _ => true
  | _, _ => false
  end.

Definition contributed_keys (p : Provider) : list string :=
  if connects p then loaded_keys p else [].

Definition contributed_tools (p : Provider) : list Tool :=
  if connects p then loaded_tools p else [].

Definition connected (env : Env) (server_name : string) (b : McpChatBot)
    : McpChatBot :=
  if connects (remote env server_name)
  then loaded (SessionOf server_name) (remote env server_name) b
  else b.

Definition registry_of (env : Env) (servers : list (string * string))
    (b : McpChatBot) : McpChatBot :=
  fold_left (fun b '(server_name, _) => connected env server_name b) servers b.

(** The events of one [load_mcp_components] call and of one
    [connect_to_server] call. *)
Definition load_error (p : Provider) (ex : Exn) : Event :=
  EvPrint ("Error loading MCP component from session="
           ++ session_str p ++ ": " ++ str_exn ex).

Definition connect_error (server_name : string) (ex : Exn) : Event :=
  EvPrint ("Error connecting to server: " ++ server_name ++ ": " ++ str_exn ex).

Definition load_events (session : Session) (p : Provider) : list Event :=
  EvListTools session ::
  match list_tools p with
  | Throws ex => [load_error p ex]
  | Returns _ =>
      EvListPrompts session ::
      match list_prompts p with
      | Throws ex => [load_error p ex]
      | Returns _ =>
          EvListResources session ::
          match list_resources p with
          | Throws ex => [load_error p ex]
          | Returns _ => []
          end
      end
  end.

Definition connect_events (env : Env) (server_name : string) : list Event :=
  let p := remote env server_name in
  EvOpen server_name ::
  match open_transport p with
  | Throws ex => [connect_error server_name ex]
  | Returns _ =>
      EvInitialize (SessionOf server_name) ::
      match initialize p with
      | Throws ex => [connect_error server_name ex]
      | Returns _ => load_events (SessionOf server_name) p
      end
  end.

Definition registry_events (env : Env) (servers : list (string * string))
    : list Event :=
  concat (map (fun '(server_name, _) => connect_events env server_name) servers).

(** What [get_resource] prints for the reply of [read_resource]. *)
Definition resource_output (uri : string) (r : Reply ResourceResult)
    : list Event :=
  match r with
  | Returns (Some (text :: _)) =>
      [EvPrint (nl ++ "Resource: " ++ uri); EvPrint "Content:"; EvPrint text]
  | Returns _ => [EvPrint "No content available."]
  | Throws ex =>
      [EvPrint ("Error getting resource=" ++ uri ++ ": " ++ str_exn ex)]
  end.

(** The [read_resource] requests of a trace. *)
Definition resource_reads (tr : list Event) : list (Session * string) :=
  flat_map (fun e =>
    match e with
    | EvReadResource s uri => [(s, uri)]
    | _ => []
    end) tr.

(** ** Frame conditions

    [frame_rel N st st']: from [st] to [st'] the client object is unchanged,
    the list objects at the addresses below [N] are unchanged, no object is
    freed, and the trace is extended. *)
Definition frame_rel (N : nat) (st st' : PyState) : Prop :=
  self st' = self st /\
  length (heap st) <= length (heap st') /\
  (forall a, a < N -> heap st' !! a = heap st !! a) /\
  exists evs, events st' = events st ++ evs.

(** A computation that, started with at least [N] objects allocated, keeps
    the frame below [N] and returns only values satisfying [P]. *)
Definition respects (N : nat) {A : Type} (P : A -> Prop) (m : Py A) : Prop :=
  forall st, N <= length (heap st) ->
    frame_rel N st (snd (m st)) /\
    forall a, fst (m st) = Ok a -> P a.

Definition anything {A : Type} : A -> Prop := fun _ => True.

(** ** Traces of the conversation loop *)

(** The lines printed for the text items of a response. *)
Definition text_prints (items : list ContentItem) : list Event :=
  flat_map (fun c =>
    match c with
    | TextBlock text => [EvPrint text]
    | _ => []
    end) items.

(** The exception with which the provider answers a recorded [call_tool]
    request, if it answers with one. *)
Definition failing_call (env : Env) (e : Event) : option Exn :=
  match e with
  | EvCallTool s name input =>
      match call_tool (provider_of env s) name input with
      | Throws ex => Some ex
      | Returns _ => None
      end
  | _ => None
  end.

(** A run that has recorded [evs] and ended with [r] on the heap [h]: either
    no tool call of [evs] failed, or the failing call is the last event, its
    exception is the result, and the conversation at [messages] ends with
    the assistant turn whose content ends with the failing request. *)
Definition aborted (env : Env) (messages : addr) {A : Type} (r : Result A)
    (h : Heap) (evs : list Event) : Prop :=
  Forall (fun e => failing_call env e = None) evs \/
  exists evs0 s id name input ex msgs ac items,
    evs = evs0 ++ [EvCallTool s name input] /\
    Forall (fun e => failing_call env e = None) evs0 /\
    call_tool (provider_of env s) name input = Throws ex /\
    r = Raise ex /\
    h !! messages = Some (OMessages (msgs ++ [MAssistant ac])) /\
    h !! ac = Some (OContent (items ++ [ToolUseBlock id name input])).

(** ** Predicates on providers *)

(** The provider names [k] in a listing it answers: as a tool, as a prompt
    or as a resource URI. *)
Definition declares (p : Provider) (k : string) : Prop :=
  (exists tools, list_tools p = Returns tools /\ In k (map tool_name tools)) \/
  (exists prompts,
      list_prompts p = Returns (Some prompts) /\ In k (map prompt_name prompts)) \/
  (exists resources,
      list_resources p = Returns (Some resources) /\
      In k (map resource_uri resources)).

(** The provider connects and lists [tool] among its tools. *)
Definition declares_tool (p : Provider) (tool : Tool) : Prop :=
  open_transport p = Returns tt /\ initialize p = Returns tt /\
  exists tools, list_tools p = Returns tools /\ In tool tools.

(** Connection, handshake and the three listing calls all succeed. *)
Definition healthy (p : Provider) : Prop :=
  open_transport p = Returns tt /\ initialize p = Returns tt /\
  (exists r, list_tools p = Returns r) /\
  (exists r, list_prompts p = Returns r) /\
  (exists r, list_resources p = Returns r).

(** The provider raises while connecting, initializing or listing its
    tools, that is, before the first insertion into the registry. *)
Definition fails_early (p : Provider) : Prop :=
  (exists ex, open_transport p = Throws ex) \/
  (open_transport p = Returns tt /\ exists ex, initialize p = Throws ex) \/
  (open_transport p = Returns tt /\ initialize p = Returns tt /\
   exists ex, list_tools p = Throws ex).

(** The first exception raised while connecting to a provider and loading
    its components, if any. *)
Definition first_failure (p : Provider) : option Exn :=
  match open_transport p with
  | Throws ex => Some ex
  | Returns _ =>
      match initialize p with
      | Throws ex => Some ex
      | Returns _ =>
          match list_tools p with
          | Throws ex => Some ex
          | Returns _ =>
              match list_prompts p with
              | Throws ex => Some ex
              | Returns _ =>
                  match list_resources p with
                  | Throws ex => Some ex
                  | Returns _ => None
                  end
              end
          end
      end
  end.

(** ** Sample providers and environments *)

Definition mk_tool (name : string) : Tool :=
  {| tool_name := name; tool_description := ""; tool_inputSchema := "{}" |}.

Definition mk_prompt (name : string) : PromptDecl :=
  {| prompt_name := name; prompt_description := ""; prompt_arguments := [] |}.

Definition mk_resource (uri : string) : Resource := {| resource_uri := uri |}.

(** A provider that connects and answers every listing. *)
Definition serving (tools : list Tool) (prompts : list PromptDecl)
    (resources : list Resource) : Provider :=
  {| session_str := "<mcp.client.session.ClientSession object at 0x7f3a5c1d2e50>";
     open_transport := Returns tt;
     initialize := Returns tt;
     list_tools := Returns tools;
     list_prompts := Returns (Some prompts);
     list_resources := Returns (Some resources);
     call_tool := fun _ _ => Returns "ok";
     get_prompt := fun _ _ => Returns None;
     read_resource := fun _ => Returns None |}.

(** A provider whose [list_prompts] raises after [list_tools] succeeded. *)
Definition prompts_failing (tools : list Tool) : Provider :=
  {| session_str := "<mcp.client.session.ClientSession object at 0x7f3a5c1d9a10>";
     open_transport := Returns tt;
     initialize := Returns tt;
     list_tools := Returns tools;
     list_prompts := Throws (Exception "SessionError");
     list_resources := Returns None;
     call_tool := fun _ _ => Returns "ok";
     get_prompt := fun _ _ => Returns None;
     read_resource := fun _ => Returns None |}.

(** A provider whose transport cannot be opened. *)
Definition unreachable : Provider :=
  {| session_str := "";
     open_transport := Throws (Exception "TransportError");
     initialize := Returns tt;
     list_tools := Returns [mk_tool "ghost"];
     list_prompts := Returns None;
     list_resources := Returns None;
     call_tool := fun _ _ => Returns "ok";
     get_prompt := fun _ _ => Returns None;
     read_resource := fun _ => Returns None |}.

Definition silent_backend : list ToolDescriptor -> list Message ->
    Reply (list ContentItem) :=
  fun _ _ => Returns [].

(** Two providers that both declare a tool [X]. *)
Definition env_collision : Env :=
  {| remote := fun n =>
       if String.eqb n "first" then serving [mk_tool "X"] [] []
       else serving [mk_tool "Y"; mk_tool "X"] [] [];
     backend := silent_backend |}.

Definition servers_collision : list (string * string) :=
  [("first", "cfg1"); ("second", "cfg2")].

(** Two providers that both declare a tool [X], and a third, connected
    last, that has no tool and declares a prompt [X]. *)
Definition env_shadowed : Env :=
  {| remote := fun n =>
       if String.eqb n "first" then serving [mk_tool "X"] [] []
       else if String.eqb n "second" then serving [mk_tool "X"] [] []
       else serving [] [mk_prompt "X"] [];
     backend := silent_backend |}.

Definition servers_shadowed : list (string * string) :=
  [("first", "cfg1"); ("second", "cfg2"); ("third", "cfg3")].

(** A tool [X] of one provider and a prompt [X] of a later one. *)
Definition env_tool_prompt : Env :=
  {| remote := fun n =>
       if String.eqb n "tools" then serving [mk_tool "X"] [] []
       else serving [] [mk_prompt "X"] [];
     backend := silent_backend |}.

(** One provider fails in [list_prompts], one cannot be reached, one is
    healthy. *)
Definition env_failures : Env :=
  {| remote := fun n =>
       if String.eqb n "partial" then prompts_failing [mk_tool "search"]
       else if String.eqb n "down" then unreachable
       else serving [mk_tool "extract"] [] [mk_resource "papers://folders"];
     backend := silent_backend |}.

Definition servers_failures : list (string * string) :=
  [("down", "cfg0"); ("partial", "cfg1"); ("research", "cfg2")].

(** A literature provider: [extract] fails with a session error, every
    other tool answers. *)
Definition research : Provider :=
  {| session_str := "<mcp.client.session.ClientSession object at 0x7f3a5c1e4b90>";
     open_transport := Returns tt;
     initialize := Returns tt;
     list_tools := Returns [mk_tool "search"; mk_tool "extract"];
     list_prompts := Returns (Some [mk_prompt "generate_search_prompt"]);
     list_resources := Returns (Some [mk_resource "papers://folders"]);
     call_tool := fun name _ =>
       if String.eqb name "extract" then Throws (Exception "SessionError")
       else Returns "ids";
     get_prompt := fun _ _ =>
       Returns (Some [ContentWithText "Search for 5 papers about graphs"]);
     read_resource := fun _ => Returns (Some ["# Available Topics"]) |}.

(** A backend that answers the first request of a query according to the
    query text and every later request with text only. *)
Definition scripted_backend (tools : list ToolDescriptor)
    (messages : list Message) : Reply (list ContentItem) :=
  match messages with
  | [UserMessage query] =>
      if String.eqb query "three calls" then
        Returns [ToolUseBlock "A" "search" "graphs";
                 ToolUseBlock "B" "unknown" "{}";
                 ToolUseBlock "C" "search" "trees"]
      else if String.eqb query "failing call" then
        Returns [ToolUseBlock "F" "extract" "1234"]
      else
        Returns [TextBlock "Let me search."; ToolUseBlock "S" "search" query]
  | _ => Returns [TextBlock "Done."]
  end.

Definition env_chat : Env :=
  {| remote := fun _ => research; backend := scripted_backend |}.

(** The client after [connect_to_servers] on the single server
    [research]. *)
Definition chat_ready : PyState :=
  snd (connect_to_servers env_chat [("research", "cfg")] init_state).

(** The state in which the first round of [process_query query] starts:
    the [messages] list has been allocated at address [0]. *)
Definition chat_started (query : string) : PyState :=
  snd (alloc (OMessages [MUser query]) chat_ready).

(** The client after an earlier query has been processed. *)
Definition chat_after_query : PyState :=
  snd (process_query env_chat 5 "graphs" chat_ready).

(** ** Python strings

    [str.strip], [str.lower] and [str.split] on ASCII text: the characters
    for which [str.isspace] holds are 9 to 13 and 28 to 32, and [lower] maps
    [A] to [Z] only. *)
Module PyStr.

Definition is_space (c : Ascii.ascii) : bool :=
  let n := Ascii.nat_of_ascii c in
  ((9 <=? n)%nat && (n <=? 13)%nat) || ((28 <=? n)%nat && (n <=? 32)%nat).

Fixpoint lstrip (s : string) : string :=
  match s with
  | EmptyString => EmptyString
  | String c s' => if is_space c then lstrip s' else s
  end.

Fixpoint rstrip (s : string) : string :=
  match s with
  | EmptyString => EmptyString
  | String c s' =>
      match rstrip s' with
      | EmptyString => if is_space c then EmptyString else String c EmptyString
      | r => String c r
      end
  end.

Definition strip (s : string) : string := rstrip (lstrip s).

Definition lower_char (c : Ascii.ascii) : Ascii.ascii :=
  let n := Ascii.nat_of_ascii c in
  if (65 <=? n)%nat && (n <=? 90)%nat then Ascii.ascii_of_nat (n + 32) else c.

Fixpoint lower (s : string) : string :=
  match s with
  | EmptyString => EmptyString
  | String c s' => String (lower_char c) (lower s')
  end.

(** [s.split()]: the maximal runs of non-space characters; [cur] is the run
    being read. *)
Fixpoint split_from (cur s : string) : list string :=
  match s with
  | EmptyString =>
      match cur with
      | EmptyString => []
      | _ => [cur]
      end
  | String c s' =>
      if is_space c then
        match cur with
        | EmptyString => split_from EmptyString s'
        | _ => cur :: split_from EmptyString s'
        end
      else split_from (cur ++ String c EmptyString) s'
  end.

Definition split (s : string) : list string := split_from EmptyString s.

(** [s.split(sep, 1)] when [sep in s]: the text before the first [sep] and
    the text after it; [None] when [sep] does not occur. *)
Fixpoint split_once (sep : Ascii.ascii) (s : string) : option (string * string) :=
  match s with
  | EmptyString => None
  | String c s' =>
      if Ascii.eqb c sep then Some (EmptyString, s')
      else
        match split_once sep s' with
        | Some (k, v) => Some (String c k, v)
        | None => None
        end
  end.

(** The character [=]. *)
Definition equals_sign : Ascii.ascii := Ascii.ascii_of_nat 61.

(** [s[1:]]. *)
Definition tail (s : string) : string :=
  match s with
  | EmptyString => EmptyString
  | String _ s' => s'
  end.

(** Every character of [s] is an ASCII character. *)
Fixpoint ascii_text (s : string) : bool :=
  match s with
  | EmptyString => true
  | String c s' => (Ascii.nat_of_ascii c <? 128)%nat && ascii_text s'
  end.

(** [c in s] for a character [c]. *)
Fixpoint occurs (c : Ascii.ascii) (s : string) : bool :=
  match s with
  | EmptyString => false
  | String c' s' => Ascii.eqb c' c || occurs c s'
  end.

End PyStr.

(** ** McpChatBot: the interactive commands *)

Module Shell.

(** [McpChatBot.list_prompts]. *)
Definition list_prompts : Py unit :=
  let! b := get_self in
  match available_prompts b with
  | [] => print "No prompts available."
  | prompts =>
      do! print (nl ++ "Available prompts:") in
      for_each prompts (fun prompt =>
        do! print ("- " ++ pd_name prompt ++ ": " ++ pd_description prompt) in
        match pd_arguments prompt with
        | [] => ret tt
        | arguments =>
            do! print "  Arguments:" in
            for_each arguments (fun arg_name => print ("    - " ++ arg_name))
        end)
  end.

(** The URI a line [@topic] asks for. *)
Definition resource_uri_of (topic : string) : string :=
  if String.eqb topic "papers" then "papers://folders"
  else "papers://" ++ topic.

(** The [args] dictionary built from the tokens after the prompt name. *)
Definition parse_args (tokens : list string) : Dict.t string :=
  fold_left (fun args arg =>
    match PyStr.split_once PyStr.equals_sign arg with
    | Some (key, value) => Dict.set args key value
    | None => args
    end) tokens Dict.empty.

(** The line is the quit command. *)
Definition is_quit (raw : string) : bool :=
  String.eqb (PyStr.lower (PyStr.strip raw)) "quit".

(** What [chat_loop] does with a stripped, non-empty line that is not the
    quit command. *)
Definition dispatch (env : Env) (fuel : nat) (query : string) : Py unit :=
  if startswith query "@" then
    get_resource env (resource_uri_of (PyStr.tail query))
  else if startswith query "/" then
    match PyStr.split query with
    | [] => raise (Exception "list index out of range")
    | part0 :: parts =>
        let command := PyStr.lower part0 in
        if String.eqb command "/prompts" then list_prompts
        else if String.eqb command "/prompt" then
          match parts with
          | [] => print "Usage: /prompt <name> <arg1=value1> <arg2=value2>"
          | prompt_name :: tokens =>
              execute_prompt env fuel prompt_name (parse_args tokens)
          end
        else print ("Unknown command: " ++ command)
    end
  else process_query env fuel query.

(** What the user does at the prompt of [input]: a line is entered, or
    Ctrl-C is pressed, on which [input] raises [KeyboardInterrupt]. *)
Inductive Action : Type :=
| Enter (line : string)
| CtrlC.

(** One iteration of [while True] in [chat_loop]: [action] is what happens
    at [input], [None] at the end of the input, where [input] raises
    [EOFError].  The prompt of [input] is recorded as printed. *)
Definition chat_turn (env : Env) (fuel : nat) (action : option Action)
    : Py Flow :=
  try_except
    (do! print (nl ++ "Send a message: ") in
     match action with
     | None => raise (Exception "EOF when reading a line")
     | Some CtrlC => interrupt "KeyboardInterrupt"
     | Some (Enter raw) =>
         let query := PyStr.strip raw in
         if String.eqb query "" then ret Next
         else if String.eqb (PyStr.lower query) "quit" then ret Break
         else do! dispatch env fuel query in ret Next
     end)
    (fun e => do! print (nl ++ "Error: " ++ str_exn e) in ret Next).

(** The loop of [chat_loop] over what the user does at the prompts. *)
Fixpoint chat_turns (env : Env) (fuel qfuel : nat) (user : list Action)
    : Py unit :=
  match fuel with
  | O => fun st => (OutOfFuel, st)
  | S fuel' =>
      let! f := chat_turn env qfuel (head user) in
      match f with
      | Break => ret tt
      | Next => chat_turns env fuel' qfuel (List.tl user)
      end
  end.

Definition banner : list string :=
  [(nl ++ "Hello! I'm here to help you search for academic papers "
       ++ "on arXiv or extract information about specific papers.")%string;
   "(Write 'quit' to exit.)";
   (nl ++ "Use: @papers to see available papers topics.")%string;
   "Use: @<topic> to search papers in that topic.";
   "Use: /prompts to list available prompts.";
   "Use: /prompt <prompt name> <arg1=value1> to execute a prompt."].

(** [McpChatBot.chat_loop]; [fuel] bounds the turns and [qfuel] the rounds
    of each query. *)
Definition chat_loop_with (env : Env) (fuel qfuel : nat) (user : list Action)
    : Py unit :=
  do! for_each banner print in
  chat_turns env fuel qfuel user.

(** [chat_loop] when the user enters the lines of [stdin] and never presses
    Ctrl-C. *)
Definition chat_loop (env : Env) (fuel qfuel : nat) (stdin : list string)
    : Py unit :=
  chat_loop_with env fuel qfuel (map Enter stdin).

End Shell.

(** ** Closed forms for the commands and for an answered round *)

(** The lines [list_prompts] prints for one prompt. *)
Definition prompt_entry (prompt : PromptDescriptor) : string :=
  "- " ++ pd_name prompt ++ ": " ++ pd_description prompt.

Definition prompt_lines (prompt : PromptDescriptor) : list string :=
  prompt_entry prompt ::
  match pd_arguments prompt with
  | [] => []
  | arguments =>
      "  Arguments:" :: map (fun arg_name => "    - " ++ arg_name)%string arguments
  end.

(** The item is appended to [assistant_content]. *)
Definition kept_item (c : ContentItem) : bool :=
  match c with
  | OtherBlock _ => false
  | _ => true
  end.

(** The invocation request, if the item is one, resolves in [sessions] and
    its [call_tool] returns. *)
Definition answered (env : Env) (b : McpChatBot) (c : ContentItem) : bool :=
  match c with
  | ToolUseBlock _ name input =>
      match Dict.get (sessions b) name with
      | Some s =>
          match call_tool (provider_of env s) name input with
          | Returns _ => true
          | Throws _ => false
          end
      | None => false
      end
  | _ => true
  end.

(** What processing an answered item records, what it appends to
    [messages], and how the backend sees those turns once the whole response
    [content] has been processed. *)
Definition item_events (b : McpChatBot) (c : ContentItem) : list Event :=
  match c with
  | TextBlock text => [EvPrint text]
  | ToolUseBlock _ name input =>
      match Dict.get (sessions b) name with
      | Some s => [EvCallTool s name input]
      | None => []
      end
  | OtherBlock _ => []
  end.

Definition item_msgs (env : Env) (b : McpChatBot) (assistant_content : addr)
    (c : ContentItem) : list Msg :=
  match c with
  | ToolUseBlock id name input =>
      match Dict.get (sessions b) name with
      | Some s =>
          match call_tool (provider_of env s) name input with
          | Returns result =>
              [MAssistant assistant_content; MToolResult id result]
          | Throws _ => []
          end
      | None => []
      end
  | _ => []
  end.

Definition item_turns (env : Env) (b : McpChatBot)
    (content : list ContentItem) (c : ContentItem) : list Message :=
  match c with
  | ToolUseBlock id name input =>
      match Dict.get (sessions b) name with
      | Some s =>
          match call_tool (provider_of env s) name input with
          | Returns result =>
              [AssistantMessage content; ToolResultMessage id result]
          | Throws _ => []
          end
      | None => []
      end
  | _ => []
  end.

(** Every assistant turn of the list refers to an object below [n]. *)
Definition refs_below (n : nat) (msgs : list Msg) : Prop :=
  Forall (fun m =>
    match m with
    | MAssistant r => r < n
    | _ => True
    end) msgs.

(** ** The literature provider: reading the stored papers

    [src/server/mcp_server.py] keeps one directory per topic under
    [PAPER_DIR], each with a file [papers_info.json].  The functions below
    read a snapshot of that tree; what [logging] writes is left out. *)
Module Server.

Section Papers.

(** The value stored for one paper and its [json.dumps(_, indent=2)]. *)
Variable PaperInfo : Type.
Variable json_dumps : PaperInfo -> string.

(** The path [papers_info.json] of a topic directory:
    - absent;
    - present but not a regular file;
    - a regular file on which [open] raises [FileNotFoundError] or
      [json.load] raises [JSONDecodeError], the two exceptions that
      [extract_info] catches;
    - a regular file on which [open] or [json.load] raises any other
      exception [ex] ([PermissionError], [UnicodeDecodeError]);
    - a regular file holding a JSON object, as [search_papers] writes it;
    - a regular file holding a JSON value that is not an object (a list, a
      string, a number, [true], [false] or [null]); [lookup paper_id] tells
      what [paper_id in papers_info] followed by [papers_info[paper_id]]
      does on that value: [None] when the membership test is false, and the
      [TypeError] raised by the test or by the indexing otherwise. *)
Inductive InfoFile : Type :=
| NoInfo
| NotRegular
| Undecodable
| Unreadable (ex : Exn)
| Decoded (papers_info : Dict.t PaperInfo)
| NonObject (lookup : string -> option Exn).

(** An item of [os.listdir(PAPER_DIR)]. *)
Inductive Entry : Type :=
| PlainFile
| Directory (info : InfoFile).

(** [PAPER_DIR] itself; the entries are in the order [os.listdir] returns
    them. *)
Inductive PaperDir : Type :=
| Absent
| NotADirectory
| Listing (entries : list (string * Entry)).

Definition PAPER_DIR : string := "papers".

(** [os.path.isfile] and [os.path.exists] of the info file. *)
Definition isfile (info : InfoFile) : bool :=
  match info with
  | NoInfo | NotRegular => false
  | _ => true
  end.

Definition exists_ (info : InfoFile) : bool :=
  match info with
  | NoInfo => false
  | _ => true
  end.

(** The loop of [extract_info] over the listing.  The [try] block catches
    [FileNotFoundError] and [JSONDecodeError] only; any other exception
    leaves the function. *)
Fixpoint extract_info_from (entries : list (string * Entry))
    (paper_id : string) : Reply string :=
  match entries with
  | [] =>
      Returns ("There's no saved information related to paper "
               ++ paper_id ++ ".")%string
  | (item, Directory info) :: rest =>
      if isfile info then
        match info with
        | Decoded papers_info =>
            match Dict.get papers_info paper_id with
            | Some paper => Returns (json_dumps paper)
            | None => extract_info_from rest paper_id
            end
        | NonObject lookup =>
            match lookup paper_id with
            | Some ex => Throws ex
            | None => extract_info_from rest paper_id
            end
        | Unreadable ex => Throws ex
        | _ => extract_info_from rest paper_id
        end
      else extract_info_from rest paper_id
  | (item, PlainFile) :: rest => extract_info_from rest paper_id
  end.

(** [extract_info]: [os.listdir] raises when [PAPER_DIR] is missing or is
    not a directory. *)
Definition extract_info (fs : PaperDir) (paper_id : string) : Reply string :=
  match fs with
  | Absent =>
      Throws (Exception ("[Errno 2] No such file or directory: '"
                         ++ PAPER_DIR ++ "'"))
  | NotADirectory =>
      Throws (Exception ("[Errno 20] Not a directory: '" ++ PAPER_DIR ++ "'"))
  | Listing entries => extract_info_from entries paper_id
  end.

(** The first loop of [get_available_folders]. *)
Fixpoint topic_folders (entries : list (string * Entry)) : list string :=
  match entries with
  | [] => []
  | (topic_dir, Directory info) :: rest =>
      if exists_ info then topic_dir :: topic_folders rest
      else topic_folders rest
  | (topic_dir, PlainFile) :: rest => topic_folders rest
  end.

(** The second loop: one line per folder; [folder] is the loop variable,
    which the hint after the loop reads. *)
Fixpoint folder_lines (folders : list string) (content folder : string)
    : string * string :=
  match folders with
  | [] => (content, folder)
  | f :: rest => folder_lines rest (content ++ "- " ++ f ++ nl) f
  end.

Definition render_folders (folders : list string) : string :=
  let content := ("# Available Topics" ++ nl ++ nl)%string in
  match folders with
  | [] => (content ++ "No topics found." ++ nl)%string
  | _ =>
      let (content, folder) := folder_lines folders content "" in
      (content ++ nl ++ "Use @" ++ folder
         ++ " to access papers in that topic." ++ nl)%string
  end.

(** [get_available_folders]. *)
Definition get_available_folders (fs : PaperDir) : Reply string :=
  match fs with
  | Absent => Returns (render_folders [])
  | NotADirectory =>
      Throws (Exception ("[Errno 20] Not a directory: '" ++ PAPER_DIR ++ "'"))
  | Listing entries => Returns (render_folders (topic_folders entries))
  end.

End Papers.

Arguments NoInfo {PaperInfo}.
Arguments NotRegular {PaperInfo}.
Arguments Undecodable {PaperInfo}.
Arguments Unreadable {PaperInfo} ex.
Arguments Decoded {PaperInfo} papers_info.
Arguments NonObject {PaperInfo} lookup.
Arguments PlainFile {PaperInfo}.
Arguments Directory {PaperInfo} info.
Arguments Absent {PaperInfo}.
Arguments NotADirectory {PaperInfo}.
Arguments Listing {PaperInfo} entries.
Arguments isfile {PaperInfo} info.
Arguments exists_ {PaperInfo} info.
Arguments extract_info_from {PaperInfo} json_dumps entries paper_id.
Arguments extract_info {PaperInfo} json_dumps fs paper_id.
Arguments topic_folders {PaperInfo} entries.
Arguments get_available_folders {PaperInfo} fs.

End Server.

(** * Properties *)

(** ** Dictionaries *)

Lemma dict_get_set_eq {V : Type} (d : Dict.t V) (k : string) (v : V) :
  Dict.get (Dict.set d k v) k = Some v.
Proof.
  induction d as [|[k' v'] d IH]; simpl.
  - now rewrite String.eqb_refl.
  - destruct (String.eqb k' k) eqn:E; simpl; now rewrite E.
Qed.

Lemma dict_get_set_ne {V : Type} (d : Dict.t V) (k k' : string) (v : V) :
  k <> k' -> Dict.get (Dict.set d k v) k' = Dict.get d k'.
Proof.
  intros Hne. induction d as [|[k0 v0] d IH]; simpl.
  - destruct (String.eqb_spec k k'); congruence.
  - destruct (String.eqb_spec k0 k) as [->|Hk]; simpl.
    + destruct (String.eqb_spec k k'); congruence.
    + destruct (String.eqb_spec k0 k'); auto.
Qed.

Lemma register_keys_notin (ks : list string) (s : Session)
    (d : Dict.t Session) (k : string) :
  ~ In k ks -> Dict.get (register_keys ks s d) k = Dict.get d k.
Proof.
  revert d. induction ks as [|a ks IH]; intros d Hn; simpl; [reflexivity|].
  unfold register_keys in *. simpl. rewrite IH.
  - apply dict_get_set_ne. intros ->. apply Hn. now left.
  - intros Hin. apply Hn. now right.
Qed.

Lemma register_keys_in (ks : list string) (s : Session)
    (d : Dict.t Session) (k : string) :
  In k ks -> Dict.get (register_keys ks s d) k = Some s.
Proof.
  revert d. induction ks as [|a ks IH]; intros d Hin; [destruct Hin|].
  destruct (in_dec string_dec k ks) as [Hk|Hk].
  - unfold register_keys in *. simpl. now apply IH.
  - destruct Hin as [->|Hin]; [|contradiction].
    change (register_keys (k :: ks) s d)
      with (register_keys ks s (Dict.set d k s)).
    rewrite register_keys_notin by assumption. apply dict_get_set_eq.
Qed.

Lemma register_keys_app (ks1 ks2 : list string) (s : Session)
    (d : Dict.t Session) :
  register_keys (ks1 ++ ks2) s d = register_keys ks2 s (register_keys ks1 s d).
Proof. unfold register_keys. apply fold_left_app. Qed.

(** ** Building the registry: the code against its closed form *)

Lemma for_each_tools (session : Session) (tools : list Tool) (st : PyState) :
  for_each tools (fun tool =>
      do! sessions_set (tool_name tool) session in
      available_tools_append (tool_descriptor tool)) st
  = (Ok tt,
     {| self :=
          {| sessions :=
               register_keys (map tool_name tools) session (sessions (self st));
             available_tools :=
               available_tools (self st) ++ map tool_descriptor tools;
             available_prompts := available_prompts (self st) |};
        heap := heap st; events := events st |}).
Proof.
  revert st. induction tools as [|tool tools IH]; intros [[d ts ps] h ev].
  - cbn. now rewrite app_nil_r.
  - cbn [for_each]. unfold bind at 1. cbn. rewrite IH. cbn.
    now rewrite <- app_assoc.
Qed.

Lemma for_each_prompts (session : Session) (prompts : list PromptDecl)
    (st : PyState) :
  for_each prompts (fun prompt =>
      do! sessions_set (prompt_name prompt) session in
      available_prompts_append (prompt_descriptor prompt)) st
  = (Ok tt,
     {| self :=
          {| sessions :=
               register_keys (map prompt_name prompts) session
                 (sessions (self st));
             available_tools := available_tools (self st);
             available_prompts :=
               available_prompts (self st) ++ map prompt_descriptor prompts |};
        heap := heap st; events := events st |}).
Proof.
  revert st. induction prompts as [|prompt prompts IH]; intros [[d ts ps] h ev].
  - cbn. now rewrite app_nil_r.
  - cbn [for_each]. unfold bind at 1. cbn. rewrite IH. cbn.
    now rewrite <- app_assoc.
Qed.

Lemma for_each_resources (session : Session) (resources : list Resource)
    (st : PyState) :
  for_each resources (fun resource =>
      sessions_set (resource_uri resource) session) st
  = (Ok tt,
     {| self :=
          {| sessions :=
               register_keys (map resource_uri resources) session
                 (sessions (self st));
             available_tools := available_tools (self st);
             available_prompts := available_prompts (self st) |};
        heap := heap st; events := events st |}).
Proof.
  revert st. induction resources as [|r resources IH]; intros [[d ts ps] h ev].
  - reflexivity.
  - cbn [for_each]. unfold bind at 1. cbn. now rewrite IH.
Qed.

Lemma bind_eq {A B : Type} (m : Py A) (k : A -> Py B) (st : PyState) :
  bind m k st =
  match m st with
  | (Ok a, st') => k a st'
  | (Raise ex, st') => (Raise ex, st')
  | (Interrupted signal, st') => (Interrupted signal, st')
  | (OutOfFuel, st') => (OutOfFuel, st')
  end.
Proof. reflexivity. Qed.

(** Unfolding of the monad's primitives. *)
Ltac py_prim :=
  unfold call, print, emit, ret, raise, interrupt, get_self, put_self,
    get_heap, alloc, modify_heap, try_except.

(** Running the primitives of a computation applied to a state. *)
Ltac py_run :=
  repeat first
    [ rewrite bind_eq
    | progress (cbn [modify_heap get_self get_heap emit print ret raise
                     interrupt alloc self heap events]) ].

Ltac py_simpl :=
  repeat first
    [ rewrite bind_eq
    | progress py_prim
    | progress (cbn -[String.append String.concat]) ].

Lemma load_mcp_components_loaded (env : Env) (session : Session) (st : PyState) :
  load_mcp_components env session st
  = (Ok tt,
     {| self := loaded session (provider_of env session) (self st);
        heap := heap st;
        events := events st ++ load_events session (provider_of env session) |}).
Proof.
  unfold load_mcp_components, load_mcp_components_body, loaded,
    loaded_keys, loaded_tools, loaded_prompts, loaded_resources, load_events,
    load_error.
  set (p := provider_of env session). destruct st as [[d ts ps] h ev].
  py_simpl.
  destruct (list_tools p) as [tools|ex]; py_simpl.
  2: { now rewrite ?app_nil_r, <- ?app_assoc. }
  rewrite for_each_tools. py_simpl.
  destruct (list_prompts p) as [pr|ex]; py_simpl.
  2: { now rewrite ?app_nil_r, <- ?app_assoc. }
  destruct pr as [prompts|]; [rewrite for_each_prompts|]; py_simpl;
    (destruct (list_resources p) as [rr|ex]; py_simpl;
     [ destruct rr as [resources|]; [rewrite for_each_resources|]; py_simpl | ]);
    now rewrite ?app_nil_r, ?register_keys_app, <- ?app_assoc.
Qed.

Lemma connect_to_server_connected (env : Env) (server_name server_config : string)
    (st : PyState) :
  connect_to_server env server_name server_config st
  = (Ok tt,
     {| self := connected env server_name (self st);
        heap := heap st;
        events := events st ++ connect_events env server_name |}).
Proof.
  unfold connect_to_server, connect_to_server_body, connected, connects,
    connect_events, connect_error.
  destruct st as [b h ev]. py_simpl.
  destruct (open_transport (remote env server_name)) as [[]|ex]; py_simpl.
  2: { now rewrite <- ?app_assoc. }
  destruct (initialize (remote env server_name)) as [[]|ex]; py_simpl.
  2: { now rewrite <- ?app_assoc. }
  rewrite load_mcp_components_loaded. cbn -[String.append].
  now rewrite <- ?app_assoc.
Qed.

Lemma for_each_connect (env : Env) (servers : list (string * string))
    (st : PyState) :
  for_each servers (fun '(server_name, server_config) =>
      connect_to_server env server_name server_config) st
  = (Ok tt,
     {| self := registry_of env servers (self st);
        heap := heap st;
        events := events st ++ registry_events env servers |}).
Proof.
  revert st. induction servers as [|[n c] servers IH]; intros st.
  - destruct st as [b h ev]. cbn. now rewrite app_nil_r.
  - cbn [for_each]. rewrite bind_eq, connect_to_server_connected, IH.
    cbn -[connect_events]. now rewrite <- app_assoc.
Qed.

Lemma connect_to_servers_registry (env : Env) (servers : list (string * string))
    (st : PyState) :
  connect_to_servers env servers st
  = (Ok tt,
     {| self := registry_of env servers (self st);
        heap := heap st;
        events := events st ++ registry_events env servers |}).
Proof.
  unfold connect_to_servers, try_except. now rewrite for_each_connect.
Qed.

Lemma registry_of_app (env : Env) (l1 l2 : list (string * string))
    (b : McpChatBot) :
  registry_of env (l1 ++ l2) b = registry_of env l2 (registry_of env l1 b).
Proof. unfold registry_of. apply fold_left_app. Qed.

Lemma registry_events_app (env : Env) (l1 l2 : list (string * string)) :
  registry_events env (l1 ++ l2)
  = registry_events env l1 ++ registry_events env l2.
Proof. unfold registry_events. now rewrite map_app, concat_app. Qed.

(** The routing map of a connected provider in terms of its keys. *)
Lemma sessions_connected (env : Env) (n : string) (b : McpChatBot) :
  sessions (connected env n b)
  = register_keys (contributed_keys (remote env n)) (SessionOf n) (sessions b).
Proof.
  unfold connected, contributed_keys.
  destruct (connects (remote env n)); reflexivity.
Qed.

Lemma available_tools_connected (env : Env) (n : string) (b : McpChatBot) :
  available_tools (connected env n b)
  = available_tools b ++ map tool_descriptor (contributed_tools (remote env n)).
Proof.
  unfold connected, contributed_tools.
  destruct (connects (remote env n)); cbn; [reflexivity|].
  now rewrite app_nil_r.
Qed.

(** A name that no provider of the list registers keeps its route. *)
Lemma registry_of_untouched (env : Env) (servers : list (string * string))
    (b : McpChatBot) (k : string) :
  (forall n c, In (n, c) servers -> ~ In k (contributed_keys (remote env n))) ->
  Dict.get (sessions (registry_of env servers b)) k = Dict.get (sessions b) k.
Proof.
  revert b. induction servers as [|[n c] servers IH]; intros b H; [reflexivity|].
  change (registry_of env ((n, c) :: servers) b)
    with (registry_of env servers (connected env n b)).
  rewrite IH.
  - rewrite sessions_connected. apply register_keys_notin.
    apply (H n c). now left.
  - intros n' c' Hin. apply (H n' c'). now right.
Qed.

(** The descriptor list only grows. *)
Lemma registry_of_tools_prefix (env : Env) (servers : list (string * string))
    (b : McpChatBot) :
  exists rest,
    available_tools (registry_of env servers b) = available_tools b ++ rest.
Proof.
  revert b. induction servers as [|[n c] servers IH]; intros b.
  - exists []. cbn. now rewrite app_nil_r.
  - change (registry_of env ((n, c) :: servers) b)
      with (registry_of env servers (connected env n b)).
    destruct (IH (connected env n b)) as [rest Hrest].
    rewrite Hrest, available_tools_connected, <- app_assoc. eauto.
Qed.

Lemma contributed_keys_declares (p : Provider) (k : string) :
  In k (contributed_keys p) -> declares p k.
Proof.
  unfold contributed_keys, loaded_keys, loaded_tools, loaded_prompts,
    loaded_resources, declares.
  destruct (connects p); [|intros []].
  destruct (list_tools p) as [tools|ex]; cbn.
  2: { intros []. }
  rewrite in_app_iff. intros [Hin|Hin]; [left; eauto|].
  destruct (list_prompts p) as [[prompts|]|ex]; cbn in Hin;
    try rewrite in_app_iff in Hin.
  - destruct Hin as [Hin|Hin]; [right; left; eauto|].
    destruct (list_resources p) as [[resources|]|ex]; cbn in Hin;
      try contradiction.
    right; right; eauto.
  - destruct (list_resources p) as [[resources|]|ex]; cbn in Hin;
      try contradiction.
    right; right; eauto.
  - contradiction.
Qed.

Lemma declares_tool_contributed (p : Provider) (tool : Tool) :
  declares_tool p tool ->
  In tool (contributed_tools p) /\ In (tool_name tool) (contributed_keys p).
Proof.
  intros (Ho & Hi & tools & Ht & Hin).
  unfold contributed_tools, contributed_keys, connects, loaded_keys,
    loaded_tools.
  rewrite Ho, Hi, Ht. split; [assumption|].
  apply in_or_app. left. now apply in_map.
Qed.

Lemma registry_of_cons (env : Env) (n c : string)
    (servers : list (string * string)) (b : McpChatBot) :
  registry_of env ((n, c) :: servers) b
  = registry_of env servers (connected env n b).
Proof. reflexivity. Qed.

(** After the provider that declares [tool] has been connected, and as long
    as no later provider names it, the tool routes to that provider. *)
Lemma registry_of_routes_tool (env : Env) (before after : list (string * string))
    (n c : string) (tool : Tool) (b : McpChatBot) :
  declares_tool (remote env n) tool ->
  (forall n' c', In (n', c') after ->
     ~ declares (remote env n') (tool_name tool)) ->
  Dict.get (sessions (registry_of env (before ++ (n, c) :: after) b))
    (tool_name tool) = Some (SessionOf n).
Proof.
  intros Hd Hafter.
  rewrite registry_of_app, registry_of_cons, registry_of_untouched.
  - rewrite sessions_connected. apply register_keys_in.
    now apply declares_tool_contributed.
  - intros n' c' Hin Hk. apply (Hafter n' c' Hin).
    now apply contributed_keys_declares.
Qed.

Lemma registry_of_lists_tool (env : Env) (before after : list (string * string))
    (n c : string) (tool : Tool) (b : McpChatBot) :
  declares_tool (remote env n) tool ->
  exists l1 l2,
    available_tools (registry_of env (before ++ (n, c) :: after) b)
    = (available_tools (registry_of env before b) ++ l1)
      ++ tool_descriptor tool :: l2.
Proof.
  intros Hd. apply declares_tool_contributed in Hd as [Hin _].
  apply in_split in Hin as (x & y & Hxy).
  rewrite registry_of_app, registry_of_cons.
  destruct (registry_of_tools_prefix env after
              (connected env n (registry_of env before b))) as [rest Hrest].
  rewrite Hrest, available_tools_connected, Hxy, map_app. cbn [map].
  exists (map tool_descriptor x), (map tool_descriptor y ++ rest).
  now rewrite <- !app_assoc.
Qed.

(** C3, as stated, fails: the providers [first] and [second] both declare
    the tool [X], [second] is the later of the two, and [available_tools]
    holds both declarations; yet [X] does not route to [second], because the
    provider [third], which declares no tool, registers a prompt [X] in the
    same dictionary. *)
Lemma later_prompt_takes_over_tool_name :
  let st' := snd (connect_to_servers env_shadowed servers_shadowed init_state) in
  list_tools (remote env_shadowed "first") = Returns [mk_tool "X"] /\
  list_tools (remote env_shadowed "second") = Returns [mk_tool "X"] /\
  list_tools (remote env_shadowed "third") = Returns [] /\
  fst (connect_to_servers env_shadowed servers_shadowed init_state) = Ok tt /\
  Dict.get (sessions (self st')) "X" = Some (SessionOf "third") /\
  Dict.get (sessions (self st')) "X" <> Some (SessionOf "second") /\
  available_tools (self st')
  = [{| td_name := "X"; td_description := ""; td_input_schema := "{}" |};
     {| td_name := "X"; td_description := ""; td_input_schema := "{}" |}].
Proof. vm_compute. repeat split. discriminate. Qed.

(** C3, amended: when two providers, connected in configuration order, both
    declare a tool named [X], and no provider connected after the later of
    the two names [X] in any of its listings (as a tool, a prompt or a
    resource), then after the registry build [sessions] routes [X] to the
    later provider's session, while [available_tools] still holds both
    declarations, each with the description and the input schema its
    provider gave, the earlier one first. *)
Theorem last_registered_tool_wins (env : Env)
    (before between after : list (string * string)) (n1 c1 n2 c2 : string)
    (t1 t2 : Tool) (X : string) (st : PyState) :
  declares_tool (remote env n1) t1 -> tool_name t1 = X ->
  declares_tool (remote env n2) t2 -> tool_name t2 = X ->
  (forall n c, In (n, c) after -> ~ declares (remote env n) X) ->
  let servers := before ++ (n1, c1) :: between ++ (n2, c2) :: after in
  let st' := snd (connect_to_servers env servers st) in
  fst (connect_to_servers env servers st) = Ok tt /\
  Dict.get (sessions (self st')) X = Some (SessionOf n2) /\
  exists l1 l2 l3,
    available_tools (self st')
    = l1
      ++ {| td_name := X; td_description := tool_description t1;
            td_input_schema := tool_inputSchema t1 |}
      :: l2
      ++ {| td_name := X; td_description := tool_description t2;
            td_input_schema := tool_inputSchema t2 |}
      :: l3.
Proof.
  intros H1 HX1 H2 HX2 Hafter servers st'. subst st'.
  rewrite connect_to_servers_registry. cbn [fst snd self].
  split; [reflexivity|]. subst servers.
  replace (before ++ (n1, c1) :: between ++ (n2, c2) :: after)
    with ((before ++ (n1, c1) :: between) ++ (n2, c2) :: after)
    by (now rewrite <- app_assoc).
  split.
  - rewrite <- HX2. apply registry_of_routes_tool; [assumption|].
    now rewrite HX2.
  - destruct (registry_of_lists_tool env (before ++ (n1, c1) :: between) after
                n2 c2 t2 (self st) H2) as (m1 & m2 & Hm).
    destruct (registry_of_lists_tool env before between n1 c1 t1 (self st) H1)
      as (k1 & k2 & Hk).
    rewrite Hm, Hk. unfold tool_descriptor. rewrite HX1, HX2.
    exists (available_tools (registry_of env before (self st)) ++ k1),
      (k2 ++ m1), m2.
    now rewrite <- !app_assoc.
Qed.

(** The two-provider configuration of [env_collision]: [X] routes to the
    second session and is listed twice. *)
Lemma last_registered_tool_wins_witness :
  let st' := snd (connect_to_servers env_collision servers_collision init_state) in
  fst (connect_to_servers env_collision servers_collision init_state) = Ok tt /\
  Dict.get (sessions (self st')) "X" = Some (SessionOf "second") /\
  exists l1 l2 l3,
    available_tools (self st')
    = l1
      ++ {| td_name := "X"; td_description := ""; td_input_schema := "{}" |}
      :: l2
      ++ {| td_name := "X"; td_description := ""; td_input_schema := "{}" |}
      :: l3.
Proof.
  apply (last_registered_tool_wins env_collision [] [] []
           "first" "cfg1" "second" "cfg2" (mk_tool "X") (mk_tool "X") "X"
           init_state).
  - repeat split. exists [mk_tool "X"]. split; [reflexivity | now left].
  - reflexivity.
  - repeat split. exists [mk_tool "Y"; mk_tool "X"].
    split; [reflexivity | right; now left].
  - reflexivity.
  - intros n c [].
Defined.

(** ** Registry completeness *)

Lemma healthy_contributed_tools (p : Provider) :
  healthy p -> contributed_tools p = loaded_tools p.
Proof.
  intros (Ho & Hi & _). unfold contributed_tools, connects.
  now rewrite Ho, Hi.
Qed.

Lemma registry_of_tools_length (env : Env) (servers : list (string * string))
    (b : McpChatBot) :
  length (available_tools (registry_of env servers b))
  = length (available_tools b)
    + list_sum (map (fun '(n, _) =>
                       length (contributed_tools (remote env n))) servers).
Proof.
  revert b. induction servers as [|[n c] servers IH]; intros b.
  - cbn. lia.
  - rewrite registry_of_cons, IH, available_tools_connected.
    rewrite length_app, length_map. unfold list_sum. cbn [map fold_right]. lia.
Qed.

(** C8: when every configured provider connects and all its listing calls
    succeed, the registry built from a fresh client has as many tool
    descriptors as the providers declare tools in total, and every declared
    tool whose name no later provider registers (no collision) routes to the
    session of the provider that declared it. *)
Theorem registry_completeness (env : Env) (servers : list (string * string)) :
  Forall (fun '(n, _) => healthy (remote env n)) servers ->
  let st' := snd (connect_to_servers env servers init_state) in
  length (available_tools (self st'))
  = list_sum (map (fun '(n, _) => length (loaded_tools (remote env n))) servers)
  /\
  forall before n c after tool,
    servers = before ++ (n, c) :: after ->
    In tool (loaded_tools (remote env n)) ->
    (forall n' c', In (n', c') after ->
       ~ declares (remote env n') (tool_name tool)) ->
    Dict.get (sessions (self st')) (tool_name tool) = Some (SessionOf n).
Proof.
  intros Hall st'. subst st'. rewrite connect_to_servers_registry.
  cbn [snd self]. split.
  - rewrite registry_of_tools_length. cbn [init_state self init_bot
      available_tools length]. cbn [Nat.add]. f_equal.
    induction Hall as [|[n c] servers Hn Hall IH]; [reflexivity|].
    unfold list_sum in *. cbn [map fold_right].
    now rewrite IH, healthy_contributed_tools.
  - intros before n c after tool -> Hin Hafter.
    apply registry_of_routes_tool; [|assumption].
    assert (Hh : healthy (remote env n)).
    { apply (proj1 (List.Forall_forall _ _) Hall (n, c)).
      apply in_or_app. right. now left. }
    destruct Hh as (Ho & Hi & [tools Ht] & _).
    unfold loaded_tools in Hin. rewrite Ht in Hin.
    repeat split; try assumption. eauto.
Qed.

Lemma healthy_serving (tools : list Tool) (prompts : list PromptDecl)
    (resources : list Resource) :
  healthy (serving tools prompts resources).
Proof. repeat split; eexists; reflexivity. Defined.

(** Two healthy providers with one and two tools: three descriptors. *)
Lemma registry_completeness_witness :
  let st' := snd (connect_to_servers env_collision servers_collision init_state) in
  length (available_tools (self st')) = 3
  /\
  forall before n c after tool,
    servers_collision = before ++ (n, c) :: after ->
    In tool (loaded_tools (remote env_collision n)) ->
    (forall n' c', In (n', c') after ->
       ~ declares (remote env_collision n') (tool_name tool)) ->
    Dict.get (sessions (self st')) (tool_name tool) = Some (SessionOf n).
Proof.
  apply (registry_completeness env_collision servers_collision).
  repeat constructor; apply healthy_serving.
Defined.

(** ** Partial registration *)

(** C10: registration is not atomic.  When [list_tools] succeeds and the
    later [list_prompts] or [list_resources] raises, [load_mcp_components]
    still returns normally: the exception is caught and the last thing done
    is to print it, after the text of the session object.  Every tool
    inserted before the failure stays in the routing map, bound to this
    session, and its descriptor, with the name, description and input schema
    the provider listed, stays in [available_tools]. *)
Theorem load_mcp_components_not_atomic (env : Env) (session : Session)
    (tools : list Tool) (ex : Exn) (st : PyState) :
  let p := provider_of env session in
  list_tools p = Returns tools ->
  list_prompts p = Throws ex \/
  ((exists pr, list_prompts p = Returns pr) /\ list_resources p = Throws ex) ->
  let r := load_mcp_components env session st in
  fst r = Ok tt /\
  last (events (snd r))
  = Some (EvPrint ("Error loading MCP component from session="
                   ++ session_str p ++ ": " ++ str_exn ex)) /\
  available_tools (self (snd r))
  = available_tools (self st)
    ++ map (fun tool =>
              {| td_name := tool_name tool;
                 td_description := tool_description tool;
                 td_input_schema := tool_inputSchema tool |}) tools /\
  forall tool, In tool tools ->
    Dict.get (sessions (self (snd r))) (tool_name tool) = Some session /\
    In {| td_name := tool_name tool;
          td_description := tool_description tool;
          td_input_schema := tool_inputSchema tool |}
       (available_tools (self (snd r))).
Proof.
  intros p Ht Hfail r. subst r. rewrite load_mcp_components_loaded.
  cbn [fst snd self events]. split; [reflexivity|]. fold p.
  assert (Hlast : last (events st ++ load_events session p)
                  = Some (EvPrint ("Error loading MCP component from session="
                                   ++ session_str p ++ ": " ++ str_exn ex))).
  { unfold load_events, load_error. rewrite Ht.
    destruct Hfail as [Hp|[[pr Hp] Hr]]; rewrite Hp; [|rewrite Hr].
    - change (EvListTools session :: EvListPrompts session :: [?e])
        with ([EvListTools session; EvListPrompts session] ++ [e]).
      rewrite app_assoc. apply last_snoc.
    - change (EvListTools session :: EvListPrompts session
                :: EvListResources session :: [?e])
        with ([EvListTools session; EvListPrompts session;
               EvListResources session] ++ [e]).
      rewrite app_assoc. apply last_snoc. }
  split; [exact Hlast|].
  assert (Hav : available_tools (loaded session p (self st))
                = available_tools (self st) ++ map tool_descriptor tools).
  { unfold loaded, loaded_tools. cbn [available_tools]. now rewrite Ht. }
  split; [exact Hav|].
  intros tool Hin. split.
  - unfold loaded, loaded_keys, loaded_tools. cbn [sessions]. rewrite Ht.
    apply register_keys_in. apply in_or_app. left. now apply in_map.
  - rewrite Hav. apply in_or_app. right.
    apply (in_map tool_descriptor tools tool Hin).
Qed.

(** The provider [partial] of [env_failures]: its tool [search] survives
    the failure of [list_prompts]. *)
Lemma load_mcp_components_not_atomic_witness :
  let r := load_mcp_components env_failures (SessionOf "partial") init_state in
  fst r = Ok tt /\
  last (events (snd r))
  = Some (EvPrint ("Error loading MCP component from session="
                   ++ "<mcp.client.session.ClientSession object at 0x7f3a5c1d9a10>"
                   ++ ": " ++ "SessionError")) /\
  available_tools (self (snd r))
  = [] ++ [{| td_name := "search"; td_description := "";
              td_input_schema := "{}" |}] /\
  forall tool, In tool [mk_tool "search"] ->
    Dict.get (sessions (self (snd r))) (tool_name tool)
      = Some (SessionOf "partial") /\
    In {| td_name := tool_name tool;
          td_description := tool_description tool;
          td_input_schema := tool_inputSchema tool |}
       (available_tools (self (snd r))).
Proof.
  apply (load_mcp_components_not_atomic env_failures (SessionOf "partial")
           [mk_tool "search"] (Exception "SessionError") init_state).
  - reflexivity.
  - left. reflexivity.
Defined.

(** ** Failure of one provider *)

Lemma connected_fails_early (env : Env) (n : string) (b : McpChatBot) :
  fails_early (remote env n) -> connected env n b = b.
Proof.
  unfold fails_early, connected, connects, loaded, loaded_keys, loaded_tools,
    loaded_prompts, loaded_resources.
  intros [[ex H]|[[Ho [ex H]]|(Ho & Hi & ex & H)]].
  - now rewrite H.
  - now rewrite Ho, H.
  - rewrite Ho, Hi, H. destruct b as [d ts ps]. cbn.
    now rewrite !app_nil_r.
Qed.

Lemma first_failure_logged (env : Env) (n : string) (ex : Exn) :
  first_failure (remote env n) = Some ex ->
  In (if connects (remote env n) then load_error (remote env n) ex
      else connect_error n ex)
     (connect_events env n).
Proof.
  unfold first_failure, connect_events, load_events, connects.
  destruct (open_transport (remote env n)) as [[]|e1].
  2: { intros [= ->]. cbn. auto 10. }
  destruct (initialize (remote env n)) as [[]|e2].
  2: { intros [= ->]. cbn. auto 10. }
  destruct (list_tools (remote env n)) as [tools|e3].
  2: { intros [= ->]. cbn. auto 10. }
  destruct (list_prompts (remote env n)) as [pr|e4].
  2: { intros [= ->]. cbn. auto 10. }
  destruct (list_resources (remote env n)) as [rr|e5].
  2: { intros [= ->]. cbn. auto 10. }
  discriminate.
Qed.

Lemma registry_events_open (env : Env) (servers : list (string * string))
    (n c : string) :
  In (n, c) servers -> In (EvOpen n) (registry_events env servers).
Proof.
  intros Hin. unfold registry_events. apply in_concat.
  exists (connect_events env n). split.
  - apply (in_map (fun '(server_name, _) => connect_events env server_name)
             servers (n, c) Hin).
  - unfold connect_events. now left.
Qed.

Lemma available_prompts_connected (env : Env) (n : string) (b : McpChatBot) :
  available_prompts (connected env n b)
  = available_prompts b
    ++ map prompt_descriptor
         (if connects (remote env n) then loaded_prompts (remote env n) else []).
Proof.
  unfold connected. destruct (connects (remote env n)); cbn; [reflexivity|].
  now rewrite app_nil_r.
Qed.

(** Descriptors are never removed from the two lists. *)
Lemma registry_of_keeps_tool (env : Env) (servers : list (string * string))
    (b : McpChatBot) (d : ToolDescriptor) :
  In d (available_tools b) -> In d (available_tools (registry_of env servers b)).
Proof.
  revert b. induction servers as [|[n c] servers IH]; intros b Hd; [assumption|].
  rewrite registry_of_cons. apply IH.
  rewrite available_tools_connected. apply in_or_app. now left.
Qed.

Lemma registry_of_keeps_prompt (env : Env) (servers : list (string * string))
    (b : McpChatBot) (d : PromptDescriptor) :
  In d (available_prompts b) ->
  In d (available_prompts (registry_of env servers b)).
Proof.
  revert b. induction servers as [|[n c] servers IH]; intros b Hd; [assumption|].
  rewrite registry_of_cons. apply IH.
  rewrite available_prompts_connected. apply in_or_app. now left.
Qed.

(** C5, as stated, fails: the provider [partial] raises in [list_prompts],
    the error is caught and the build goes on, yet the provider has
    contributed its tool [search] to the routing map and to
    [available_tools]. *)
Lemma failing_provider_contributes_tools :
  let st' := snd (connect_to_servers env_failures servers_failures init_state) in
  list_prompts (remote env_failures "partial") = Throws (Exception "SessionError")
  /\ fst (connect_to_servers env_failures servers_failures init_state) = Ok tt
  /\ Dict.get (sessions (self st')) "search" = Some (SessionOf "partial")
  /\ available_tools (self st')
     = [{| td_name := "search"; td_description := ""; td_input_schema := "{}" |};
        {| td_name := "extract"; td_description := ""; td_input_schema := "{}" |}].
Proof. vm_compute. repeat split. Qed.

(** C5, amended: whatever stage of connecting to a provider raises first,
    the exception is caught and printed, the build returns normally and
    every other configured provider is still connected.  A failure of the
    transport or of the handshake is printed with the configured name of the
    provider; a failure of a listing call is printed with the text of the
    session object.  Every tool that a provider declares routes to it unless
    a later provider names it too.  A provider that fails while connecting,
    initializing or listing its tools contributes nothing: the registry is
    the one built without it.  A provider that fails later keeps what it
    registered before the failure: its tools stay in [available_tools], and
    when [list_prompts] answered (so [list_resources] failed) its prompts
    stay in [available_prompts] and in the routing map. *)
Theorem provider_failure_is_isolated (env : Env)
    (before after : list (string * string)) (n c : string) (ex : Exn)
    (st : PyState) :
  first_failure (remote env n) = Some ex ->
  let servers := before ++ (n, c) :: after in
  let r := connect_to_servers env servers st in
  let p := remote env n in
  fst r = Ok tt /\
  In (EvPrint
        (if connects p
         then "Error loading MCP component from session=" ++ session_str p
              ++ ": " ++ str_exn ex
         else "Error connecting to server: " ++ n ++ ": " ++ str_exn ex))
     (events (snd r)) /\
  (forall n' c', In (n', c') (before ++ after) -> In (EvOpen n') (events (snd r)))
  /\
  (forall l1 n' c' l2 tool,
      servers = l1 ++ (n', c') :: l2 ->
      declares_tool (remote env n') tool ->
      (forall n2 c2, In (n2, c2) l2 ->
         ~ declares (remote env n2) (tool_name tool)) ->
      Dict.get (sessions (self (snd r))) (tool_name tool) = Some (SessionOf n'))
  /\
  (fails_early p ->
   self (snd r) = self (snd (connect_to_servers env (before ++ after) st)))
  /\
  (forall tools,
      connects p = true -> list_tools p = Returns tools ->
      (forall tool, In tool tools ->
         In {| td_name := tool_name tool;
               td_description := tool_description tool;
               td_input_schema := tool_inputSchema tool |}
            (available_tools (self (snd r)))) /\
      (forall prompts prompt,
         list_prompts p = Returns (Some prompts) -> In prompt prompts ->
         In {| pd_name := prompt_name prompt;
               pd_description := prompt_description prompt;
               pd_arguments := prompt_arguments prompt |}
            (available_prompts (self (snd r))) /\
         ((forall n2 c2, In (n2, c2) after ->
             ~ declares (remote env n2) (prompt_name prompt)) ->
          Dict.get (sessions (self (snd r))) (prompt_name prompt)
          = Some (SessionOf n)))).
Proof.
  intros Hfail servers r p. subst r.
  rewrite !connect_to_servers_registry. cbn [fst snd self events].
  split; [reflexivity|]. split; [|split; [|split; [|split]]].
  - subst servers. rewrite registry_events_app.
    change (registry_events env ((n, c) :: after))
      with (connect_events env n ++ registry_events env after).
    apply in_or_app; right; apply in_or_app; right; apply in_or_app; left.
    assert (H := first_failure_logged env n ex Hfail). fold p in H.
    unfold load_error, connect_error in H. now destruct (connects p).
  - intros n' c' Hin. apply in_or_app. right.
    apply (registry_events_open env servers n' c'). subst servers.
    apply in_app_or in Hin as [Hin|Hin]; apply in_or_app;
      [now left | right; now right].
  - intros l1 n' c' l2 tool -> Hd Hlater.
    now apply registry_of_routes_tool.
  - intros Hearly. subst servers.
    rewrite !registry_of_app, registry_of_cons.
    now rewrite connected_fails_early.
  - intros tools Hc Ht. subst servers.
    rewrite registry_of_app, registry_of_cons.
    set (b0 := registry_of env before (self st)). split.
    + intros tool Hin. apply registry_of_keeps_tool.
      rewrite available_tools_connected. apply in_or_app. right.
      unfold contributed_tools, loaded_tools. fold p. rewrite Hc, Ht.
      apply (in_map tool_descriptor tools tool Hin).
    + intros prompts prompt Hp Hin. split.
      * apply registry_of_keeps_prompt.
        rewrite available_prompts_connected. apply in_or_app. right.
        unfold loaded_prompts. fold p. rewrite Hc, Ht, Hp.
        apply (in_map prompt_descriptor prompts prompt Hin).
      * intros Hafter. rewrite registry_of_untouched.
        { rewrite sessions_connected. apply register_keys_in.
          unfold contributed_keys, loaded_keys, loaded_tools, loaded_prompts.
          fold p. rewrite Hc, Ht, Hp. cbn [opt_list].
          apply in_or_app. right. apply in_or_app. left. now apply in_map. }
        { intros n' c' Hin' Hk. apply (Hafter n' c' Hin').
          now apply contributed_keys_declares. }
Qed.

(** The providers of [env_failures]: [down] cannot be reached and is
    reported by its name; [partial] fails in [list_prompts] and is reported
    by the text of its session object. *)
Lemma provider_failure_is_isolated_witness :
  (let r := connect_to_servers env_failures servers_failures init_state in
   fst r = Ok tt /\
   In (EvPrint "Error connecting to server: down: TransportError")
      (events (snd r))) /\
  (let r := connect_to_servers env_failures servers_failures init_state in
   In (EvPrint
         ("Error loading MCP component from session="
          ++ "<mcp.client.session.ClientSession object at 0x7f3a5c1d9a10>"
          ++ ": SessionError"))
      (events (snd r)) /\
   In {| td_name := "search"; td_description := ""; td_input_schema := "{}" |}
      (available_tools (self (snd r)))).
Proof.
  split.
  - destruct (provider_failure_is_isolated env_failures []
                [("partial", "cfg1"); ("research", "cfg2")] "down" "cfg0"
                (Exception "TransportError") init_state eq_refl)
      as (Hok & Hprint & _).
    split; [exact Hok | exact Hprint].
  - destruct (provider_failure_is_isolated env_failures [("down", "cfg0")]
                [("research", "cfg2")] "partial" "cfg1"
                (Exception "SessionError") init_state eq_refl)
      as (_ & Hprint & _ & _ & _ & Hkept).
    split; [exact Hprint|].
    destruct (Hkept [mk_tool "search"] eq_refl eq_refl) as [Htools _].
    apply (Htools (mk_tool "search")). left. reflexivity.
Defined.

(** ** One routing map for the three kinds *)

(** C7, as stated, fails: provider [tools] declares the tool [X]; once
    provider [prompts], which has no tool at all, registers its prompt [X],
    the lookup of the tool name [X] resolves to the session of [prompts]. *)
Lemma prompt_registration_rebinds_tool_name :
  let st1 := snd (connect_to_server env_tool_prompt "tools" "cfg" init_state) in
  let st2 := snd (connect_to_server env_tool_prompt "prompts" "cfg" st1) in
  Dict.get (sessions (self st1)) "X" = Some (SessionOf "tools") /\
  list_tools (remote env_tool_prompt "prompts") = Returns [] /\
  Dict.get (sessions (self st2)) "X" = Some (SessionOf "prompts") /\
  available_tools (self st2) = [tool_descriptor (mk_tool "X")].
Proof. vm_compute. repeat split. Qed.

(** C7, amended: the registry is one routing map, [sessions], shared by tool
    names, prompt names and resource URIs.  Loading a provider binds every
    tool name, prompt name and resource URI it registers to its session,
    whatever kind of capability that key was registered for before, and
    leaves exactly the keys it does not name on their previous route. *)
Theorem sessions_is_one_shared_map (env : Env) (session : Session)
    (st : PyState) :
  let p := provider_of env session in
  let st' := snd (load_mcp_components env session st) in
  (forall tools tool,
      list_tools p = Returns tools -> In tool tools ->
      Dict.get (sessions (self st')) (tool_name tool) = Some session) /\
  (forall tools prompts prompt,
      list_tools p = Returns tools ->
      list_prompts p = Returns (Some prompts) -> In prompt prompts ->
      Dict.get (sessions (self st')) (prompt_name prompt) = Some session) /\
  (forall tools pr resources resource,
      list_tools p = Returns tools -> list_prompts p = Returns pr ->
      list_resources p = Returns (Some resources) -> In resource resources ->
      Dict.get (sessions (self st')) (resource_uri resource) = Some session) /\
  (forall k, ~ declares p k ->
      Dict.get (sessions (self st')) k = Dict.get (sessions (self st)) k).
Proof.
  intros p st'. subst st'. rewrite load_mcp_components_loaded.
  cbn [snd self loaded sessions]. fold p.
  unfold loaded_keys, loaded_tools, loaded_prompts, loaded_resources.
  repeat split.
  - intros tools tool Ht Hin. rewrite Ht. apply register_keys_in.
    apply in_or_app. left. now apply in_map.
  - intros tools prompts prompt Ht Hp Hin. rewrite Ht, Hp.
    apply register_keys_in. apply in_or_app. right. apply in_or_app. left.
    now apply in_map.
  - intros tools pr resources resource Ht Hp Hr Hin. rewrite Ht, Hp, Hr.
    apply register_keys_in. apply in_or_app. right. apply in_or_app. right.
    now apply in_map.
  - intros k Hk. apply register_keys_notin. intros Hin. apply Hk.
    unfold declares.
    destruct (list_tools p) as [tools|e1]; [|destruct Hin].
    apply in_app_or in Hin as [Hin|Hin]; [left; eauto|].
    destruct (list_prompts p) as [pr|e2]; [|destruct Hin].
    apply in_app_or in Hin as [Hin|Hin].
    + destruct pr as [prompts|]; [|destruct Hin]. right; left; eauto.
    + destruct (list_resources p) as [[resources|]|e3]; try destruct Hin.
      right; right; eauto.
Qed.

(** ** Resource routing *)

Lemma first_papers_session_split (l1 l2 : list (string * Session))
    (k : string) (s : Session) :
  (forall k' s', In (k', s') l1 -> startswith k' "papers://" = false) ->
  startswith k "papers://" = true ->
  first_papers_session (l1 ++ (k, s) :: l2) = Some s.
Proof.
  intros Hl1 Hk. induction l1 as [|[k' s'] l1 IH]; cbn [app first_papers_session].
  - now rewrite Hk.
  - rewrite (Hl1 k' s') by now left. apply IH.
    intros k0 s0 Hin. apply (Hl1 k0 s0). now right.
Qed.

Lemma first_papers_session_none (items : list (string * Session)) :
  (forall k s, In (k, s) items -> startswith k "papers://" = false) ->
  first_papers_session items = None.
Proof.
  induction items as [|[k s] items IH]; intros H; cbn [first_papers_session].
  - reflexivity.
  - rewrite (H k s) by now left. apply IH.
    intros k0 s0 Hin. apply (H k0 s0). now right.
Qed.

Lemma get_resource_resolved (env : Env) (uri : string) (s : Session)
    (st : PyState) :
  resolve_resource (self st) uri = Some s ->
  get_resource env uri st
  = (Ok tt,
     {| self := self st; heap := heap st;
        events := events st ++ EvReadResource s uri
                    :: resource_output uri (read_resource (provider_of env s) uri)
     |}).
Proof.
  intros Hres. unfold get_resource. destruct st as [b h ev].
  rewrite bind_eq. cbn [get_self self] in *. rewrite Hres.
  unfold resource_output. py_simpl.
  destruct (read_resource (provider_of env s) uri) as [[[|text texts]|]|ex];
    py_simpl; now rewrite <- ?app_assoc.
Qed.

Lemma get_resource_unresolved (env : Env) (uri : string) (st : PyState) :
  resolve_resource (self st) uri = None ->
  get_resource env uri st
  = (Ok tt,
     {| self := self st; heap := heap st;
        events := events st ++ [EvPrint ("Resource '" ++ uri ++ "' not found.")]
     |}).
Proof.
  intros Hres. unfold get_resource. destruct st as [b h ev].
  rewrite bind_eq. cbn [get_self self] in *. now rewrite Hres.
Qed.

Lemma resource_output_prints (uri : string) (r : Reply ResourceResult) :
  Forall (fun e => exists line, e = EvPrint line) (resource_output uri r).
Proof.
  destruct r as [[[|text texts]|]|ex]; cbn; repeat constructor; eauto.
Qed.

(** C4: the session [get_resource] reads from.  A registered URI is read
    from the session it is registered to.  An unregistered URI that starts
    with ["papers://"] is read from the session of the first item of
    [sessions], in iteration order, whose key starts with ["papers://"] (and
    is reported as not found when there is no such item).  An unregistered
    URI of any other scheme is reported as not found and nothing is read:
    the only event is the printed notice. *)
Theorem get_resource_routing (env : Env) (uri : string) (st : PyState) :
  let d := sessions (self st) in
  let r := get_resource env uri st in
  let routed_to s :=
    exists out,
      events (snd r) = events st ++ EvReadResource s uri :: out /\
      Forall (fun e => exists line, e = EvPrint line) out in
  let not_found :=
    events (snd r)
    = events st ++ [EvPrint ("Resource '" ++ uri ++ "' not found.")] in
  fst r = Ok tt /\
  (forall s, Dict.get d uri = Some s -> routed_to s) /\
  (Dict.get d uri = None -> startswith uri "papers://" = true ->
   forall l1 k s l2,
     Dict.items d = l1 ++ (k, s) :: l2 ->
     (forall k' s', In (k', s') l1 -> startswith k' "papers://" = false) ->
     startswith k "papers://" = true ->
     routed_to s) /\
  (Dict.get d uri = None -> startswith uri "papers://" = true ->
   (forall k s, In (k, s) (Dict.items d) -> startswith k "papers://" = false) ->
   not_found) /\
  (Dict.get d uri = None -> startswith uri "papers://" = false -> not_found).
Proof.
  cbv zeta.
  assert (Hrouted : forall s, resolve_resource (self st) uri = Some s ->
            fst (get_resource env uri st) = Ok tt /\
            exists out,
              events (snd (get_resource env uri st))
              = events st ++ EvReadResource s uri :: out /\
              Forall (fun e => exists line, e = EvPrint line) out).
  { intros s Hs. rewrite (get_resource_resolved env uri s st Hs).
    split; [reflexivity|]. eexists. split; [reflexivity|].
    apply resource_output_prints. }
  assert (Hnone : resolve_resource (self st) uri = None ->
            fst (get_resource env uri st) = Ok tt /\
            events (snd (get_resource env uri st))
            = events st ++ [EvPrint ("Resource '" ++ uri ++ "' not found.")]).
  { intros Hn. now rewrite (get_resource_unresolved env uri st Hn). }
  split.
  - destruct (resolve_resource (self st) uri) as [s|] eqn:E.
    + now apply (Hrouted s).
    + now apply Hnone.
  - unfold resolve_resource in *. repeat split.
    + intros s Hs. rewrite Hs in Hrouted. now apply (Hrouted s).
    + intros Hg Hp l1 k s l2 Hitems Hl1 Hk. rewrite Hg, Hp in Hrouted.
      apply (Hrouted s). rewrite Hitems.
      now apply first_papers_session_split.
    + intros Hg Hp Hall. rewrite Hg, Hp in Hnone. apply Hnone.
      now apply first_papers_session_none.
    + intros Hg Hp. rewrite Hg, Hp in Hnone. now apply Hnone.
Qed.

(** On the registry of [research]: the registered URI and an unregistered
    ["papers://"] URI are read from the session of [research]; a URI of
    another scheme is not found and nothing is read. *)
Example get_resource_examples :
  resolve_resource (self chat_ready) "papers://folders"
  = Some (SessionOf "research") /\
  resource_reads (events (snd (get_resource env_chat "papers://graphs" chat_ready)))
  = [(SessionOf "research", "papers://graphs")] /\
  resolve_resource (self chat_ready) "notes://graphs" = None /\
  resource_reads (events (snd (get_resource env_chat "notes://graphs" chat_ready)))
  = [] /\
  last (events (snd (get_resource env_chat "notes://graphs" chat_ready)))
  = Some (EvPrint "Resource 'notes://graphs' not found.").
Proof. vm_compute. repeat split. Qed.

(** ** The frame of the conversation loop *)

Section Frame.

Variable N : nat.

Lemma frame_rel_refl (st : PyState) : frame_rel N st st.
Proof.
  repeat split; auto. exists []. now rewrite app_nil_r.
Qed.

Lemma frame_rel_trans (st1 st2 st3 : PyState) :
  frame_rel N st1 st2 -> frame_rel N st2 st3 -> frame_rel N st1 st3.
Proof.
  intros (Hs1 & Hl1 & Hh1 & evs1 & He1) (Hs2 & Hl2 & Hh2 & evs2 & He2).
  repeat split.
  - congruence.
  - lia.
  - intros a Ha. rewrite Hh2, Hh1 by assumption. reflexivity.
  - exists (evs1 ++ evs2). now rewrite He2, He1, app_assoc.
Qed.

Lemma respects_weaken {A : Type} (P Q : A -> Prop) (m : Py A) :
  (forall a, P a -> Q a) -> respects N P m -> respects N Q m.
Proof.
  intros HPQ Hm st Hst. destruct (Hm st Hst) as [Hf Hv]. split; auto.
Qed.

Lemma respects_ret {A : Type} (P : A -> Prop) (a : A) :
  P a -> respects N P (ret a).
Proof.
  intros Ha st _. cbn. split; [apply frame_rel_refl|].
  now intros a' [= <-].
Qed.

Lemma respects_raise {A : Type} (P : A -> Prop) (ex : Exn) :
  respects N P (raise ex).
Proof.
  intros st _. cbn. split; [apply frame_rel_refl|]. discriminate.
Qed.

Lemma respects_interrupt {A : Type} (P : A -> Prop) (signal : string) :
  respects N P (interrupt signal).
Proof.
  intros st _. cbn. split; [apply frame_rel_refl|]. discriminate.
Qed.

Lemma respects_bind {A B : Type} (P : A -> Prop) (Q : B -> Prop)
    (m : Py A) (k : A -> Py B) :
  respects N P m -> (forall a, P a -> respects N Q (k a)) ->
  respects N Q (bind m k).
Proof.
  intros Hm Hk st Hst. destruct (Hm st Hst) as [Hf Hv].
  unfold bind. destruct (m st) as [[a|ex|sig|] st1] eqn:E; cbn in *.
  - assert (Hst1 : N <= length (heap st1)).
    { destruct Hf as (_ & Hl & _). lia. }
    destruct (Hk a (Hv a eq_refl) st1 Hst1) as [Hf1 Hv1].
    split; [|assumption]. eapply frame_rel_trans; eassumption.
  - split; [assumption | discriminate].
  - split; [assumption | discriminate].
  - split; [assumption | discriminate].
Qed.

Lemma respects_try_except {A : Type} (P : A -> Prop) (body : Py A)
    (handler : Exn -> Py A) :
  respects N P body -> (forall ex, respects N P (handler ex)) ->
  respects N P (try_except body handler).
Proof.
  intros Hb Hh st Hst. destruct (Hb st Hst) as [Hf Hv].
  unfold try_except. destruct (body st) as [[a|ex|sig|] st1] eqn:E; cbn in *.
  - split; assumption.
  - assert (Hst1 : N <= length (heap st1)).
    { destruct Hf as (_ & Hl & _). lia. }
    destruct (Hh ex st1 Hst1) as [Hf1 Hv1].
    split; [|assumption]. eapply frame_rel_trans; eassumption.
  - split; [assumption | discriminate].
  - split; [assumption | discriminate].
Qed.

Lemma respects_emit (e : Event) : respects N anything (emit e).
Proof.
  intros st _. cbn. split; [|now intros].
  repeat split; cbn; auto. now exists [e].
Qed.

Lemma respects_print (line : string) : respects N anything (print line).
Proof. apply respects_emit. Qed.

Lemma respects_call {A : Type} (e : Event) (r : Reply A) :
  respects N anything (call e r).
Proof.
  unfold call. eapply respects_bind; [apply respects_emit|].
  intros _ _. destruct r; [now apply respects_ret | apply respects_raise].
Qed.

Lemma respects_get_self : respects N anything get_self.
Proof. intros st _. cbn. split; [apply frame_rel_refl | now intros]. Qed.

Lemma respects_get_heap : respects N anything get_heap.
Proof. intros st _. cbn. split; [apply frame_rel_refl | now intros]. Qed.

Lemma respects_alloc (o : PyObj) : respects N (fun a => N <= a) (alloc o).
Proof.
  intros st Hst. cbn. split.
  - repeat split; cbn.
    + rewrite length_app. lia.
    + intros a Ha. apply lookup_app_l. lia.
    + exists []. now rewrite app_nil_r.
  - now intros a [= <-].
Qed.

Lemma respects_modify_heap (f : PyObj -> PyObj) (a : addr) :
  N <= a -> respects N anything (modify_heap f a).
Proof.
  intros Ha st _. cbn. split; [|now intros].
  repeat split; cbn.
  - now rewrite length_alter.
  - intros a' Ha'. apply list_lookup_alter_ne. lia.
  - exists []. now rewrite app_nil_r.
Qed.

Lemma respects_for_in {A B : Type} (l : list A) (acc : B)
    (body : A -> B -> Py (Flow * B)) :
  (forall x acc, respects N anything (body x acc)) ->
  respects N anything (for_in l acc body).
Proof.
  intros Hbody. revert acc. induction l as [|x l IH]; intros acc.
  - now apply respects_ret.
  - cbn [for_in]. eapply respects_bind; [apply Hbody|].
    intros [[|] acc'] _; [apply IH | now apply respects_ret].
Qed.

Lemma respects_while_true (fuel : nat) (body : Py Flow) :
  respects N anything body -> respects N anything (while_true fuel body).
Proof.
  intros Hbody. induction fuel as [|fuel IH].
  - intros st _. cbn. split; [apply frame_rel_refl | discriminate].
  - cbn [while_true]. eapply respects_bind; [apply Hbody|].
    intros [|] _; [apply IH | now apply respects_ret].
Qed.

End Frame.

Ltac frame_prim :=
  first
    [ apply respects_ret; exact I
    | apply respects_raise
    | apply respects_interrupt
    | apply respects_print
    | apply respects_emit
    | apply respects_call
    | apply respects_get_self
    | apply respects_get_heap
    | apply respects_modify_heap; lia ].

Ltac frame_bind := eapply respects_bind; [frame_prim | intros ? _].

Lemma respects_process_content (N : nat) (env : Env)
    (messages assistant_content : addr) (content : ContentItem)
    (has_tool_use : bool) :
  N <= messages -> N <= assistant_content ->
  respects N anything
    (process_content env messages assistant_content content has_tool_use).
Proof.
  intros Hm Hc. destruct content as [text|id name input|type];
    unfold process_content, messages_append, assistant_content_append.
  - repeat frame_bind. frame_prim.
  - do 3 frame_bind.
    destruct (Dict.get (sessions a1) name) as [session|].
    + repeat frame_bind. frame_prim.
    + repeat frame_bind. frame_prim.
  - frame_prim.
Qed.

Lemma respects_round (N : nat) (env : Env) (messages : addr) :
  N <= messages -> respects N anything (round env messages).
Proof.
  intros Hm. unfold round. do 3 frame_bind.
  eapply respects_bind; [apply respects_alloc|]. intros ac Hac.
  eapply respects_bind.
  - apply respects_for_in. intros x acc.
    now apply respects_process_content.
  - intros has_tool_use _. destruct (negb has_tool_use); frame_prim.
Qed.

Lemma respects_process_query (N : nat) (env : Env) (fuel : nat)
    (query : string) :
  respects N anything (process_query env fuel query).
Proof.
  unfold process_query.
  eapply respects_bind; [apply respects_alloc|]. intros messages Hm.
  apply respects_while_true. now apply respects_round.
Qed.

Lemma respects_execute_prompt (N : nat) (env : Env) (fuel : nat)
    (prompt_name : string) (args : list (string * string)) :
  respects N anything (execute_prompt env fuel prompt_name args).
Proof.
  unfold execute_prompt. frame_bind.
  destruct (Dict.get (sessions a) prompt_name) as [session|]; [|frame_prim].
  apply respects_try_except; [|intros ex; frame_prim].
  frame_bind. destruct a0 as [[|c contents]|]; try frame_prim.
  frame_bind. apply respects_process_query.
Qed.

Lemma bind_get_self {B : Type} (k : McpChatBot -> Py B) (st : PyState) :
  bind get_self k st = k (self st) st.
Proof. reflexivity. Qed.

Lemma bind_get_heap {B : Type} (k : list PyObj -> Py B) (st : PyState) :
  bind get_heap k st = k (heap st) st.
Proof. reflexivity. Qed.

Lemma call_bind_events {A B : Type} (e : Event) (r : Reply A)
    (k : A -> Py B) (st : PyState) :
  (forall a, respects 0 anything (k a)) ->
  exists evs, events (snd (bind (call e r) k st)) = events st ++ e :: evs.
Proof.
  intros Hk. unfold call. rewrite !bind_eq. cbn [emit].
  destruct r as [a|ex]; cbn [ret raise snd events].
  - match goal with |- context [k a ?s] => set (st1 := s) end.
    destruct (Hk a st1 (Nat.le_0_l _)) as [(_ & _ & _ & evs & He) _].
    exists evs. rewrite He. subst st1. cbn [events].
    now rewrite <- app_assoc.
  - exists []. reflexivity.
Qed.

(** The first thing a round does is to send the accumulated messages and
    the tool descriptors to the backend. *)
Lemma round_first_event (env : Env) (messages : addr) (st : PyState) :
  exists evs,
    events (snd (round env messages st))
    = events st
      ++ EvBackend (available_tools (self st)) (snapshot (heap st) messages)
      :: evs.
Proof.
  unfold round. rewrite bind_get_self, bind_get_heap.
  apply call_bind_events. intros response.
  eapply respects_bind; [apply respects_alloc|]. intros ac Hac.
  eapply respects_bind.
  - apply respects_for_in. intros x acc.
    apply respects_process_content; lia.
  - intros has_tool_use _. destruct (negb has_tool_use); frame_prim.
Qed.

Lemma while_true_first_event (env : Env) (fuel : nat) (messages : addr)
    (st : PyState) :
  exists evs,
    events (snd (while_true (S fuel) (round env messages) st))
    = events st
      ++ EvBackend (available_tools (self st)) (snapshot (heap st) messages)
      :: evs.
Proof.
  destruct (round_first_event env messages st) as [evs He].
  cbn [while_true]. rewrite bind_eq.
  destruct (round env messages st) as [[[|]|ex|sig|] st1] eqn:E; cbn [snd] in *;
    eauto.
  destruct (respects_while_true 0 fuel (round env messages)
              (respects_round 0 env messages (Nat.le_0_l _)) st1
              (Nat.le_0_l _)) as [(_ & _ & _ & evs' & He') _].
  exists (evs ++ evs'). rewrite He', He. now rewrite <- app_assoc.
Qed.

(** ** Prompt execution *)

(** C9: when the name resolves in [sessions] and [get_prompt] returns at
    least one message, [execute_prompt] renders the prompt remotely and
    starts the conversation loop on the text of the first message: the
    message itself when it is a string, its [text] attribute when it has
    one, and otherwise the texts of its items joined by single spaces.  The
    first backend request carries exactly one message, the user turn holding
    that text.  The run leaves the client object and every list object
    allocated earlier (the conversation state of any earlier query) as they
    were; the new conversation lives in objects allocated after them. *)
Theorem execute_prompt_starts_fresh_query (env : Env) (fuel : nat)
    (name : string) (args : list (string * string)) (st : PyState)
    (s : Session) (c : PromptContent) (contents : list PromptContent) :
  Dict.get (sessions (self st)) name = Some s ->
  get_prompt (provider_of env s) name args = Returns (Some (c :: contents)) ->
  let text :=
    match c with
    | ContentStr str => str
    | ContentWithText t => t
    | ContentItems items =>
        String.concat " "
          (map (fun item =>
                  match item with
                  | ItemWithText t => t
                  | ItemOther str => str
                  end) items)
    end in
  let r := execute_prompt env (S fuel) name args st in
  (exists evs,
      events (snd r)
      = events st
        ++ [EvGetPrompt s name args;
            EvPrint (nl ++ "Executing prompt '" ++ name ++ "'...");
            EvBackend (available_tools (self st)) [UserMessage text]]
        ++ evs) /\
  self (snd r) = self st /\
  length (heap st) <= length (heap (snd r)) /\
  forall a, a < length (heap st) -> heap (snd r) !! a = heap st !! a.
Proof.
  intros Hs Hg text r.
  assert (Htext : prompt_text c = text).
  { subst text. destruct c as [str|t|items]; reflexivity. }
  clearbody text. split.
  - subst r. unfold execute_prompt. rewrite bind_get_self, Hs.
    unfold try_except, call. rewrite !bind_eq. cbn [emit]. rewrite Hg.
    cbn [ret]. rewrite bind_eq. cbn [print emit]. rewrite Htext.
    unfold process_query. rewrite bind_eq. cbn [alloc heap self events].
    match goal with
    | |- context [while_true (S fuel) (round env ?m) ?s] =>
        destruct (while_true_first_event env fuel m s) as [evs He];
        destruct (while_true (S fuel) (round env m) s) as [[[]|ex|sig|] st1]
    end; cbn [snd self heap events] in He;
      unfold snapshot, deref_messages in He;
      rewrite list_lookup_middle in He by reflexivity; cbn [map view_msg] in He.
    + exists evs. cbn [snd]. rewrite He. now rewrite <- !app_assoc.
    + eexists. cbn [print emit snd events]. rewrite He.
      rewrite <- !app_assoc. cbn [app]. reflexivity.
    + exists evs. cbn [snd]. rewrite He. now rewrite <- !app_assoc.
    + exists evs. cbn [snd]. rewrite He. now rewrite <- !app_assoc.
  - destruct (respects_execute_prompt (length (heap st)) env (S fuel) name args
                st (Nat.le_refl _)) as [(Hself & Hlen & Hframe & _) _].
    auto.
Qed.

(** The prompt [generate_search_prompt] of the provider [research], executed
    after an earlier query has left its conversation on the heap: the new
    conversation starts with the rendered text alone. *)
Lemma execute_prompt_starts_fresh_query_witness :
  let r := execute_prompt env_chat 3 "generate_search_prompt"
             [("topic", "graphs")] chat_after_query in
  (exists evs,
      events (snd r)
      = events chat_after_query
        ++ [EvGetPrompt (SessionOf "research") "generate_search_prompt"
              [("topic", "graphs")];
            EvPrint (nl ++ "Executing prompt '" ++ "generate_search_prompt"
                        ++ "'...");
            EvBackend (available_tools (self chat_after_query))
                      [UserMessage "Search for 5 papers about graphs"]]
        ++ evs) /\
  self (snd r) = self chat_after_query /\
  length (heap chat_after_query) <= length (heap (snd r)) /\
  forall a, a < length (heap chat_after_query) ->
    heap (snd r) !! a = heap chat_after_query !! a.
Proof.
  apply (execute_prompt_starts_fresh_query env_chat 2 "generate_search_prompt"
           [("topic", "graphs")] chat_after_query (SessionOf "research")
           (ContentWithText "Search for 5 papers about graphs") []).
  - reflexivity.
  - reflexivity.
Defined.

(** ** Rounds of the conversation loop *)

Section Rounds.

Variable env : Env.
Variables messages assistant_content : addr.

Let body := process_content env messages assistant_content.

(** Items that are not invocation requests are printed (text) or skipped;
    they leave [has_tool_use] as it is and never end the loop. *)
Lemma for_in_no_tool_use (items : list ContentItem) (st : PyState) :
  existsb is_tool_use items = false ->
  exists st1,
    self st1 = self st /\
    events st1 = events st ++ text_prints items /\
    forall rest acc, for_in (items ++ rest) acc body st = for_in rest acc body st1.
Proof.
  revert st. induction items as [|c items IH]; intros st Hno.
  - exists st. rewrite app_nil_r. auto.
  - cbn [existsb] in Hno. apply orb_false_elim in Hno as [Hc Hno].
    destruct c as [text|id name input|type]; [|discriminate|].
    + destruct (IH {| self := self st;
                      heap := alter (append_content (TextBlock text))
                                assistant_content (heap st);
                      events := events st ++ [EvPrint text] |} Hno)
        as (st1 & Hs & He & Hrun).
      exists st1. cbn in Hs, He. rewrite He, <- app_assoc.
      repeat split; auto.
    + destruct (IH st Hno) as (st1 & Hs & He & Hrun).
      exists st1. repeat split; auto.
Qed.

(** An invocation request whose name resolves and whose call returns. *)
Lemma process_content_call_returns (id name input result : string)
    (s : Session) (acc : bool) (st : PyState) :
  Dict.get (sessions (self st)) name = Some s ->
  call_tool (provider_of env s) name input = Returns result ->
  exists st1,
    self st1 = self st /\
    events st1 = events st ++ [EvCallTool s name input] /\
    body (ToolUseBlock id name input) acc st = (Ok (Next, true), st1).
Proof.
  intros Hs Hc. subst body. unfold process_content, assistant_content_append,
    messages_append.
  py_run. rewrite Hs. unfold call. py_run. rewrite Hc. py_run.
  eexists. split; [|split]. 3: reflexivity. all: reflexivity.
Qed.

(** An invocation request whose name does not resolve. *)
Lemma process_content_not_found (id name input : string) (acc : bool)
    (st : PyState) :
  Dict.get (sessions (self st)) name = None ->
  exists st1,
    self st1 = self st /\
    events st1 = events st ++ [EvPrint ("Tool '" ++ name ++ "' not found.")] /\
    body (ToolUseBlock id name input) acc st = (Ok (Break, true), st1).
Proof.
  intros Hs. subst body. unfold process_content, assistant_content_append,
    messages_append.
  py_run. rewrite Hs. py_run.
  eexists. split; [|split]. 3: reflexivity. all: reflexivity.
Qed.

(** An invocation request whose name resolves and whose call raises: the
    request has been appended to the conversation, no result is. *)
Lemma process_content_call_raises (id name input : string) (ex : Exn)
    (s : Session) (acc : bool) (st : PyState) :
  Dict.get (sessions (self st)) name = Some s ->
  call_tool (provider_of env s) name input = Throws ex ->
  body (ToolUseBlock id name input) acc st
  = (Raise ex,
     {| self := self st;
        heap := alter (append_msg (MAssistant assistant_content)) messages
                  (alter (append_content (ToolUseBlock id name input))
                     assistant_content (heap st));
        events := events st ++ [EvCallTool s name input] |}).
Proof.
  intros Hs Hc. subst body. unfold process_content, assistant_content_append,
    messages_append.
  py_run. rewrite Hs. unfold call. py_run. rewrite Hc. reflexivity.
Qed.

End Rounds.

Lemma round_eq (env : Env) (messages : addr) (st : PyState)
    (response : list ContentItem) :
  backend env (available_tools (self st)) (snapshot (heap st) messages)
  = Returns response ->
  round env messages st
  = bind (for_in response false
            (process_content env messages (length (heap st))))
         (fun has_tool_use => if negb has_tool_use then ret Break else ret Next)
         {| self := self st;
            heap := heap st ++ [OContent []];
            events := events st
                      ++ [EvBackend (available_tools (self st))
                                    (snapshot (heap st) messages)] |}.
Proof.
  intros Hb. unfold round. rewrite bind_get_self, bind_get_heap.
  unfold call. rewrite (bind_eq (bind _ _)), (bind_eq (emit _)).
  cbn [emit]. rewrite Hb. cbn [ret]. rewrite (bind_eq (alloc _)).
  reflexivity.
Qed.

Lemma while_true_next (fuel : nat) (body : Py Flow) (st st' : PyState) :
  body st = (Ok Next, st') ->
  while_true (S fuel) body st = while_true fuel body st'.
Proof. intros H. cbn [while_true]. now rewrite bind_eq, H. Qed.

Lemma while_true_break (fuel : nat) (body : Py Flow) (st st' : PyState) :
  body st = (Ok Break, st') ->
  while_true (S fuel) body st = (Ok tt, st').
Proof. intros H. cbn [while_true]. now rewrite bind_eq, H. Qed.

Lemma while_true_raise (fuel : nat) (body : Py Flow) (st st' : PyState)
    (ex : Exn) :
  body st = (Raise ex, st') ->
  while_true (S fuel) body st = (Raise ex, st').
Proof. intros H. cbn [while_true]. now rewrite bind_eq, H. Qed.

(** C6, as stated, fails: the response to the query ["failing call"] holds
    one invocation request; its [call_tool] raises, [process_query] ends
    with that exception and only one backend request has been issued. *)
Lemma tool_use_without_next_request :
  let r := process_query env_chat 5 "failing call" chat_ready in
  backend env_chat (available_tools (self chat_ready))
    [UserMessage "failing call"]
  = Returns [ToolUseBlock "F" "extract" "1234"] /\
  fst r = Raise (Exception "SessionError") /\
  backend_requests (events (snd r)) = 1.
Proof. vm_compute. repeat split. Qed.

(** Items whose invocation requests are all answered are processed one
    after the other, and the loop over the response goes on after them. *)
Lemma for_in_answered_prefix (env : Env) (messages assistant_content : addr)
    (items : list ContentItem) (st : PyState) :
  forallb (answered env (self st)) items = true ->
  exists st1,
    self st1 = self st /\
    events st1 = events st ++ flat_map (item_events (self st)) items /\
    forall rest acc,
      for_in (items ++ rest) acc
        (process_content env messages assistant_content) st
      = for_in rest (acc || existsb is_tool_use items)
          (process_content env messages assistant_content) st1.
Proof.
  revert st. induction items as [|c items IH]; intros st Hall.
  - exists st. cbn. rewrite app_nil_r. repeat split; auto.
    intros rest acc. now rewrite orb_false_r.
  - cbn [forallb] in Hall. apply andb_prop in Hall as [Hc Hall].
    destruct c as [text|id name input|type].
    + destruct (IH {| self := self st;
                      heap := alter (append_content (TextBlock text))
                                assistant_content (heap st);
                      events := events st ++ [EvPrint text] |} Hall)
        as (st1 & Hs & He & Hrun).
      exists st1. cbn [self events] in Hs, He.
      cbn [flat_map item_events]. rewrite He, <- app_assoc.
      repeat split; auto.
    + cbn [answered] in Hc.
      destruct (Dict.get (sessions (self st)) name) as [s|] eqn:Es;
        [|discriminate].
      destruct (call_tool (provider_of env s) name input) as [result|ex] eqn:Ec;
        [|discriminate].
      destruct (IH {| self := self st;
                      heap := alter (append_msg (MToolResult id result)) messages
                                (alter (append_msg (MAssistant assistant_content))
                                   messages
                                   (alter (append_content
                                             (ToolUseBlock id name input))
                                      assistant_content (heap st)));
                      events := events st ++ [EvCallTool s name input] |} Hall)
        as (st1 & Hs & He & Hrun).
      exists st1. cbn [self events] in Hs, He.
      cbn [flat_map item_events]. rewrite Es, He, <- app_assoc.
      repeat split; auto. intros rest acc.
      cbn [app for_in existsb is_tool_use]. rewrite bind_eq.
      unfold process_content at 1.
      unfold assistant_content_append, messages_append.
      py_run. rewrite Es. unfold call. py_run. rewrite Ec. py_run.
      rewrite Hrun. cbn [orb]. now rewrite orb_true_r.
    + destruct (IH st Hall) as (st1 & Hs & He & Hrun).
      exists st1. repeat split; auto.
Qed.

Lemma item_events_no_backend (b : McpChatBot) (items : list ContentItem) :
  filter (fun e => is_backend e) (flat_map (item_events b) items) = [].
Proof.
  induction items as [|c items IH]; [reflexivity|].
  cbn [flat_map]. rewrite filter_app, IH, app_nil_r.
  destruct c as [text|id name input|type]; cbn; try reflexivity.
  now destruct (Dict.get (sessions b) name).
Qed.

(** C6, amended: in any round of the conversation loop, a response without
    invocation requests ends the loop, and nothing but the one backend
    request and the printed text has happened in the round.  A response with
    at least one invocation request makes the loop go on to a further
    backend request when the round completes: when every request resolves
    and its call returns, and also when, after answered requests, a request
    names an unknown tool.  When instead, after answered requests, the
    [call_tool] of a request raises, the round and the loop end with that
    exception right after the failing call: the backend request of this
    round is the last one. *)
Theorem loop_ends_iff_no_tool_use (env : Env) (messages : addr)
    (st : PyState) (response : list ContentItem) :
  backend env (available_tools (self st)) (snapshot (heap st) messages)
  = Returns response ->
  let loop fuel := while_true fuel (round env messages) in
  let sent :=
    EvBackend (available_tools (self st)) (snapshot (heap st) messages) in
  let goes_on st' :=
    round env messages st = (Ok Next, st') /\
    forall fuel,
      loop (S fuel) st = loop fuel st' /\
      exists evs,
        events (snd (loop (S (S fuel)) st))
        = events st'
          ++ EvBackend (available_tools (self st'))
                       (snapshot (heap st') messages)
          :: evs in
  (existsb is_tool_use response = false ->
   exists st',
     round env messages st = (Ok Break, st') /\
     events st' = events st ++ sent :: text_prints response /\
     forall fuel, loop (S fuel) st = (Ok tt, st')) /\
  (existsb is_tool_use response = true ->
   forallb (answered env (self st)) response = true ->
   exists st',
     goes_on st' /\
     events st' = events st ++ sent :: flat_map (item_events (self st)) response)
  /\
  (forall t0 id name input rest,
     response = t0 ++ ToolUseBlock id name input :: rest ->
     forallb (answered env (self st)) t0 = true ->
     Dict.get (sessions (self st)) name = None ->
     exists st',
       goes_on st' /\
       events st'
       = events st
         ++ sent :: flat_map (item_events (self st)) t0
         ++ [EvPrint ("Tool '" ++ name ++ "' not found.")]) /\
  (forall t0 id name input rest s ex,
     response = t0 ++ ToolUseBlock id name input :: rest ->
     forallb (answered env (self st)) t0 = true ->
     Dict.get (sessions (self st)) name = Some s ->
     call_tool (provider_of env s) name input = Throws ex ->
     exists st',
       round env messages st = (Raise ex, st') /\
       (forall fuel, loop (S fuel) st = (Raise ex, st')) /\
       events st'
       = events st
         ++ sent :: flat_map (item_events (self st)) t0
         ++ [EvCallTool s name input] /\
       backend_requests (events st') = S (backend_requests (events st))).
Proof.
  intros Hb loop sent goes_on.
  assert (Hgo : forall st', round env messages st = (Ok Next, st') -> goes_on st').
  { intros st' Hround. split; [assumption|]. intros fuel. subst loop. cbv beta.
    rewrite (while_true_next (S fuel) _ st st' Hround).
    split; [now apply while_true_next|]. apply while_true_first_event. }
  pose proof (round_eq env messages st response Hb) as Hround.
  fold sent in Hround.
  match type of Hround with _ = bind _ _ ?s => set (st0 := s) in * end.
  split; [|split; [|split]].
  - intros Hno.
    destruct (for_in_no_tool_use env messages (length (heap st)) response st0 Hno)
      as (st1 & Hs & He & Hrun).
    specialize (Hrun [] false). rewrite app_nil_r in Hrun.
    assert (Hr : round env messages st = (Ok Break, st1)).
    { rewrite Hround, bind_eq, Hrun. reflexivity. }
    exists st1. split; [exact Hr|]. split.
    + rewrite He. subst st0. cbn [events]. now rewrite <- app_assoc.
    + intros fuel. now apply while_true_break.
  - intros Hyes Hall.
    destruct (for_in_answered_prefix env messages (length (heap st)) response
                st0 Hall) as (st1 & Hs & He & Hrun).
    specialize (Hrun [] false). rewrite app_nil_r in Hrun.
    exists st1. split.
    + apply Hgo. rewrite Hround, bind_eq, Hrun. cbn [for_in ret orb].
      now rewrite Hyes.
    + rewrite He. subst st0. cbn [events self]. now rewrite <- app_assoc.
  - intros t0 id name input rest -> Hall Hnone.
    destruct (for_in_answered_prefix env messages (length (heap st)) t0
                st0 Hall) as (st1 & Hs & He & Hrun).
    destruct (process_content_not_found env messages (length (heap st))
                id name input (false || existsb is_tool_use t0) st1)
      as (st2 & Hs2 & He2 & Hrun2).
    { now rewrite Hs. }
    exists st2. split.
    + apply Hgo. rewrite Hround, bind_eq, Hrun. cbn [for_in].
      rewrite bind_eq, Hrun2. reflexivity.
    + rewrite He2, He. subst st0. cbn [events self].
      now rewrite <- !app_assoc.
  - intros t0 id name input rest s ex -> Hall Hs Hc.
    destruct (for_in_answered_prefix env messages (length (heap st)) t0
                st0 Hall) as (st1 & Hs1 & He1 & Hrun).
    assert (Hr : exists st',
              round env messages st = (Raise ex, st') /\
              events st' = events st1 ++ [EvCallTool s name input]).
    { eexists. rewrite Hround, bind_eq, Hrun. cbn [for_in]. rewrite bind_eq.
      rewrite (process_content_call_raises env _ _ id name input ex s _ st1)
        by (rewrite ?Hs1; assumption).
      split; reflexivity. }
    destruct Hr as (st' & Hr & He'). exists st'.
    split; [exact Hr|]. split; [intros fuel; now apply while_true_raise|].
    assert (Hev : events st'
                  = events st
                    ++ sent :: flat_map (item_events (self st)) t0
                    ++ [EvCallTool s name input]).
    { rewrite He', He1. subst st0. cbn [events self].
      now rewrite <- !app_assoc. }
    split; [exact Hev|]. rewrite Hev. unfold backend_requests.
    rewrite filter_app, length_app. subst sent.
    rewrite filter_cons_True by exact I.
    rewrite filter_app, item_events_no_backend.
    rewrite filter_cons_False by (intros []). cbn. lia.
Qed.

(** Three rounds on the registry of [research]: the second round of the
    query ["graphs"], whose response is text only, ends the loop; its first
    round, with one answered request, goes on to a further backend request;
    the first round of the query ["failing call"], whose tool [extract]
    raises, ends the loop with the exception after one backend request. *)
Lemma loop_ends_iff_no_tool_use_witness :
  (let st := snd (round env_chat 0 (chat_started "graphs")) in
   exists st',
     round env_chat 0 st = (Ok Break, st') /\
     events st'
     = events st
       ++ EvBackend (available_tools (self st)) (snapshot (heap st) 0)
       :: [EvPrint "Done."] /\
     forall fuel, while_true (S fuel) (round env_chat 0) st = (Ok tt, st')) /\
  (let st := chat_started "graphs" in
   exists st',
     (round env_chat 0 st = (Ok Next, st') /\
      forall fuel,
        while_true (S fuel) (round env_chat 0) st
        = while_true fuel (round env_chat 0) st' /\
        exists evs,
          events (snd (while_true (S (S fuel)) (round env_chat 0) st))
          = events st'
            ++ EvBackend (available_tools (self st')) (snapshot (heap st') 0)
            :: evs) /\
     events st'
     = events st
       ++ EvBackend (available_tools (self st)) [UserMessage "graphs"]
       :: [EvPrint "Let me search.";
           EvCallTool (SessionOf "research") "search" "graphs"]) /\
  (let st := chat_started "failing call" in
   exists st',
     round env_chat 0 st = (Raise (Exception "SessionError"), st') /\
     (forall fuel,
        while_true (S fuel) (round env_chat 0) st
        = (Raise (Exception "SessionError"), st')) /\
     events st'
     = events st
       ++ EvBackend (available_tools (self st)) [UserMessage "failing call"]
       :: [] ++ [EvCallTool (SessionOf "research") "extract" "1234"] /\
     backend_requests (events st') = S (backend_requests (events st))).
Proof.
  split; [|split].
  - apply (loop_ends_iff_no_tool_use env_chat 0
             (snd (round env_chat 0 (chat_started "graphs")))
             [TextBlock "Done."]); reflexivity.
  - apply (loop_ends_iff_no_tool_use env_chat 0 (chat_started "graphs")
             [TextBlock "Let me search."; ToolUseBlock "S" "search" "graphs"]);
      reflexivity.
  - apply (proj2 (proj2 (proj2
             (loop_ends_iff_no_tool_use env_chat 0 (chat_started "failing call")
                [ToolUseBlock "F" "extract" "1234"] eq_refl)))
             [] "F" "extract" "1234" [] (SessionOf "research")
             (Exception "SessionError")); reflexivity.
Defined.

(** ** An unresolved invocation request *)

(** C2, as stated, fails: the response to the query ["three calls"] holds
    the requests [A], [B], [C] where [search] (A, C) resolves and [unknown]
    (B) does not.  Only [A] is called and the notice for [B] is printed, but
    [process_query] then issues a second backend request before it
    returns. *)
Lemma not_found_is_followed_by_backend_request :
  let r := process_query env_chat 5 "three calls" chat_ready in
  Dict.get (sessions (self chat_ready)) "search" = Some (SessionOf "research") /\
  Dict.get (sessions (self chat_ready)) "unknown" = None /\
  fst r = Ok tt /\
  filter (fun e => negb (is_backend e)) (events (snd r))
  = events chat_ready
    ++ [EvCallTool (SessionOf "research") "search" "graphs";
        EvPrint "Tool 'unknown' not found.";
        EvPrint "Done."] /\
  backend_requests (events (snd r)) = 2.
Proof. vm_compute. repeat split. Qed.

(** C2, amended: when a response holds the invocation requests [A], [B],
    [C] in this order (text may stand between them), [A] resolves and its
    call returns, and [B] does not resolve, the round calls [A], prints the
    not-found notice for [B] and attempts nothing after it, so [C] is never
    called.  Because an invocation request was seen, the loop does not
    return to the caller: it goes on to the next round, which issues a
    further backend request. *)
Theorem not_found_ends_the_round_only (env : Env) (messages : addr)
    (st : PyState) (t0 t1 t2 t3 : list ContentItem)
    (idA nameA inA idB nameB inB idC nameC inC resA : string)
    (sA sC : Session) :
  backend env (available_tools (self st)) (snapshot (heap st) messages)
  = Returns (t0 ++ ToolUseBlock idA nameA inA
                :: t1 ++ ToolUseBlock idB nameB inB
                :: t2 ++ ToolUseBlock idC nameC inC :: t3) ->
  existsb is_tool_use t0 = false ->
  existsb is_tool_use t1 = false ->
  Dict.get (sessions (self st)) nameA = Some sA ->
  call_tool (provider_of env sA) nameA inA = Returns resA ->
  Dict.get (sessions (self st)) nameB = None ->
  Dict.get (sessions (self st)) nameC = Some sC ->
  let loop fuel := while_true fuel (round env messages) in
  exists st',
    round env messages st = (Ok Next, st') /\
    events st'
    = events st
      ++ EvBackend (available_tools (self st)) (snapshot (heap st) messages)
      :: text_prints t0
      ++ EvCallTool sA nameA inA
      :: text_prints t1
      ++ [EvPrint ("Tool '" ++ nameB ++ "' not found.")] /\
    forall fuel,
      loop (S fuel) st = loop fuel st' /\
      exists evs,
        events (snd (loop (S (S fuel)) st))
        = events st'
          ++ EvBackend (available_tools (self st'))
                       (snapshot (heap st') messages)
          :: evs.
Proof.
  intros Hb H0 H1 HA HcA HB HC loop. subst loop. cbv beta.
  assert (Hround : exists st',
    round env messages st = (Ok Next, st') /\
    events st'
    = events st
      ++ EvBackend (available_tools (self st)) (snapshot (heap st) messages)
      :: text_prints t0
      ++ EvCallTool sA nameA inA
      :: text_prints t1
      ++ [EvPrint ("Tool '" ++ nameB ++ "' not found.")]).
  { rewrite (round_eq env messages st _ Hb).
    match goal with |- context [bind _ _ ?s] => set (s0 := s) end.
    destruct (for_in_no_tool_use env messages (length (heap st)) t0 s0 H0)
      as (s1 & Hs1 & He1 & Hrun1).
    destruct (process_content_call_returns env messages (length (heap st))
                idA nameA inA resA sA false s1) as (s2 & Hs2 & He2 & Hrun2).
    { now rewrite Hs1. }
    { assumption. }
    destruct (for_in_no_tool_use env messages (length (heap st)) t1 s2 H1)
      as (s3 & Hs3 & He3 & Hrun3).
    destruct (process_content_not_found env messages (length (heap st))
                idB nameB inB true s3) as (s4 & Hs4 & He4 & Hrun4).
    { now rewrite Hs3, Hs2, Hs1. }
    exists s4. rewrite bind_eq, Hrun1. cbn [for_in]. rewrite bind_eq, Hrun2.
    rewrite Hrun3. cbn [for_in]. rewrite bind_eq, Hrun4. cbn [ret negb].
    split; [reflexivity|].
    rewrite He4, He3, He2, He1. subst s0. cbn [events].
    rewrite <- !app_assoc. reflexivity. }
  destruct Hround as (st' & Hround & Hev). exists st'.
  split; [assumption|]. split; [assumption|]. intros fuel.
  rewrite (while_true_next (S fuel) _ st st' Hround).
  split; [now apply while_true_next|]. apply while_true_first_event.
Qed.

(** The first round of the query ["three calls"]. *)
Lemma not_found_ends_the_round_only_witness :
  let st := chat_started "three calls" in
  let loop fuel := while_true fuel (round env_chat 0) in
  exists st',
    round env_chat 0 st = (Ok Next, st') /\
    events st'
    = events st
      ++ EvBackend (available_tools (self st)) (snapshot (heap st) 0)
      :: text_prints []
      ++ EvCallTool (SessionOf "research") "search" "graphs"
      :: text_prints []
      ++ [EvPrint ("Tool '" ++ "unknown" ++ "' not found.")] /\
    forall fuel,
      loop (S fuel) st = loop fuel st' /\
      exists evs,
        events (snd (loop (S (S fuel)) st))
        = events st'
          ++ EvBackend (available_tools (self st')) (snapshot (heap st') 0)
          :: evs.
Proof.
  apply (not_found_ends_the_round_only env_chat 0 (chat_started "three calls")
           [] [] [] [] "A" "search" "graphs" "B" "unknown" "{}"
           "C" "search" "trees" "ids"
           (SessionOf "research") (SessionOf "research"));
    reflexivity.
Defined.

(** ** Failing tool calls *)

Section Propagation.

Variable env : Env.
Variable messages : addr.

Lemma aborted_cons {A : Type} (r : Result A) (h : Heap) (e : Event)
    (evs : list Event) :
  failing_call env e = None ->
  aborted env messages r h evs -> aborted env messages r h (e :: evs).
Proof.
  intros He [Hok|(evs0 & s & id & name & input & ex & msgs & ac & items
                  & -> & Hok0 & Hrest)].
  - left. now constructor.
  - right. exists (e :: evs0), s, id, name, input, ex, msgs, ac, items.
    split; [reflexivity|]. split; [now constructor | exact Hrest].
Qed.

Lemma aborted_app {A : Type} (r : Result A) (h : Heap)
    (evs1 evs2 : list Event) :
  Forall (fun e => failing_call env e = None) evs1 ->
  aborted env messages r h evs2 -> aborted env messages r h (evs1 ++ evs2).
Proof.
  intros H1 H2. induction H1 as [|e evs1 He H1 IH]; [exact H2|].
  cbn [app]. now apply aborted_cons.
Qed.

(** The result of a run that has not failed is immaterial. *)
Lemma aborted_ok {A B : Type} (a : A) (r : Result B) (h : Heap)
    (evs : list Event) :
  aborted env messages (Ok a) h evs -> aborted env messages r h evs.
Proof.
  intros [Hok|(evs0 & s & id & name & input & ex & msgs & ac & items
               & _ & _ & _ & Hr & _)]; [now left | discriminate].
Qed.

Lemma aborted_raise {A B : Type} (ex : Exn) (h : Heap) (evs : list Event) :
  aborted env messages (Raise ex : Result A) h evs ->
  aborted env messages (Raise ex : Result B) h evs.
Proof.
  intros [Hok|(evs0 & s & id & name & input & ex' & msgs & ac & items
               & He & Hok0 & Hc & Hr & Hm & Hac)]; [now left|].
  right. exists evs0, s, id, name, input, ex', msgs, ac, items.
  injection Hr as ->. repeat split; auto.
Qed.

(** The loop over the items of a response, started on a heap that holds the
    conversation at [messages] and the content list of the round at
    [assistant_content]. *)
Lemma for_in_aborts (assistant_content : addr) (items : list ContentItem) :
  messages <> assistant_content ->
  forall (acc : bool) (st : PyState) (ms : list Msg) (cs : list ContentItem),
    heap st !! messages = Some (OMessages ms) ->
    heap st !! assistant_content = Some (OContent cs) ->
    exists r st' evs,
      for_in items acc (process_content env messages assistant_content) st
      = (r, st') /\
      events st' = events st ++ evs /\
      (exists ms', heap st' !! messages = Some (OMessages ms')) /\
      aborted env messages r (heap st') evs.
Proof.
  intros Hne. induction items as [|c items IH]; intros acc st ms cs Hm Hc.
  - exists (Ok acc), st, []. cbn. rewrite app_nil_r. split; [reflexivity|].
    split; [reflexivity|]. split; [eauto|]. left. constructor.
  - cbn [for_in]. rewrite bind_eq.
    destruct c as [text|id name input|type];
      unfold process_content at 1;
      unfold assistant_content_append, messages_append.
    + py_run.
      match goal with |- context [for_in items acc _ ?s] => set (st1 := s) end.
      destruct (IH acc st1 ms (cs ++ [TextBlock text]))
        as (r & st' & evs & Hrun & He & Hm' & Hab).
      { subst st1. cbn [heap]. rewrite list_lookup_alter_ne by auto. exact Hm. }
      { subst st1. cbn [heap]. rewrite list_lookup_alter_eq, Hc. reflexivity. }
      exists r, st', (EvPrint text :: evs). split; [exact Hrun|].
      rewrite He. subst st1. cbn [events]. rewrite <- app_assoc.
      split; [reflexivity|]. split; [exact Hm'|]. now apply aborted_cons.
    + py_run.
      set (h2 := alter (append_msg (MAssistant assistant_content)) messages
                   (alter (append_content (ToolUseBlock id name input))
                      assistant_content (heap st))).
      assert (Hm2 : h2 !! messages
                    = Some (OMessages (ms ++ [MAssistant assistant_content]))).
      { subst h2. rewrite list_lookup_alter_eq.
        rewrite list_lookup_alter_ne by auto. rewrite Hm. reflexivity. }
      assert (Hc2 : h2 !! assistant_content
                    = Some (OContent (cs ++ [ToolUseBlock id name input]))).
      { subst h2. rewrite list_lookup_alter_ne by auto.
        rewrite list_lookup_alter_eq, Hc. reflexivity. }
      destruct (Dict.get (sessions (self st)) name) as [s|] eqn:Es.
      * unfold call. py_run.
        destruct (call_tool (provider_of env s) name input) as [result|ex]
          eqn:Ec; py_run.
        { destruct (IH true
                      {| self := self st;
                         heap := alter (append_msg (MToolResult id result))
                                   messages h2;
                         events := events st ++ [EvCallTool s name input] |}
                      ((ms ++ [MAssistant assistant_content])
                         ++ [MToolResult id result])
                      (cs ++ [ToolUseBlock id name input]))
            as (r & st' & evs & Hrun & He & Hm' & Hab).
          { cbn [heap]. rewrite list_lookup_alter_eq, Hm2. reflexivity. }
          { cbn [heap]. rewrite list_lookup_alter_ne by auto. exact Hc2. }
          exists r, st', (EvCallTool s name input :: evs).
          split; [exact Hrun|]. rewrite He. cbn [events].
          rewrite <- app_assoc. split; [reflexivity|].
          split; [exact Hm'|]. apply aborted_cons; [|exact Hab].
          cbn. now rewrite Ec. }
        { eexists _, _, [EvCallTool s name input]. split; [reflexivity|].
          cbn [events heap]. split; [reflexivity|]. split; [eauto|].
          right. exists [], s, id, name, input, ex, ms, assistant_content, cs.
          repeat split; auto. }
      * py_run. eexists _, _, [EvPrint ("Tool '" ++ name ++ "' not found.")].
        split; [reflexivity|]. cbn [events heap]. split; [reflexivity|].
        split; [eauto|]. left. repeat constructor.
    + py_run. apply (IH acc st ms cs Hm Hc).
Qed.

Lemma round_aborts (st : PyState) (ms : list Msg) :
  heap st !! messages = Some (OMessages ms) ->
  exists r st' evs,
    round env messages st = (r, st') /\
    events st' = events st ++ evs /\
    (exists ms', heap st' !! messages = Some (OMessages ms')) /\
    aborted env messages r (heap st') evs.
Proof.
  intros Hm.
  assert (Hlt : messages < length (heap st)) by (eapply lookup_lt_Some; eauto).
  destruct (backend env (available_tools (self st))
              (snapshot (heap st) messages)) as [response|ex] eqn:Hb.
  - rewrite (round_eq env messages st response Hb).
    match goal with |- context [bind _ _ ?s] => set (st0 := s) end.
    destruct (for_in_aborts (length (heap st)) response ltac:(lia) false st0
                ms []) as (r & st1 & evs & Hrun & He & Hm' & Hab).
    { subst st0. cbn [heap]. now apply lookup_app_l_Some. }
    { subst st0. cbn [heap]. now apply list_lookup_middle. }
    rewrite bind_eq, Hrun.
    assert (Hev : events st1
                  = events st
                    ++ EvBackend (available_tools (self st))
                         (snapshot (heap st) messages) :: evs).
    { rewrite He. subst st0. cbn [events]. now rewrite <- app_assoc. }
    destruct r as [b|ex|sig|].
    + exists (Ok (if negb b then Break else Next)), st1.
      eexists. split; [now destruct b|].
      split; [exact Hev|]. split; [exact Hm'|].
      apply aborted_cons; [reflexivity|]. now apply (aborted_ok b).
    + eexists _, st1, _. split; [reflexivity|].
      split; [exact Hev|]. split; [exact Hm'|].
      apply aborted_cons; [reflexivity|]. eapply aborted_raise; exact Hab.
    + eexists _, st1, _. split; [reflexivity|].
      split; [exact Hev|]. split; [exact Hm'|].
      apply aborted_cons; [reflexivity|].
      destruct Hab as [Hok|(evs0 & s & id & name & input & ex' & msgs & ac
                            & items & _ & _ & _ & Hr & _)];
        [now left | discriminate].
    + eexists _, st1, _. split; [reflexivity|].
      split; [exact Hev|]. split; [exact Hm'|].
      apply aborted_cons; [reflexivity|].
      destruct Hab as [Hok|(evs0 & s & id & name & input & ex' & msgs & ac
                            & items & _ & _ & _ & Hr & _)];
        [now left | discriminate].
  - unfold round. rewrite bind_get_self, bind_get_heap. unfold call.
    rewrite !bind_eq. cbn [emit]. rewrite Hb. cbn [raise].
    eexists _, _,
      [EvBackend (available_tools (self st)) (snapshot (heap st) messages)].
    split; [reflexivity|]. cbn [events heap]. split; [reflexivity|].
    split; [eauto|]. left. repeat constructor.
Qed.

Lemma while_true_aborts (fuel : nat) :
  forall (st : PyState) (ms : list Msg),
    heap st !! messages = Some (OMessages ms) ->
    exists r st' evs,
      while_true fuel (round env messages) st = (r, st') /\
      events st' = events st ++ evs /\
      aborted env messages r (heap st') evs.
Proof.
  induction fuel as [|fuel IH]; intros st ms Hm.
  - exists OutOfFuel, st, []. cbn. rewrite app_nil_r.
    split; [reflexivity|]. split; [reflexivity|]. left. constructor.
  - cbn [while_true]. rewrite bind_eq.
    destruct (round_aborts st ms Hm)
      as (r1 & st1 & evs1 & Hrun1 & He1 & [ms1 Hm1] & Hab1).
    rewrite Hrun1. destruct r1 as [[|]|ex|sig|].
    + destruct (IH st1 ms1 Hm1) as (r2 & st2 & evs2 & Hrun2 & He2 & Hab2).
      exists r2, st2, (evs1 ++ evs2). split; [exact Hrun2|].
      rewrite He2, He1, <- app_assoc. split; [reflexivity|].
      apply aborted_app; [|exact Hab2].
      destruct Hab1 as [Hok|(evs0 & s & id & name & input & ex' & msgs & ac
                             & items & _ & _ & _ & Hr & _)];
        [exact Hok | discriminate].
    + eexists _, st1, evs1. split; [reflexivity|]. split; [exact He1|].
      now apply (aborted_ok Break).
    + eexists _, st1, evs1. split; [reflexivity|]. split; [exact He1|].
      eapply aborted_raise; exact Hab1.
    + eexists _, st1, evs1. split; [reflexivity|]. split; [exact He1|].
      destruct Hab1 as [Hok|(evs0 & s & id & name & input & ex' & msgs & ac
                             & items & _ & _ & _ & Hr & _)];
        [now left | discriminate].
    + eexists _, st1, evs1. split; [reflexivity|]. split; [exact He1|].
      destruct Hab1 as [Hok|(evs0 & s & id & name & input & ex' & msgs & ac
                             & items & _ & _ & _ & Hr & _)];
        [now left | discriminate].
Qed.

End Propagation.

Lemma process_query_aborts (env : Env) (fuel : nat) (query : string)
    (st : PyState) :
  exists r st' evs,
    process_query env fuel query st = (r, st') /\
    events st' = events st ++ evs /\
    aborted env (length (heap st)) r (heap st') evs.
Proof.
  unfold process_query. rewrite bind_eq. cbn [alloc].
  match goal with |- context [while_true fuel _ ?s] => set (st1 := s) end.
  destruct (while_true_aborts env (length (heap st)) fuel st1 [MUser query])
    as (r & st' & evs & Hrun & He & Hab).
  { subst st1. cbn [heap]. now apply list_lookup_middle. }
  exists r, st', evs. split; [exact Hrun|]. split; [exact He | exact Hab].
Qed.

(** C1, as stated, fails: the tool [extract] resolves to the session of
    [research] and its [call_tool] raises a session error.  [process_query]
    ends by raising that exception; the conversation holds the user turn and
    the assistant turn with the request, and no result for the request. *)
Lemma session_error_leaves_process_query :
  let r := process_query env_chat 5 "failing call" chat_ready in
  Dict.get (sessions (self chat_ready)) "extract" = Some (SessionOf "research") /\
  call_tool (provider_of env_chat (SessionOf "research")) "extract" "1234"
  = Throws (Exception "SessionError") /\
  fst r = Raise (Exception "SessionError") /\
  snapshot (heap (snd r)) 0
  = [UserMessage "failing call";
     AssistantMessage [ToolUseBlock "F" "extract" "1234"]] /\
  last (events (snd r))
  = Some (EvCallTool (SessionOf "research") "extract" "1234").
Proof. vm_compute. repeat split. Qed.

(** C1, amended: a [call_tool] invocation that raises is not caught inside
    [process_query].  Whenever the run of [process_query] records a tool call
    that the provider answers with an exception, that exception is the
    result of [process_query] and the failing call is the last event of the
    run: no further tool call, print or backend request follows.  In the
    conversation that the run leaves behind (the [messages] list, allocated
    at the first free address), the last turn is the assistant turn whose
    content ends with the failing request: the request has been appended and
    no result turn, for this request or of any other kind, comes after it. *)
Theorem call_tool_failure_is_propagated (env : Env) (fuel : nat)
    (query : string) (st : PyState) (evs : list Event) (s : Session)
    (name input : string) (ex : Exn) :
  let r := process_query env fuel query st in
  events (snd r) = events st ++ evs ->
  In (EvCallTool s name input) evs ->
  call_tool (provider_of env s) name input = Throws ex ->
  fst r = Raise ex /\
  (exists evs0,
      evs = evs0 ++ [EvCallTool s name input] /\
      Forall (fun e =>
                match e with
                | EvCallTool s' name' input' =>
                    exists result,
                      call_tool (provider_of env s') name' input'
                      = Returns result
                | _ => True
                end) evs0) /\
  exists turns items id,
    snapshot (heap (snd r)) (length (heap st))
    = turns ++ [AssistantMessage (items ++ [ToolUseBlock id name input])].
Proof.
  intros r Hev Hin Hfail. subst r.
  destruct (process_query_aborts env fuel query st)
    as (r & st' & evs' & Hrun & Hev' & Hab).
  rewrite Hrun in *. cbn [fst snd] in *.
  rewrite Hev in Hev'. apply app_inv_head in Hev'. subst evs'.
  assert (Hf : failing_call env (EvCallTool s name input) = Some ex).
  { cbn. now rewrite Hfail. }
  destruct Hab as [Hok|(evs0 & s' & id & name' & input' & ex' & msgs & ac
                        & items & -> & Hok0 & Hc & Hr & Hm & Hac)].
  { rewrite List.Forall_forall in Hok. rewrite (Hok _ Hin) in Hf.
    discriminate. }
  apply in_app_or in Hin as [Hin|[Heq|[]]].
  { rewrite List.Forall_forall in Hok0. rewrite (Hok0 _ Hin) in Hf.
    discriminate. }
  injection Heq as -> -> ->. rewrite Hfail in Hc. injection Hc as <-.
  split; [exact Hr|]. split.
  - exists evs0. split; [reflexivity|].
    eapply Forall_impl; [exact Hok0|].
    intros [line|tools msgs0|s0 name0 input0|s0 name0 args0|s0 uri0|n0|s0|s0|s0
            |s0]; cbn; auto.
    destruct (call_tool (provider_of env s0) name0 input0) as [result|ex0];
      [eauto | discriminate].
  - exists (map (view_msg (heap st')) msgs), items, id.
    unfold snapshot, deref_messages. rewrite Hm, map_app. cbn [map view_msg].
    unfold deref_content. now rewrite Hac.
Qed.

(** The query ["failing call"], whose tool [extract] raises. *)
Lemma call_tool_failure_is_propagated_witness :
  let s := SessionOf "research" in
  let evs :=
    [EvBackend (available_tools (self chat_ready)) [UserMessage "failing call"];
     EvCallTool s "extract" "1234"] in
  let r := process_query env_chat 5 "failing call" chat_ready in
  fst r = Raise (Exception "SessionError") /\
  (exists evs0,
      evs = evs0 ++ [EvCallTool s "extract" "1234"] /\
      Forall (fun e =>
                match e with
                | EvCallTool s' name' input' =>
                    exists result,
                      call_tool (provider_of env_chat s') name' input'
                      = Returns result
                | _ => True
                end) evs0) /\
  exists turns items id,
    snapshot (heap (snd r)) (length (heap chat_ready))
    = turns ++ [AssistantMessage (items ++ [ToolUseBlock id "extract" "1234"])].
Proof.
  apply (call_tool_failure_is_propagated env_chat 5 "failing call" chat_ready
           [EvBackend (available_tools (self chat_ready))
              [UserMessage "failing call"];
            EvCallTool (SessionOf "research") "extract" "1234"]
           (SessionOf "research") "extract" "1234" (Exception "SessionError")).
  - reflexivity.
  - right. now left.
  - reflexivity.
Defined.

(** * Further properties of the client *)

(** ** Strings *)

Lemma startswith_app (p s : string) : startswith (p ++ s) p = true.
Proof.
  unfold startswith. induction p as [|c p IH]; cbn.
  - now destruct s.
  - destruct (Ascii.ascii_dec c c) as [_|Hc]; [assumption | contradiction].
Qed.

Lemma split_once_app (sep : Ascii.ascii) (k v : string) :
  PyStr.occurs sep k = false ->
  PyStr.split_once sep (k ++ String sep v) = Some (k, v).
Proof.
  induction k as [|c k IH]; cbn; intros H.
  - now rewrite Ascii.eqb_refl.
  - apply orb_false_elim in H as [Hc Hk]. rewrite Hc, (IH Hk). reflexivity.
Qed.

Lemma split_once_Some (sep : Ascii.ascii) (s k v : string) :
  PyStr.split_once sep s = Some (k, v) ->
  s = (k ++ String sep v)%string /\ PyStr.occurs sep k = false.
Proof.
  revert k. induction s as [|c s IH]; cbn; intros k H; [discriminate|].
  destruct (Ascii.eqb c sep) eqn:E.
  - injection H as <- <-. apply Ascii.eqb_eq in E. subst c. now split.
  - destruct (PyStr.split_once sep s) as [[k' v']|]; [|discriminate].
    injection H as <- <-. destruct (IH k' eq_refl) as [-> Hk].
    cbn. now rewrite E, Hk.
Qed.

(** ** Dictionaries: keys *)

Lemma dict_get_Some_In {V : Type} (d : Dict.t V) (k : string) (v : V) :
  Dict.get d k = Some v -> In (k, v) d.
Proof.
  induction d as [|[k' v'] d IH]; cbn; [discriminate|].
  destruct (String.eqb_spec k' k) as [->|Hk].
  - intros [= ->]. now left.
  - intros H. right. now apply IH.
Qed.

Lemma dict_get_None_iff {V : Type} (d : Dict.t V) (k : string) :
  Dict.get d k = None <-> forall v, ~ In (k, v) d.
Proof.
  induction d as [|[k' v'] d IH]; cbn.
  - split; [intros _ v [] | reflexivity].
  - destruct (String.eqb_spec k' k) as [->|Hk]; split.
    + discriminate.
    + intros H. exfalso. apply (H v'). now left.
    + intros H v [[= -> ->]|Hin]; [contradiction|].
      now apply (proj1 IH H v).
    + intros H. apply IH. intros v Hin. apply (H v). now right.
Qed.

Lemma dict_set_keys_nodup {V : Type} (d : Dict.t V) (k : string) (v : V) :
  List.NoDup (Dict.keys d) -> List.NoDup (Dict.keys (Dict.set d k v)).
Proof.
  unfold Dict.keys. induction d as [|[k' v'] d IH]; cbn; intros H.
  - constructor; [intros [] | constructor].
  - inversion H as [|? ? Hnotin Hd]; subst.
    destruct (String.eqb_spec k' k) as [->|Hk]; cbn.
    + now constructor.
    + constructor; [|now apply IH].
      intros Hin. apply Hnotin. clear -Hin Hk.
      induction d as [|[k0 v0] d IH]; cbn in *.
      * destruct Hin as [->|[]]. contradiction.
      * destruct (String.eqb_spec k0 k) as [->|Hk0]; cbn in Hin.
        { destruct Hin as [->|Hin]; [contradiction | now right]. }
        { destruct Hin as [->|Hin]; [now left | right; now apply IH]. }
Qed.

(** ** The arguments of the prompt command *)

Lemma parse_args_fold (tokens : list string) (args : Dict.t string)
    (k : string) :
  (forall t v, In t tokens -> PyStr.split_once PyStr.equals_sign t <> Some (k, v)) ->
  Dict.get
    (fold_left (fun args arg =>
       match PyStr.split_once PyStr.equals_sign arg with
       | Some (key, value) => Dict.set args key value
       | None => args
       end) tokens args) k
  = Dict.get args k.
Proof.
  revert args. induction tokens as [|t tokens IH]; intros args H; cbn;
    [reflexivity|].
  rewrite IH by (intros t' v Hin; apply H; now right).
  destruct (PyStr.split_once PyStr.equals_sign t) as [[key value]|] eqn:E;
    [|reflexivity].
  apply dict_get_set_ne. intros ->. apply (H t value); [now left | assumption].
Qed.

Lemma parse_args_bound (before after : list string)
    (key value : string) :
  PyStr.occurs PyStr.equals_sign key = false ->
  (forall t v, In t after ->
     PyStr.split_once PyStr.equals_sign t <> Some (key, v)) ->
  Dict.get
    (Shell.parse_args
       (before ++ (key ++ String PyStr.equals_sign value)%string :: after))
    key
  = Some value.
Proof.
  intros Hkey Hafter. unfold Shell.parse_args.
  rewrite fold_left_app. cbn [fold_left].
  rewrite (split_once_app _ key value Hkey).
  rewrite parse_args_fold by assumption. apply dict_get_set_eq.
Qed.

(** X1: the value bound to a key is the text after the first [=] of the last
    token that starts with that key and [=]; the value itself may hold
    further [=] signs, and tokens without [=] bind nothing. *)
Theorem parse_args_last_token_wins (before after : list string)
    (key value : string) :
  PyStr.occurs PyStr.equals_sign key = false ->
  (forall t v, In t after ->
     PyStr.split_once PyStr.equals_sign t <> Some (key, v)) ->
  Dict.get
    (Shell.parse_args
       (before ++ (key ++ String PyStr.equals_sign value)%string :: after))
    key
  = Some value.
Proof.
  intros Hkey Hafter. unfold Shell.parse_args.
  rewrite fold_left_app. cbn [fold_left].
  rewrite (split_once_app _ key value Hkey).
  rewrite parse_args_fold by assumption. apply dict_get_set_eq.
Qed.

Lemma parse_args_last_token_wins_witness :
  Dict.get
    (Shell.parse_args
       (["topic=trees"; "draft"]
        ++ ("topic" ++ String PyStr.equals_sign "a=b")%string
        :: ["num_papers=3"]))
    "topic"
  = Some "a=b".
Proof.
  apply (parse_args_last_token_wins ["topic=trees"; "draft"] ["num_papers=3"]
           "topic" "a=b").
  - reflexivity.
  - intros t v [<-|[]]. vm_compute. discriminate.
Defined.

(** X2: a key is absent from the arguments exactly when no token binds it. *)
Theorem parse_args_unbound_key (tokens : list string) (key : string) :
  Dict.get (Shell.parse_args tokens) key = None <->
  forall t v, In t tokens ->
    PyStr.split_once PyStr.equals_sign t <> Some (key, v).
Proof.
  split.
  - intros Hnone t v Hin Hsplit.
    apply in_split in Hin as (before & after & ->).
    destruct (split_once_Some _ _ _ _ Hsplit) as [-> Hk].
    assert (Hex : exists v', Dict.get
              (Shell.parse_args
                 (before ++ (key ++ String PyStr.equals_sign v)%string :: after))
              key = Some v').
    { clear Hnone Hsplit. revert before.
      induction after as [|a after IH] using rev_ind; intros before.
      - exists v. now apply parse_args_bound.
      - destruct (IH before) as [v' Hv'].
        unfold Shell.parse_args in *.
        rewrite app_comm_cons, app_assoc, fold_left_app. cbn [fold_left].
        destruct (PyStr.split_once PyStr.equals_sign a) as [[k' w]|]; eauto.
        destruct (string_dec k' key) as [->|Hne].
        + exists w. apply dict_get_set_eq.
        + exists v'. rewrite dict_get_set_ne by assumption. exact Hv'. }
    destruct Hex as [v' Hv']. congruence.
  - intros H. unfold Shell.parse_args. now rewrite parse_args_fold.
Qed.

(** ** The resource command *)

Lemma first_papers_session_None_inv (items : list (string * Session)) :
  first_papers_session items = None ->
  forall k s, In (k, s) items -> startswith k "papers://" = false.
Proof.
  induction items as [|[k0 s0] items IH]; cbn [first_papers_session];
    intros H k s Hin; [destruct Hin|].
  destruct (startswith k0 "papers://") eqn:E; [discriminate|].
  destruct Hin as [[= <- <-]|Hin]; [assumption | now apply (IH H k s)].
Qed.

(** A URI of the scheme ["papers://"] is not found exactly when no key of
    the routing map starts with ["papers://"]. *)
Lemma resolve_papers_uri_None_iff (b : McpChatBot) (uri : string) :
  startswith uri "papers://" = true ->
  resolve_resource b uri = None <->
  forall k s, In (k, s) (Dict.items (sessions b)) ->
    startswith k "papers://" = false.
Proof.
  intros Hp. unfold resolve_resource. rewrite Hp. split.
  - destruct (Dict.get (sessions b) uri); [discriminate|].
    apply first_papers_session_None_inv.
  - intros H. destruct (Dict.get (sessions b) uri) as [s|] eqn:E.
    + apply dict_get_Some_In in E. rewrite (H uri s E) in Hp. discriminate.
    + now apply first_papers_session_none.
Qed.

Lemma chat_turn_dispatch (env : Env) (fuel : nat) (raw : string)
    (st : PyState) :
  String.eqb (PyStr.strip raw) "" = false ->
  Shell.is_quit raw = false ->
  Shell.chat_turn env fuel (Some (Shell.Enter raw)) st
  = try_except
      (do! print (nl ++ "Send a message: ") in
       do! Shell.dispatch env fuel (PyStr.strip raw) in ret Next)
      (fun e => do! print (nl ++ "Error: " ++ str_exn e) in ret Next) st.
Proof.
  unfold Shell.is_quit, Shell.chat_turn. intros -> ->. reflexivity.
Qed.

Lemma dispatch_at (env : Env) (fuel : nat) (topic : string) :
  Shell.dispatch env fuel ("@" ++ topic)
  = get_resource env (Shell.resource_uri_of topic).
Proof.
  unfold Shell.dispatch.
  replace (startswith ("@" ++ topic) "@") with true
    by (symmetry; apply (startswith_app "@" topic)).
  reflexivity.
Qed.

Lemma lower_at_not_quit (topic : string) :
  String.eqb (PyStr.lower ("@" ++ topic)) "quit" = false.
Proof. reflexivity. Qed.

Lemma papers_uri_startswith (topic : string) :
  startswith (if String.eqb topic "papers" then "papers://folders"
              else "papers://" ++ topic) "papers://" = true.
Proof.
  destruct (String.eqb topic "papers"); [reflexivity | apply startswith_app].
Qed.

(** X3: an ASCII line that is [@topic] once stripped asks for the resource
    ["papers://folders"] when the topic is [papers] and for
    ["papers://" ++ topic] otherwise.  The turn goes on to the next line;
    it reports the resource as not found exactly when no key of the routing
    map starts with ["papers://"], and otherwise reads that URI from a
    session, whether or not the topic was ever registered. *)
Theorem resource_command_reaches_a_papers_session (env : Env) (fuel : nat)
    (raw topic : string) (st : PyState) :
  PyStr.ascii_text raw = true ->
  PyStr.strip raw = ("@" ++ topic)%string ->
  let uri :=
    if String.eqb topic "papers" then "papers://folders"
    else ("papers://" ++ topic)%string in
  let r := Shell.chat_turn env fuel (Some (Shell.Enter raw)) st in
  let asked := events st ++ [EvPrint (nl ++ "Send a message: ")] in
  fst r = Ok Next /\
  ((forall k s, In (k, s) (Dict.items (sessions (self st))) ->
      startswith k "papers://" = false) ->
   events (snd r)
   = asked ++ [EvPrint ("Resource '" ++ uri ++ "' not found.")]) /\
  (forall k s, In (k, s) (Dict.items (sessions (self st))) ->
     startswith k "papers://" = true ->
     exists s' out,
       events (snd r) = asked ++ EvReadResource s' uri :: out /\
       Forall (fun e => exists line, e = EvPrint line) out).
Proof.
  intros _ Hraw uri r asked. subst r.
  rewrite chat_turn_dispatch.
  2: { now rewrite Hraw. }
  2: { unfold Shell.is_quit. rewrite Hraw. apply lower_at_not_quit. }
  rewrite Hraw, dispatch_at.
  change (Shell.resource_uri_of topic) with uri.
  unfold try_except. rewrite bind_eq. cbn [print emit]. rewrite bind_eq.
  match goal with |- context [get_resource env uri ?s] => set (st1 := s) end.
  assert (Huri := papers_uri_startswith topic). fold uri in Huri.
  destruct (resolve_resource (self st1) uri) as [s'|] eqn:E.
  - rewrite (get_resource_resolved env uri s' st1 E). cbn [ret fst snd events].
    split; [reflexivity|]. split.
    + intros Hnone.
      apply (proj2 (resolve_papers_uri_None_iff (self st1) uri Huri)) in Hnone.
      congruence.
    + intros _ _ _ _. exists s'. eexists. split; [reflexivity|].
      apply resource_output_prints.
  - rewrite (get_resource_unresolved env uri st1 E). cbn [ret fst snd events].
    split; [reflexivity|]. split; [reflexivity|].
    intros k s Hin Hk.
    rewrite (proj1 (resolve_papers_uri_None_iff (self st1) uri Huri) E k s Hin)
      in Hk.
    discriminate.
Qed.

(** The line [@graphs] on the registry of [research], where only
    ["papers://folders"] is registered: ["papers://graphs"] is read from the
    session of [research]. *)
Lemma resource_command_reaches_a_papers_session_witness :
  let r := Shell.chat_turn env_chat 3 (Some (Shell.Enter "  @graphs "))
             chat_ready in
  let asked := events chat_ready ++ [EvPrint (nl ++ "Send a message: ")] in
  fst r = Ok Next /\
  ((forall k s, In (k, s) (Dict.items (sessions (self chat_ready))) ->
      startswith k "papers://" = false) ->
   events (snd r)
   = asked ++ [EvPrint ("Resource '" ++ "papers://graphs" ++ "' not found.")]) /\
  (forall k s, In (k, s) (Dict.items (sessions (self chat_ready))) ->
     startswith k "papers://" = true ->
     exists s' out,
       events (snd r) = asked ++ EvReadResource s' "papers://graphs" :: out /\
       Forall (fun e => exists line, e = EvPrint line) out).
Proof.
  apply (resource_command_reaches_a_papers_session env_chat 3 "  @graphs "
           "graphs" chat_ready); reflexivity.
Defined.

(** ** The chat loop *)

Lemma chat_turn_quit (env : Env) (fuel : nat) (raw : string) (st : PyState) :
  Shell.is_quit raw = true ->
  Shell.chat_turn env fuel (Some (Shell.Enter raw)) st
  = (Ok Break,
     {| self := self st; heap := heap st;
        events := events st ++ [EvPrint (nl ++ "Send a message: ")] |}).
Proof.
  unfold Shell.is_quit, Shell.chat_turn. intros Hq.
  destruct (String.eqb (PyStr.strip raw) "") eqn:E.
  - apply String.eqb_eq in E. rewrite E in Hq. discriminate.
  - rewrite Hq. reflexivity.
Qed.

Lemma chat_turn_blank (env : Env) (fuel : nat) (raw : string) (st : PyState) :
  PyStr.strip raw = "" ->
  Shell.chat_turn env fuel (Some (Shell.Enter raw)) st
  = (Ok Next,
     {| self := self st; heap := heap st;
        events := events st ++ [EvPrint (nl ++ "Send a message: ")] |}).
Proof. unfold Shell.chat_turn. now intros ->. Qed.

Lemma chat_turn_ctrl_c (env : Env) (fuel : nat) (st : PyState) :
  Shell.chat_turn env fuel (Some Shell.CtrlC) st
  = (Interrupted "KeyboardInterrupt",
     {| self := self st; heap := heap st;
        events := events st ++ [EvPrint (nl ++ "Send a message: ")] |}).
Proof. reflexivity. Qed.

(** No exception of class [Exception] leaves a turn, and a turn ends the
    loop only on a quit line. *)
Lemma chat_turn_result (env : Env) (fuel : nat) (action : option Shell.Action)
    (st : PyState) :
  (forall ex, fst (Shell.chat_turn env fuel action st) <> Raise ex) /\
  (fst (Shell.chat_turn env fuel action st) = Ok Break ->
   exists raw, action = Some (Shell.Enter raw) /\ Shell.is_quit raw = true).
Proof.
  unfold Shell.chat_turn, Shell.is_quit, try_except.
  rewrite bind_eq. cbn [print emit].
  destruct action as [[raw|]|].
  2: { cbn. split; discriminate. }
  2: { cbn [raise]. rewrite bind_eq. cbn. split; discriminate. }
  destruct (String.eqb (PyStr.strip raw) "");
    [cbn; split; [discriminate | discriminate]|].
  destruct (String.eqb (PyStr.lower (PyStr.strip raw)) "quit") eqn:Hq.
  - cbn. split; [discriminate | eauto].
  - rewrite bind_eq.
    destruct (Shell.dispatch env fuel (PyStr.strip raw) _) as [[[]|ex|sig|] st1];
      cbn; split; discriminate.
Qed.

Lemma for_each_banner (st : PyState) :
  for_each Shell.banner print st
  = (Ok tt,
     {| self := self st; heap := heap st;
        events := events st ++ map EvPrint Shell.banner |}).
Proof.
  unfold Shell.banner. cbn [for_each]. py_run. cbn [map].
  now rewrite <- !app_assoc.
Qed.

Lemma chat_turns_result (env : Env) (fuel qfuel : nat)
    (user : list Shell.Action) (st : PyState) :
  (forall ex, fst (Shell.chat_turns env fuel qfuel user st) <> Raise ex) /\
  (fst (Shell.chat_turns env fuel qfuel user st) = Ok tt ->
   exists pre raw post,
     user = map Shell.Enter pre ++ Shell.Enter raw :: post /\
     Shell.is_quit raw = true /\
     Forall (fun l => Shell.is_quit l = false) pre /\ length pre < fuel).
Proof.
  revert user st. induction fuel as [|fuel IH]; intros user st.
  - cbn. split; [discriminate | discriminate].
  - cbn [Shell.chat_turns]. rewrite bind_eq.
    destruct (chat_turn_result env qfuel (head user) st) as [Hraise Hbreak].
    destruct (Shell.chat_turn env qfuel (head user) st) as [[[|]|ex|sig|] st1]
      eqn:E; cbn [fst] in *.
    + destruct (IH (List.tl user) st1) as [Hr Hok].
      split; [assumption|]. intros Hres.
      destruct (Hok Hres) as (pre & raw & post & Htl & Hq & Hpre & Hlen).
      destruct user as [|[l|] rest]; cbn in Htl.
      { destruct pre; discriminate. }
      2: { cbn in E. discriminate. }
      subst rest. exists (l :: pre), raw, post.
      repeat split; auto.
      * constructor; [|assumption].
        destruct (Shell.is_quit l) eqn:Hl; [|reflexivity].
        cbn in E. rewrite (chat_turn_quit env qfuel l st Hl) in E.
        discriminate.
      * cbn. lia.
    + cbn. split; [discriminate|]. intros _.
      destruct (Hbreak eq_refl) as (raw & Hline & Hq).
      destruct user as [|a rest]; [discriminate|]. cbn in Hline.
      injection Hline as ->. exists [], raw, rest.
      repeat split; auto. cbn. lia.
    + exfalso. now apply (Hraise ex).
    + cbn. split; [discriminate | discriminate].
    + cbn. split; [discriminate | discriminate].
Qed.

(** Blank lines only bring the next prompt. *)
Lemma chat_turns_blank (env : Env) (qfuel : nat) (pre : list string) :
  Forall (fun l => PyStr.strip l = "") pre ->
  forall (fuel : nat) (rest : list Shell.Action) (st : PyState),
    Shell.chat_turns env (length pre + fuel) qfuel
      (map Shell.Enter pre ++ rest) st
    = Shell.chat_turns env fuel qfuel rest
        {| self := self st; heap := heap st;
           events := events st
                     ++ map (fun _ => EvPrint (nl ++ "Send a message: ")) pre |}.
Proof.
  induction 1 as [|l pre Hl Hpre IH]; intros fuel rest st.
  - cbn. rewrite app_nil_r. now destruct st.
  - cbn [length Nat.add map app Shell.chat_turns head List.tl].
    rewrite bind_eq, (chat_turn_blank env qfuel l st Hl), IH.
    cbn [self heap events]. now rewrite <- app_assoc.
Qed.

(** X4: on ASCII input, [chat_loop] returns only when it has read a quit
    line, and the actions before that line are entered lines none of which
    is a quit line.  No exception of class [Exception] leaves it: the
    [EOFError] of [input] at the end of the input is caught like the errors
    of the commands, and the loop goes on.  A [KeyboardInterrupt] raised by
    [input] is not caught by [except Exception]: Ctrl-C pressed at a prompt
    (here after blank lines) ends [chat_loop] with that interrupt, right
    after the prompt has been printed. *)
Theorem chat_loop_returns_only_on_quit (env : Env) (fuel qfuel : nat)
    (user : list Shell.Action) (st : PyState) :
  Forall (fun a =>
            match a with
            | Shell.Enter l => PyStr.ascii_text l = true
            | Shell.CtrlC => True
            end) user ->
  let r := Shell.chat_loop_with env fuel qfuel user st in
  (fst r = Ok tt ->
   exists pre raw post,
     user = map Shell.Enter pre ++ Shell.Enter raw :: post /\
     Shell.is_quit raw = true /\
     Forall (fun l => Shell.is_quit l = false) pre /\ length pre < fuel) /\
  (forall ex, fst r <> Raise ex) /\
  (forall pre post,
     user = map Shell.Enter pre ++ Shell.CtrlC :: post ->
     Forall (fun l => PyStr.strip l = "") pre ->
     length pre < fuel ->
     r = (Interrupted "KeyboardInterrupt",
          {| self := self st; heap := heap st;
             events :=
               events st ++ map EvPrint Shell.banner
               ++ map (fun _ => EvPrint (nl ++ "Send a message: ")) pre
               ++ [EvPrint (nl ++ "Send a message: ")] |})).
Proof.
  intros _ r. subst r. unfold Shell.chat_loop_with.
  rewrite bind_eq, for_each_banner.
  match goal with |- context [Shell.chat_turns env fuel qfuel user ?s] =>
    set (st1 := s);
    destruct (chat_turns_result env fuel qfuel user st1) as [Hraise Hok]
  end.
  split; [exact Hok|]. split; [exact Hraise|].
  intros pre post -> Hblank Hlen.
  replace fuel with (length pre + S (fuel - S (length pre))) by lia.
  rewrite (chat_turns_blank env qfuel pre Hblank).
  cbn [Shell.chat_turns head]. rewrite bind_eq, chat_turn_ctrl_c.
  subst st1. cbn [self heap events]. now rewrite <- !app_assoc.
Qed.

(** Ctrl-C at the second prompt, after a blank line, on the registry of
    [research]. *)
Lemma chat_loop_returns_only_on_quit_witness :
  let user := [Shell.Enter "  "; Shell.CtrlC; Shell.Enter "quit"] in
  let r := Shell.chat_loop_with env_chat 4 3 user chat_ready in
  fst r = Interrupted "KeyboardInterrupt" /\
  last (events (snd r)) = Some (EvPrint (nl ++ "Send a message: ")) /\
  fst r <> Ok tt.
Proof.
  destruct (chat_loop_returns_only_on_quit env_chat 4 3
              [Shell.Enter "  "; Shell.CtrlC; Shell.Enter "quit"] chat_ready)
    as (_ & _ & Hint).
  { repeat constructor. }
  cbv zeta. rewrite (Hint ["  "] [Shell.Enter "quit"] eq_refl).
  - cbn [fst snd events]. split; [reflexivity|]. split; [|discriminate].
    rewrite !app_assoc. apply last_snoc.
  - repeat constructor.
  - cbn. lia.
Defined.

(** ** The commands leave the registry alone *)

Lemma respects_for_each (N : nat) {A : Type} (l : list A)
    (body : A -> Py unit) :
  (forall x, respects N anything (body x)) ->
  respects N anything (for_each l body).
Proof.
  intros Hbody. induction l as [|x l IH].
  - now apply respects_ret.
  - cbn [for_each]. eapply respects_bind; [apply Hbody|]. intros _ _. exact IH.
Qed.

Lemma respects_get_resource (N : nat) (env : Env) (uri : string) :
  respects N anything (get_resource env uri).
Proof.
  unfold get_resource. frame_bind.
  destruct (resolve_resource a uri) as [session|]; [|frame_prim].
  apply respects_try_except; [|intros ex; frame_prim].
  frame_bind. destruct a0 as [[|text texts]|]; try frame_prim.
  repeat frame_bind. frame_prim.
Qed.

Lemma respects_list_prompts (N : nat) : respects N anything Shell.list_prompts.
Proof.
  unfold Shell.list_prompts. frame_bind.
  destruct (available_prompts a) as [|p prompts]; [frame_prim|].
  frame_bind. apply respects_for_each. intros prompt. frame_bind.
  destruct (pd_arguments prompt) as [|arg arguments]; [frame_prim|].
  frame_bind. apply respects_for_each. intros arg_name. frame_prim.
Qed.

Lemma respects_dispatch (N : nat) (env : Env) (fuel : nat) (query : string) :
  respects N anything (Shell.dispatch env fuel query).
Proof.
  unfold Shell.dispatch.
  destruct (startswith query "@"); [apply respects_get_resource|].
  destruct (startswith query "/"); [|apply respects_process_query].
  destruct (PyStr.split query) as [|part0 parts]; [frame_prim|].
  destruct (String.eqb _ "/prompts"); [apply respects_list_prompts|].
  destruct (String.eqb _ "/prompt"); [|frame_prim].
  destruct parts as [|prompt_name tokens]; [frame_prim|].
  apply respects_execute_prompt.
Qed.

Lemma respects_chat_turn (N : nat) (env : Env) (fuel : nat)
    (action : option Shell.Action) :
  respects N anything (Shell.chat_turn env fuel action).
Proof.
  unfold Shell.chat_turn. apply respects_try_except.
  - frame_bind. destruct action as [[raw|]|]; [|frame_prim|frame_prim].
    destruct (String.eqb _ ""); [frame_prim|].
    destruct (String.eqb _ "quit"); [frame_prim|].
    eapply respects_bind; [apply respects_dispatch|]. intros _ _. frame_prim.
  - intros e. frame_bind. frame_prim.
Qed.

Lemma respects_chat_turns (N : nat) (env : Env) (fuel qfuel : nat)
    (user : list Shell.Action) :
  respects N anything (Shell.chat_turns env fuel qfuel user).
Proof.
  revert user. induction fuel as [|fuel IH]; intros user.
  - intros st _. cbn. split; [apply frame_rel_refl | discriminate].
  - cbn [Shell.chat_turns]. eapply respects_bind; [apply respects_chat_turn|].
    intros [|] _; [apply IH | frame_prim].
Qed.

(** X5: after startup the registry is read-only: whatever lines are entered and
    whatever the providers and the backend answer, [chat_loop] leaves
    [sessions], [available_tools] and [available_prompts] as they were; it
    also leaves every list object that existed before untouched and only
    appends to the trace. *)
Theorem chat_loop_keeps_the_registry (env : Env) (fuel qfuel : nat)
    (stdin : list string) (st : PyState) :
  let st' := snd (Shell.chat_loop env fuel qfuel stdin st) in
  self st' = self st /\
  (forall a, a < length (heap st) -> heap st' !! a = heap st !! a) /\
  exists evs, events st' = events st ++ evs.
Proof.
  assert (H : respects (length (heap st)) anything
                (Shell.chat_loop env fuel qfuel stdin)).
  { unfold Shell.chat_loop, Shell.chat_loop_with. eapply respects_bind.
    - apply respects_for_each. intros line. frame_prim.
    - intros _ _. apply respects_chat_turns. }
  destruct (H st (Nat.le_refl _)) as [(Hs & _ & Hh & He) _]. auto.
Qed.

(** ** A failing tool call seen from the chat loop *)

Lemma dispatch_query (env : Env) (fuel : nat) (query : string) :
  startswith query "@" = false -> startswith query "/" = false ->
  Shell.dispatch env fuel query = process_query env fuel query.
Proof. unfold Shell.dispatch. now intros -> ->. Qed.

(** X6: for an ASCII line that is a plain query: when the first response
    holds, after items that are not invocation requests, a request whose
    tool resolves and whose [call_tool] raises an exception of class
    [Exception], the exception that leaves [process_query] is caught by
    [chat_loop]: the turn prints ["Error: "] with the message of the
    exception, nothing else is done for the query, and the loop goes on to
    the next line. *)
Theorem failing_tool_call_is_reported (env : Env) (qfuel : nat)
    (raw id name input : string) (t0 rest : list ContentItem) (s : Session)
    (ex : Exn) (st : PyState) :
  let query := PyStr.strip raw in
  PyStr.ascii_text raw = true ->
  String.eqb query "" = false ->
  Shell.is_quit raw = false ->
  startswith query "@" = false ->
  startswith query "/" = false ->
  backend env (available_tools (self st)) [UserMessage query]
  = Returns (t0 ++ ToolUseBlock id name input :: rest) ->
  existsb is_tool_use t0 = false ->
  Dict.get (sessions (self st)) name = Some s ->
  call_tool (provider_of env s) name input = Throws ex ->
  exists st',
    Shell.chat_turn env (S qfuel) (Some (Shell.Enter raw)) st = (Ok Next, st') /\
    self st' = self st /\
    events st'
    = events st
      ++ [EvPrint (nl ++ "Send a message: ");
          EvBackend (available_tools (self st)) [UserMessage query]]
      ++ text_prints t0
      ++ [EvCallTool s name input; EvPrint (nl ++ "Error: " ++ str_exn ex)].
Proof.
  intros query _ Hne Hq Hat Hslash Hb H0 Hs Hc.
  rewrite (chat_turn_dispatch env (S qfuel) raw st Hne Hq). fold query.
  rewrite (dispatch_query env (S qfuel) query Hat Hslash).
  unfold try_except. rewrite bind_eq. cbn [print emit]. rewrite bind_eq.
  unfold process_query. rewrite bind_eq. cbn [alloc self heap events].
  set (st1 := {| self := self st; heap := heap st ++ _; events := _ |}).
  assert (Hsnap : snapshot (heap st1) (length (heap st)) = [UserMessage query]).
  { subst st1. cbn [heap]. unfold snapshot, deref_messages.
    now rewrite list_lookup_middle. }
  assert (Hb1 : backend env (available_tools (self st1))
                  (snapshot (heap st1) (length (heap st)))
                = Returns (t0 ++ ToolUseBlock id name input :: rest)).
  { now rewrite Hsnap. }
  assert (Hround : exists st2,
            round env (length (heap st)) st1 = (Raise ex, st2) /\
            self st2 = self st /\
            events st2 = events st1
                         ++ [EvBackend (available_tools (self st))
                               [UserMessage query]]
                         ++ text_prints t0 ++ [EvCallTool s name input]).
  { rewrite (round_eq env _ st1 _ Hb1). rewrite Hsnap.
    match goal with |- context [bind _ _ ?x] => set (s0 := x) end.
    destruct (for_in_no_tool_use env (length (heap st)) (length (heap st1))
                t0 s0 H0) as (s1 & Hs1 & He1 & Hrun1).
    eexists. rewrite bind_eq, Hrun1. cbn [for_in]. rewrite bind_eq.
    rewrite (process_content_call_raises env _ _ id name input ex s false s1)
      by (rewrite ?Hs1; assumption).
    split; [reflexivity|]. cbn [self events]. rewrite Hs1, He1.
    subst s0. cbn [self events]. split; [reflexivity|].
    now rewrite <- !app_assoc. }
  destruct Hround as (st2 & Hround & Hself & Hev).
  rewrite (while_true_raise qfuel _ st1 st2 ex Hround).
  rewrite bind_eq. cbn [print emit ret].
  eexists. split; [reflexivity|]. cbn [self events]. split; [assumption|].
  rewrite Hev. subst st1. cbn [events]. now rewrite <- !app_assoc.
Qed.

(** The line ["failing call"], whose tool [extract] raises. *)
Lemma failing_tool_call_is_reported_witness :
  exists st',
    Shell.chat_turn env_chat 3 (Some (Shell.Enter " failing call")) chat_ready
    = (Ok Next, st') /\
    self st' = self chat_ready /\
    events st'
    = events chat_ready
      ++ [EvPrint (nl ++ "Send a message: ");
          EvBackend (available_tools (self chat_ready))
            [UserMessage "failing call"]]
      ++ []
      ++ [EvCallTool (SessionOf "research") "extract" "1234";
          EvPrint (nl ++ "Error: " ++ "SessionError")].
Proof.
  apply (failing_tool_call_is_reported env_chat 2 " failing call" "F" "extract"
           "1234" [] [] (SessionOf "research") (Exception "SessionError")
           chat_ready); reflexivity.
Defined.

(** ** Prompt execution: the paths that start no query *)


(** ** Invariants of the registry *)

Lemma register_keys_nodup (ks : list string) (s : Session)
    (d : Dict.t Session) :
  List.NoDup (Dict.keys d) -> List.NoDup (Dict.keys (register_keys ks s d)).
Proof.
  revert d. induction ks as [|k ks IH]; intros d H; [assumption|].
  apply (IH (Dict.set d k s)). now apply dict_set_keys_nodup.
Qed.

Lemma register_keys_get (ks : list string) (s : Session)
    (d : Dict.t Session) (k : string) :
  Dict.get (register_keys ks s d) k
  = if in_dec string_dec k ks then Some s else Dict.get d k.
Proof.
  destruct (in_dec string_dec k ks).
  - now apply register_keys_in.
  - now apply register_keys_notin.
Qed.

Lemma contributed_keys_connects (p : Provider) (k : string) :
  In k (contributed_keys p) -> connects p = true.
Proof.
  unfold contributed_keys. destruct (connects p); [reflexivity | intros []].
Qed.

Lemma registry_of_snoc (env : Env) (servers : list (string * string))
    (n c : string) (b : McpChatBot) :
  registry_of env (servers ++ [(n, c)]) b
  = connected env n (registry_of env servers b).
Proof. now rewrite registry_of_app. Qed.

(** X8: after the registry build from a fresh client: the keys of [sessions]
    are distinct; a key routes only to the session of a configured provider
    that connected and that names the key in one of its listings; and every
    descriptor in [available_tools] and in [available_prompts] has a route,
    so a tool offered to the backend is never reported as not found. *)
Theorem registry_invariants (env : Env) (servers : list (string * string)) :
  let b := self (snd (connect_to_servers env servers init_state)) in
  List.NoDup (Dict.keys (sessions b)) /\
  (forall k s,
      Dict.get (sessions b) k = Some s ->
      exists n c,
        In (n, c) servers /\ s = SessionOf n /\
        connects (remote env n) = true /\ declares (remote env n) k) /\
  (forall d, In d (available_tools b) ->
     exists s, Dict.get (sessions b) (td_name d) = Some s) /\
  (forall d, In d (available_prompts b) ->
     exists s, Dict.get (sessions b) (pd_name d) = Some s).
Proof.
  cbv zeta. rewrite connect_to_servers_registry. cbn [snd self init_state].
  induction servers as [|[n c] servers IH] using rev_ind.
  - cbn. repeat split; try (intros ? []); try discriminate. constructor.
  - rewrite registry_of_snoc.
    destruct IH as (Hnodup & Hsound & Htools & Hprompts).
    set (b0 := registry_of env servers init_bot) in *.
    rewrite sessions_connected, available_tools_connected,
      available_prompts_connected.
    repeat split.
    + now apply register_keys_nodup.
    + intros k s. rewrite register_keys_get.
      destruct (in_dec string_dec k (contributed_keys (remote env n)))
        as [Hin|Hnot].
      * intros [= <-]. exists n, c. repeat split.
        { apply in_or_app. right. now left. }
        { now apply contributed_keys_connects in Hin. }
        { now apply contributed_keys_declares. }
      * intros Hk. destruct (Hsound k s Hk) as (n' & c' & Hin & Hrest).
        exists n', c'. split; [|assumption]. apply in_or_app. now left.
    + intros d Hd. rewrite register_keys_get.
      destruct (in_dec string_dec (td_name d) (contributed_keys (remote env n)))
        as [Hin|Hnot]; [eauto|].
      apply in_app_or in Hd as [Hd|Hd]; [now apply Htools|].
      exfalso. apply Hnot. apply in_map_iff in Hd as (tool & <- & Ht).
      unfold contributed_keys, contributed_tools, loaded_keys in *.
      destruct (connects (remote env n)); [|destruct Ht].
      apply in_or_app. left.
      change (td_name (tool_descriptor tool)) with (tool_name tool).
      now apply in_map.
    + intros d Hd. rewrite register_keys_get.
      destruct (in_dec string_dec (pd_name d) (contributed_keys (remote env n)))
        as [Hin|Hnot]; [eauto|].
      apply in_app_or in Hd as [Hd|Hd]; [now apply Hprompts|].
      exfalso. apply Hnot. apply in_map_iff in Hd as (prompt & <- & Hp).
      unfold contributed_keys, loaded_keys in *.
      destruct (connects (remote env n)); [|destruct Hp].
      apply in_or_app. right. apply in_or_app. left.
      change (pd_name (prompt_descriptor prompt)) with (prompt_name prompt).
      now apply in_map.
Qed.

(** ** Listing the prompts *)

Lemma for_each_prints {A : Type} (f : A -> list string) (body : A -> Py unit)
    (l : list A) (st : PyState) :
  (forall x st,
      body x st
      = (Ok tt, {| self := self st; heap := heap st;
                   events := events st ++ map EvPrint (f x) |})) ->
  for_each l body st
  = (Ok tt, {| self := self st; heap := heap st;
               events := events st ++ map EvPrint (flat_map f l) |}).
Proof.
  intros Hbody. revert st. induction l as [|x l IH]; intros st.
  - destruct st. cbn. now rewrite app_nil_r.
  - cbn [for_each flat_map]. rewrite bind_eq, Hbody, IH. cbn [self heap events].
    now rewrite map_app, app_assoc.
Qed.

Lemma list_prompts_lines (st : PyState) :
  Shell.list_prompts st
  = (Ok tt,
     {| self := self st; heap := heap st;
        events :=
          events st
          ++ map EvPrint
               match available_prompts (self st) with
               | [] => ["No prompts available."]
               | prompts =>
                   (nl ++ "Available prompts:")%string
                   :: flat_map prompt_lines prompts
               end |}).
Proof.
  unfold Shell.list_prompts. rewrite bind_get_self.
  destruct (available_prompts (self st)) as [|p prompts] eqn:E; [reflexivity|].
  rewrite bind_eq. cbn [print emit].
  rewrite (for_each_prints prompt_lines).
  - cbn [self heap events map]. now rewrite <- app_assoc.
  - intros prompt st0. unfold prompt_lines, prompt_entry.
    rewrite bind_eq. cbn [print emit].
    destruct (pd_arguments prompt) as [|arg arguments]; [reflexivity|].
    rewrite bind_eq. cbn [print emit].
    rewrite (for_each_prints (fun arg_name => ["    - " ++ arg_name])%string).
    + cbn [self heap events]. rewrite <- !app_assoc. cbn [map app].
      repeat f_equal.
    + reflexivity.
Qed.

(** X9: [list_prompts] shows every prompt that was discovered, including one
    whose name a later provider has taken over in the routing map: for every
    provider of the configuration that connects and answers [list_tools] and
    [list_prompts], each prompt it declares has its entry line printed. *)
Theorem list_prompts_shows_shadowed_prompts (env : Env)
    (before after : list (string * string)) (n c : string)
    (tools : list Tool) (prompts : list PromptDecl) (prompt : PromptDecl) :
  open_transport (remote env n) = Returns tt ->
  initialize (remote env n) = Returns tt ->
  list_tools (remote env n) = Returns tools ->
  list_prompts (remote env n) = Returns (Some prompts) ->
  In prompt prompts ->
  let ready :=
    snd (connect_to_servers env (before ++ (n, c) :: after) init_state) in
  let r := Shell.list_prompts ready in
  fst r = Ok tt /\
  In (EvPrint ("- " ++ prompt_name prompt ++ ": " ++ prompt_description prompt))
     (events (snd r)).
Proof.
  intros Ho Hi Ht Hp Hin ready r. subst r. rewrite list_prompts_lines.
  cbn [fst snd events]. split; [reflexivity|].
  assert (Hav : In (prompt_descriptor prompt) (available_prompts (self ready))).
  { subst ready. rewrite connect_to_servers_registry. cbn [snd self].
    rewrite registry_of_app, registry_of_cons.
    assert (Hmono : forall l b d,
              In d (available_prompts b) ->
              In d (available_prompts (registry_of env l b))).
    { induction l as [|[n' c'] l IH]; intros b d Hd; [assumption|].
      rewrite registry_of_cons. apply IH.
      rewrite available_prompts_connected. apply in_or_app. now left. }
    apply Hmono. rewrite available_prompts_connected.
    apply in_or_app. right. unfold connects, loaded_prompts.
    rewrite Ho, Hi, Ht, Hp. now apply in_map. }
  apply in_or_app. right.
  destruct (available_prompts (self ready)) as [|p ps] eqn:E; [destruct Hav|].
  rewrite <- E in *. cbn [map]. right. apply in_map.
  apply in_flat_map. exists (prompt_descriptor prompt). split; [assumption|].
  unfold prompt_lines, prompt_entry. now left.
Qed.

(** Two providers that both declare the prompt [X]. *)
Lemma list_prompts_shows_shadowed_prompts_witness :
  let env :=
    {| remote := fun n =>
         if String.eqb n "first" then serving [] [mk_prompt "X"] []
         else serving [] [mk_prompt "X"] [];
       backend := silent_backend |} in
  let ready :=
    snd (connect_to_servers env
           ([] ++ ("first", "cfg1") :: [("second", "cfg2")]) init_state) in
  let r := Shell.list_prompts ready in
  fst r = Ok tt /\
  In (EvPrint ("- " ++ prompt_name (mk_prompt "X") ++ ": "
               ++ prompt_description (mk_prompt "X")))
     (events (snd r)).
Proof.
  apply (list_prompts_shows_shadowed_prompts _ [] [("second", "cfg2")]
           "first" "cfg1" [] [mk_prompt "X"] (mk_prompt "X"));
    try reflexivity.
  now left.
Defined.

(** ** A round whose invocation requests are all answered *)

Section Answered.

Variable env : Env.
Variables messages assistant_content : addr.
Hypothesis distinct : messages <> assistant_content.

Let body := process_content env messages assistant_content.

Lemma for_in_answered (items : list ContentItem) :
  forall (ms : list Msg) (cs : list ContentItem) (acc : bool) (st : PyState),
    heap st !! messages = Some (OMessages ms) ->
    heap st !! assistant_content = Some (OContent cs) ->
    forallb (answered env (self st)) items = true ->
    exists st',
      for_in items acc body st = (Ok (acc || existsb is_tool_use items), st') /\
      self st' = self st /\
      events st' = events st ++ flat_map (item_events (self st)) items /\
      heap st' !! messages
      = Some (OMessages
                (ms ++ flat_map (item_msgs env (self st) assistant_content) items)) /\
      heap st' !! assistant_content
      = Some (OContent (cs ++ filter kept_item items)) /\
      length (heap st') = length (heap st) /\
      forall a, a <> messages -> a <> assistant_content ->
        heap st' !! a = heap st !! a.
Proof.
  induction items as [|c items IH]; intros ms cs acc st Hm Hc Hall.
  - exists st. cbn. rewrite !app_nil_r, orb_false_r. repeat split; auto.
  - cbn [forallb] in Hall. apply andb_prop in Hall as [Hc0 Hall].
    cbn [for_in]. rewrite bind_eq. subst body.
    destruct c as [text|id name input|type];
      unfold process_content at 1;
      unfold assistant_content_append, messages_append.
    + py_run.
      match goal with |- context [for_in items acc _ ?s] => set (st1 := s) end.
      destruct (IH ms (cs ++ [TextBlock text]) acc st1)
        as (st' & Hrun & Hs & He & Hm' & Hc' & Hl & Hf).
      { subst st1. cbn [heap]. rewrite list_lookup_alter_ne by auto. exact Hm. }
      { subst st1. cbn [heap]. rewrite list_lookup_alter_eq, Hc. reflexivity. }
      { exact Hall. }
      exists st'. subst st1. cbn [self heap events] in *.
      rewrite Hrun. cbn [existsb is_tool_use orb flat_map item_events
        item_msgs filter kept_item app].
      rewrite He, Hm', Hc', Hl, length_alter, <- !app_assoc.
      repeat split; auto.
      intros a Ha1 Ha2. rewrite (Hf a Ha1 Ha2).
      now apply list_lookup_alter_ne.
    + py_run. cbn [answered] in Hc0.
      destruct (Dict.get (sessions (self st)) name) as [s|] eqn:Es;
        [|discriminate].
      unfold call. py_run.
      destruct (call_tool (provider_of env s) name input) as [result|ex] eqn:Ec;
        [|discriminate].
      py_run.
      match goal with |- context [for_in items true _ ?s] => set (st1 := s) end.
      destruct (IH ((ms ++ [MAssistant assistant_content])
                      ++ [MToolResult id result])
                  (cs ++ [ToolUseBlock id name input]) true st1)
        as (st' & Hrun & Hs & He & Hm' & Hc' & Hl & Hf).
      { subst st1. cbn [heap]. rewrite !list_lookup_alter_eq.
        rewrite list_lookup_alter_ne by auto. rewrite Hm. reflexivity. }
      { subst st1. cbn [heap]. rewrite !list_lookup_alter_ne by auto.
        rewrite list_lookup_alter_eq, Hc. reflexivity. }
      { exact Hall. }
      exists st'. subst st1. cbn [self heap events] in *.
      rewrite Hrun. cbn [existsb is_tool_use flat_map item_events item_msgs
        filter kept_item].
      rewrite Es, Ec. rewrite orb_true_r. cbn [orb].
      rewrite He, Hm', Hc', Hl, !length_alter, <- !app_assoc.
      repeat split; auto.
      intros a Ha1 Ha2. rewrite (Hf a Ha1 Ha2).
      now rewrite !list_lookup_alter_ne by auto.
    + py_run.
      destruct (IH ms cs acc st Hm Hc Hall)
        as (st' & Hrun & Hs & He & Hm' & Hc' & Hl & Hf).
      exists st'. rewrite Hrun. cbn [existsb is_tool_use orb flat_map
        item_events item_msgs filter kept_item app].
      repeat split; auto.
Qed.

End Answered.

Lemma view_item_msgs (env : Env) (b : McpChatBot) (h : list PyObj)
    (ac : addr) (items : list ContentItem) :
  map (view_msg h) (flat_map (item_msgs env b ac) items)
  = flat_map (item_turns env b (deref_content h ac)) items.
Proof.
  induction items as [|c items IH]; [reflexivity|].
  cbn [flat_map]. rewrite map_app, IH. f_equal.
  destruct c as [text|id name input|type]; cbn; try reflexivity.
  destruct (Dict.get (sessions b) name) as [s|]; [|reflexivity].
  destruct (call_tool (provider_of env s) name input); reflexivity.
Qed.

Lemma item_msgs_refs (env : Env) (b : McpChatBot) (ac n : addr)
    (items : list ContentItem) :
  ac < n -> refs_below n (flat_map (item_msgs env b ac) items).
Proof.
  intros Hac. unfold refs_below. induction items as [|c items IH]; cbn.
  - constructor.
  - apply Forall_app. split; [|assumption].
    destruct c as [text|id name input|type]; cbn; try constructor.
    destruct (Dict.get (sessions b) name) as [s|]; [|constructor].
    destruct (call_tool (provider_of env s) name input); repeat constructor.
    assumption.
Qed.

(** The state after a round whose requests are all answered; [ac] is the
    address of the round's [assistant_content]. *)
Lemma round_answered_state (env : Env) (messages : addr) (st : PyState)
    (msgs : list Msg) (response : list ContentItem) :
  heap st !! messages = Some (OMessages msgs) ->
  backend env (available_tools (self st)) (snapshot (heap st) messages)
  = Returns response ->
  forallb (answered env (self st)) response = true ->
  let ac := length (heap st) in
  exists st',
    round env messages st
    = (Ok (if existsb is_tool_use response then Next else Break), st') /\
    self st' = self st /\
    events st'
    = events st
      ++ EvBackend (available_tools (self st)) (snapshot (heap st) messages)
      :: flat_map (item_events (self st)) response /\
    heap st' !! messages
    = Some (OMessages
              (msgs ++ flat_map (item_msgs env (self st) ac) response)) /\
    heap st' !! ac = Some (OContent (filter kept_item response)) /\
    length (heap st') = S (length (heap st)) /\
    forall a, a <> messages -> a < ac -> heap st' !! a = heap st !! a.
Proof.
  intros Hm Hb Hall ac.
  assert (Hlt : messages < length (heap st)) by (eapply lookup_lt_Some; eauto).
  rewrite (round_eq env messages st response Hb).
  match goal with |- context [bind _ _ ?s] => set (s0 := s) end.
  destruct (for_in_answered env messages (length (heap st)) ltac:(lia)
              response msgs [] false s0)
    as (st' & Hrun & Hs & He & Hm' & Hc' & Hl & Hf).
  { subst s0. cbn [heap]. now apply lookup_app_l_Some. }
  { subst s0. cbn [heap]. now apply list_lookup_middle. }
  { exact Hall. }
  subst s0. cbn [self heap events] in *. rewrite length_app in Hl.
  cbn [length] in Hl.
  exists st'. rewrite bind_eq, Hrun. cbn [orb].
  split; [now destruct (existsb is_tool_use response)|].
  split; [assumption|]. split; [now rewrite He, <- app_assoc|].
  split; [assumption|]. split; [assumption|]. split; [lia|].
  intros a Ha1 Ha2. subst ac. rewrite Hf by lia.
  now apply lookup_app_l.
Qed.

(** How the backend sees the conversation after such a round. *)
Lemma snapshot_extended (env : Env) (b : McpChatBot) (messages ac : addr)
    (h h' : list PyObj) (msgs : list Msg) (response : list ContentItem) :
  h !! messages = Some (OMessages msgs) ->
  refs_below ac msgs ->
  h' !! messages
  = Some (OMessages (msgs ++ flat_map (item_msgs env b ac) response)) ->
  h' !! ac = Some (OContent (filter kept_item response)) ->
  (forall a, a <> messages -> a < ac -> h' !! a = h !! a) ->
  snapshot h' messages
  = snapshot h messages
    ++ flat_map (item_turns env b (filter kept_item response)) response /\
  refs_below (S ac) (msgs ++ flat_map (item_msgs env b ac) response).
Proof.
  intros Hm Hrefs Hm' Hc' Hf. split.
  - unfold snapshot, deref_messages. rewrite Hm', Hm, map_app. f_equal.
    + apply map_ext_in. intros m Hin.
      destruct m as [content|r|id content]; try reflexivity. cbn [view_msg].
      f_equal. unfold deref_content.
      destruct (Nat.eq_dec r messages) as [->|Hne].
      * now rewrite Hm', Hm.
      * assert (Hr : r < ac).
        { unfold refs_below in Hrefs.
          apply (proj1 (List.Forall_forall _ _) Hrefs _ Hin). }
        now rewrite Hf.
    + rewrite view_item_msgs. unfold deref_content. now rewrite Hc'.
  - apply Forall_app. split.
    + unfold refs_below in Hrefs. eapply Forall_impl; [exact Hrefs|].
      intros [content|r|id content]; cbn; auto.
    + apply item_msgs_refs. lia.
Qed.

(** X10: when every invocation request of a response resolves and its call
    returns, the round calls the tools in the order of the response and
    appends to the conversation, for each request, an assistant turn and
    then a result turn that carries the id of the request and the content
    of its result.  All assistant turns of the round share one content list:
    in the next request to the backend each of them holds every text and
    invocation item of the response.  The loop goes on exactly when the
    response held an invocation request. *)
Theorem round_answers_every_request (env : Env) (messages : addr)
    (st : PyState) (msgs : list Msg) (response : list ContentItem) :
  heap st !! messages = Some (OMessages msgs) ->
  refs_below (length (heap st)) msgs ->
  backend env (available_tools (self st)) (snapshot (heap st) messages)
  = Returns response ->
  forallb (answered env (self st)) response = true ->
  exists st',
    round env messages st
    = (Ok (if existsb is_tool_use response then Next else Break), st') /\
    self st' = self st /\
    events st'
    = events st
      ++ EvBackend (available_tools (self st)) (snapshot (heap st) messages)
      :: flat_map (item_events (self st)) response /\
    snapshot (heap st') messages
    = snapshot (heap st) messages
      ++ flat_map (item_turns env (self st) (filter kept_item response))
           response /\
    exists msgs',
      heap st' !! messages = Some (OMessages msgs') /\
      refs_below (length (heap st')) msgs'.
Proof.
  intros Hm Hrefs Hb Hall.
  destruct (round_answered_state env messages st msgs response Hm Hb Hall)
    as (st' & Hround & Hs & He & Hm' & Hc' & Hl & Hf).
  destruct (snapshot_extended env (self st) messages (length (heap st))
              (heap st) (heap st') msgs response Hm Hrefs Hm' Hc' Hf)
    as [Hsnap Hrefs'].
  exists st'. repeat split; try assumption.
  eexists. split; [exact Hm'|]. now rewrite Hl.
Qed.

(** The first round of the query ["graphs"]: text, then one call. *)
Lemma round_answers_every_request_witness :
  let st := chat_started "graphs" in
  let response :=
    [TextBlock "Let me search."; ToolUseBlock "S" "search" "graphs"] in
  exists st',
    round env_chat 0 st
    = (Ok (if existsb is_tool_use response then Next else Break), st') /\
    self st' = self st /\
    events st'
    = events st
      ++ EvBackend (available_tools (self st)) (snapshot (heap st) 0)
      :: flat_map (item_events (self st)) response /\
    snapshot (heap st') 0
    = snapshot (heap st) 0
      ++ flat_map (item_turns env_chat (self st) (filter kept_item response))
           response /\
    exists msgs',
      heap st' !! 0 = Some (OMessages msgs') /\
      refs_below (length (heap st')) msgs'.
Proof.
  apply (round_answers_every_request env_chat 0 (chat_started "graphs")
           [MUser "graphs"]
           [TextBlock "Let me search."; ToolUseBlock "S" "search" "graphs"]).
  - reflexivity.
  - repeat constructor.
  - reflexivity.
  - reflexivity.
Defined.

Lemma round_without_tool_use (env : Env) (messages : addr) (st : PyState)
    (response : list ContentItem) :
  backend env (available_tools (self st)) (snapshot (heap st) messages)
  = Returns response ->
  existsb is_tool_use response = false ->
  exists st',
    round env messages st = (Ok Break, st') /\
    self st' = self st /\
    events st'
    = events st
      ++ EvBackend (available_tools (self st)) (snapshot (heap st) messages)
      :: text_prints response.
Proof.
  intros Hb Hno. rewrite (round_eq env messages st response Hb).
  match goal with |- context [bind _ _ ?s] => set (s0 := s) end.
  destruct (for_in_no_tool_use env messages (length (heap st)) response s0 Hno)
    as (st1 & Hs & He & Hrun).
  specialize (Hrun [] false). rewrite app_nil_r in Hrun.
  exists st1. rewrite bind_eq, Hrun. cbn [for_in ret negb].
  split; [reflexivity|]. split; [exact Hs|].
  rewrite He. subst s0. cbn [events]. now rewrite <- app_assoc.
Qed.

(** ** A query answered in two rounds *)

(** X11: when the first response to a query holds at least one invocation
    request and all its requests are answered, and the backend answers the
    conversation extended with the results by a response without invocation
    requests, then [process_query] returns after exactly two backend
    requests: the first carries the query alone, the second the query
    followed by an assistant turn and a result turn for each request. *)
Theorem query_answered_in_two_rounds (env : Env) (fuel : nat) (query : string)
    (st : PyState) (response1 response2 : list ContentItem) :
  let tools := available_tools (self st) in
  let conversation :=
    UserMessage query
    :: flat_map (item_turns env (self st) (filter kept_item response1))
         response1 in
  backend env tools [UserMessage query] = Returns response1 ->
  forallb (answered env (self st)) response1 = true ->
  existsb is_tool_use response1 = true ->
  backend env tools conversation = Returns response2 ->
  existsb is_tool_use response2 = false ->
  exists st',
    process_query env (S (S fuel)) query st = (Ok tt, st') /\
    self st' = self st /\
    events st'
    = events st
      ++ EvBackend tools [UserMessage query]
      :: flat_map (item_events (self st)) response1
      ++ EvBackend tools conversation
      :: text_prints response2.
Proof.
  intros tools conversation Hb1 Hall Hyes Hb2 Hno.
  unfold process_query. rewrite bind_eq. cbn [alloc].
  set (st1 := {| self := self st; heap := heap st ++ _; events := events st |}).
  set (messages := length (heap st)).
  assert (Hm : heap st1 !! messages = Some (OMessages [MUser query])).
  { subst st1. cbn [heap]. now apply list_lookup_middle. }
  assert (Hsnap : snapshot (heap st1) messages = [UserMessage query]).
  { unfold snapshot, deref_messages. now rewrite Hm. }
  destruct (round_answered_state env messages st1 [MUser query] response1)
    as (st2 & Hround1 & Hs2 & He2 & Hm2 & Hc2 & _ & Hf2).
  { exact Hm. }
  { now rewrite Hsnap. }
  { exact Hall. }
  destruct (snapshot_extended env (self st1) messages (length (heap st1))
              (heap st1) (heap st2) [MUser query] response1 Hm
              ltac:(repeat constructor) Hm2 Hc2 Hf2) as [Hsnap2 _].
  rewrite Hyes in Hround1. rewrite Hsnap in He2, Hsnap2.
  change (self st1) with (self st) in *. change (events st1) with (events st) in *.
  destruct (round_without_tool_use env messages st2 response2)
    as (st3 & Hround2 & Hs3 & He3).
  { rewrite Hs2, Hsnap2. exact Hb2. }
  { exact Hno. }
  exists st3.
  rewrite (while_true_next (S fuel) _ st1 st2 Hround1).
  rewrite (while_true_break fuel _ st2 st3 Hround2).
  split; [reflexivity|]. split; [congruence|].
  rewrite He3, He2, Hs2, Hsnap2. fold tools.
  change ([UserMessage query] ++ ?x) with (UserMessage query :: x).
  fold conversation. now rewrite <- app_assoc.
Qed.

(** The query ["graphs"]: one call of [search], then the final text. *)
Lemma query_answered_in_two_rounds_witness :
  let response1 :=
    [TextBlock "Let me search."; ToolUseBlock "S" "search" "graphs"] in
  let response2 := [TextBlock "Done."] in
  let tools := available_tools (self chat_ready) in
  let conversation :=
    UserMessage "graphs"
    :: flat_map (item_turns env_chat (self chat_ready)
                   (filter kept_item response1)) response1 in
  exists st',
    process_query env_chat 2 "graphs" chat_ready = (Ok tt, st') /\
    self st' = self chat_ready /\
    events st'
    = events chat_ready
      ++ EvBackend tools [UserMessage "graphs"]
      :: flat_map (item_events (self chat_ready)) response1
      ++ EvBackend tools conversation
      :: text_prints response2.
Proof.
  apply (query_answered_in_two_rounds env_chat 0 "graphs" chat_ready
           [TextBlock "Let me search."; ToolUseBlock "S" "search" "graphs"]
           [TextBlock "Done."]); reflexivity.
Defined.

(** * Properties of the literature provider *)

Section ServerFacts.

Variable PaperInfo : Type.
Variable json_dumps : PaperInfo -> string.

(** The entries that the loop of [extract_info] passes over when it looks
    for [paper_id]. *)
Lemma extract_info_from_skips
    (before rest : list (string * Server.Entry PaperInfo)) (paper_id : string) :
  (forall n d, In (n, Server.Directory (Server.Decoded d)) before ->
     Dict.get d paper_id = None) ->
  (forall n ex, ~ In (n, Server.Directory (Server.Unreadable ex)) before) ->
  (forall n lookup, In (n, Server.Directory (Server.NonObject lookup)) before ->
     lookup paper_id = None) ->
  Server.extract_info_from json_dumps (before ++ rest) paper_id
  = Server.extract_info_from json_dumps rest paper_id.
Proof.
  intros Hd Hu Hn. induction before as [|[n e] before IH];
    cbn [app Server.extract_info_from]; [reflexivity|].
  assert (IH' := IH (fun n' d Hin => Hd n' d (or_intror Hin))
                    (fun n' ex Hin => Hu n' ex (or_intror Hin))
                    (fun n' l Hin => Hn n' l (or_intror Hin))).
  destruct e as [|[| | |ex|d|lookup]]; cbn [Server.isfile]; try exact IH'.
  - exfalso. apply (Hu n ex). now left.
  - rewrite (Hd n d) by now left. exact IH'.
  - rewrite (Hn n lookup) by now left. exact IH'.
Qed.

(** X12: [extract_info] searches the topic directories in listing order and
    answers with the stored value of the first directory whose info file is
    a JSON object that holds the id.  Before it, plain files, directories
    without a regular info file, info files on which reading raises
    [FileNotFoundError] or [JSONDecodeError], JSON objects without the id
    and other JSON values on which the lookup of the id is false are passed
    over; the premises exclude, before the match, the info files that make
    the search raise. *)
Theorem extract_info_first_match
    (before after : list (string * Server.Entry PaperInfo))
    (topic paper_id : string) (papers_info : Dict.t PaperInfo)
    (paper : PaperInfo) :
  Dict.get papers_info paper_id = Some paper ->
  (forall n d, In (n, Server.Directory (Server.Decoded d)) before ->
     Dict.get d paper_id = None) ->
  (forall n ex, ~ In (n, Server.Directory (Server.Unreadable ex)) before) ->
  (forall n lookup, In (n, Server.Directory (Server.NonObject lookup)) before ->
     lookup paper_id = None) ->
  Server.extract_info json_dumps
    (Server.Listing
       (before ++ (topic, Server.Directory (Server.Decoded papers_info)) :: after))
    paper_id
  = Returns (json_dumps paper).
Proof.
  intros Hget Hd Hu Hn. cbn [Server.extract_info].
  rewrite extract_info_from_skips by assumption.
  cbn [Server.extract_info_from Server.isfile]. now rewrite Hget.
Qed.

(** X13: when [PAPER_DIR] can be listed and no entry holds the id or makes
    the search raise, [extract_info] answers with the not-found sentence.
    It raises instead, and gives no answer, when [PAPER_DIR] is missing
    ([os.listdir] raises), and when the first entry that is not passed over
    is an info file on which reading raises an exception other than
    [FileNotFoundError] and [JSONDecodeError], or a JSON value that is not
    an object and on which the lookup of the id raises. *)
Theorem extract_info_not_found
    (entries after : list (string * Server.Entry PaperInfo))
    (topic paper_id : string) :
  (forall n d, In (n, Server.Directory (Server.Decoded d)) entries ->
     Dict.get d paper_id = None) ->
  (forall n ex, ~ In (n, Server.Directory (Server.Unreadable ex)) entries) ->
  (forall n lookup, In (n, Server.Directory (Server.NonObject lookup)) entries ->
     lookup paper_id = None) ->
  Server.extract_info json_dumps (Server.Listing entries) paper_id
  = Returns ("There's no saved information related to paper "
             ++ paper_id ++ ".")%string /\
  Server.extract_info json_dumps Server.Absent paper_id
  = Throws (Exception "[Errno 2] No such file or directory: 'papers'") /\
  (forall ex,
     Server.extract_info json_dumps
       (Server.Listing
          (entries ++ (topic, Server.Directory (Server.Unreadable ex)) :: after))
       paper_id
     = Throws ex) /\
  (forall lookup ex,
     lookup paper_id = Some ex ->
     Server.extract_info json_dumps
       (Server.Listing
          (entries ++ (topic, Server.Directory (Server.NonObject lookup)) :: after))
       paper_id
     = Throws ex).
Proof.
  intros Hd Hu Hn. cbn [Server.extract_info]. repeat split.
  - rewrite <- (app_nil_r entries).
    now rewrite extract_info_from_skips by assumption.
  - intros ex. now rewrite extract_info_from_skips by assumption.
  - intros lookup ex Hl. rewrite extract_info_from_skips by assumption.
    cbn [Server.extract_info_from Server.isfile]. now rewrite Hl.
Qed.

Lemma string_append_nil_r (s : string) : (s ++ "")%string = s.
Proof. induction s as [|c s IH]; cbn; [reflexivity | now rewrite IH]. Qed.

Lemma string_append_assoc (s1 s2 s3 : string) :
  ((s1 ++ s2) ++ s3)%string = (s1 ++ s2 ++ s3)%string.
Proof. induction s1 as [|c s1 IH]; cbn; [reflexivity | now rewrite IH]. Qed.

Lemma last_nonempty_default {A : Type} (a : A) (l : list A) (d d' : A) :
  List.last (a :: l) d = List.last (a :: l) d'.
Proof.
  revert a. induction l as [|b l IH]; intros a; [reflexivity|].
  change (List.last (b :: l) d = List.last (b :: l) d'). apply IH.
Qed.

Lemma folder_lines_body (folders : list string) (content folder : string) :
  exists body,
    Server.folder_lines folders content folder
    = ((content ++ body)%string, List.last folders folder) /\
    forall f, In f folders ->
      exists pre post, body = (pre ++ "- " ++ f ++ nl ++ post)%string.
Proof.
  revert content folder. induction folders as [|f folders IH];
    intros content folder.
  - exists "". cbn. rewrite string_append_nil_r. split; [reflexivity|].
    intros f [].
  - cbn [Server.folder_lines].
    destruct (IH (content ++ "- " ++ f ++ nl)%string f) as (body & Hrun & Hin).
    exists ("- " ++ f ++ nl ++ body)%string. split.
    + rewrite Hrun. f_equal.
      * now rewrite !string_append_assoc.
      * destruct folders as [|g folders]; [reflexivity|].
        change (List.last (f :: g :: folders) folder)
          with (List.last (g :: folders) folder).
        apply last_nonempty_default.
    + intros g [<-|Hg].
      * exists "", body. reflexivity.
      * destruct (Hin g Hg) as (pre & post & ->).
        exists ("- " ++ f ++ nl ++ pre)%string, post.
        now rewrite !string_append_assoc.
Qed.

Lemma topic_folders_In (entries : list (string * Server.Entry PaperInfo))
    (topic : string) (info : Server.InfoFile PaperInfo) :
  In (topic, Server.Directory info) entries ->
  Server.exists_ info = true ->
  In topic (Server.topic_folders entries).
Proof.
  intros Hin Hex. induction entries as [|[n e] entries IH];
    [destruct Hin|].
  cbn [Server.topic_folders]. destruct Hin as [[= -> ->]|Hin].
  - rewrite Hex. now left.
  - destruct e as [|info']; [now apply IH|].
    destruct (Server.exists_ info'); [right|]; now apply IH.
Qed.

(** X14: every topic directory in which [extract_info] can find a paper (its
    info file exists) has its line in the text of [get_available_folders];
    the closing hint of that text names one topic only, the last one of the
    listing. *)
Theorem available_folders_lists_searchable_topics
    (entries : list (string * Server.Entry PaperInfo)) (topic : string)
    (info : Server.InfoFile PaperInfo) :
  In (topic, Server.Directory info) entries ->
  Server.isfile info = true ->
  exists body pre post,
    Server.get_available_folders (Server.Listing entries)
    = Returns ("# Available Topics" ++ nl ++ nl ++ body ++ nl ++ "Use @"
               ++ List.last (Server.topic_folders entries) ""
               ++ " to access papers in that topic." ++ nl)%string /\
    body = (pre ++ "- " ++ topic ++ nl ++ post)%string.
Proof.
  intros Hin Hfile.
  assert (Hex : Server.exists_ info = true) by (now destruct info).
  assert (Htopic := topic_folders_In entries topic info Hin Hex).
  cbn [Server.get_available_folders]. unfold Server.render_folders.
  destruct (folder_lines_body (Server.topic_folders entries)
              ("# Available Topics" ++ nl ++ nl)%string "")
    as (body & Hrun & Hbody).
  destruct (Hbody topic Htopic) as (pre & post & Hpp).
  exists body, pre, post. split; [|assumption].
  destruct (Server.topic_folders entries) as [|f folders] eqn:E;
    [destruct Htopic|].
  rewrite Hrun; f_equal; now rewrite ?string_append_assoc.
Qed.

End ServerFacts.

(** A listing with a plain file, a topic whose info file is corrupt, a
    topic whose info file is a JSON list, and two topics that both hold the
    paper [2401.00001]. *)
Lemma extract_info_first_match_witness :
  Server.extract_info (fun title : string => title)
    (Server.Listing
       ([("notes.txt", Server.PlainFile);
         ("graphs", Server.Directory Server.Undecodable);
         ("lists", Server.Directory (Server.NonObject (fun _ => None)));
         ("trees", Server.Directory (Server.Decoded [("2401.00002", "Trees")]))]
        ++ ("flows", Server.Directory
                       (Server.Decoded [("2401.00001", "Flows, first copy")]))
        :: [("cuts", Server.Directory
                       (Server.Decoded [("2401.00001", "Flows, second copy")]))]))
    "2401.00001"
  = Returns "Flows, first copy".
Proof.
  apply (extract_info_first_match string (fun title => title)
           [("notes.txt", Server.PlainFile);
            ("graphs", Server.Directory Server.Undecodable);
            ("lists", Server.Directory (Server.NonObject (fun _ => None)));
            ("trees", Server.Directory (Server.Decoded [("2401.00002", "Trees")]))]
           [("cuts", Server.Directory
                       (Server.Decoded [("2401.00001", "Flows, second copy")]))]
           "flows" "2401.00001" [("2401.00001", "Flows, first copy")]
           "Flows, first copy").
  - reflexivity.
  - intros n d [H|[H|[H|[H|[]]]]]; try discriminate.
    injection H as _ <-. reflexivity.
  - intros n ex [H|[H|[H|[H|[]]]]]; discriminate.
  - intros n lookup [H|[H|[H|[H|[]]]]]; try discriminate.
    injection H as _ <-. reflexivity.
Defined.

(** A listing without the paper, alone and followed by a topic whose info
    file is not valid UTF-8. *)
Lemma extract_info_not_found_witness :
  let entries :=
    [("graphs", Server.Directory Server.Undecodable);
     ("trees", Server.Directory (Server.Decoded [("2401.00002", "Trees")]))] in
  let ex :=
    Exception "'utf-8' codec can't decode byte 0xff in position 0: invalid start byte" in
  Server.extract_info (fun title : string => title) (Server.Listing entries)
    "2401.00001"
  = Returns "There's no saved information related to paper 2401.00001." /\
  Server.extract_info (fun title : string => title)
    (Server.Listing (entries ++ [("binary", Server.Directory (Server.Unreadable ex))]))
    "2401.00001"
  = Throws ex.
Proof.
  destruct (extract_info_not_found string (fun title => title)
              [("graphs", Server.Directory Server.Undecodable);
               ("trees", Server.Directory (Server.Decoded [("2401.00002", "Trees")]))]
              [] "binary" "2401.00001")
    as (Hnone & _ & Hraise & _).
  - intros n d [H|[H|[]]]; try discriminate.
    injection H as _ <-. reflexivity.
  - intros n ex [H|[H|[]]]; discriminate.
  - intros n lookup [H|[H|[]]]; discriminate.
  - split; [exact Hnone | apply Hraise].
Defined.

Lemma available_folders_lists_searchable_topics_witness :
  let entries :=
    [("graphs", Server.Directory (Server.Decoded [("2401.00001", "Flows")]));
     ("notes.txt", Server.PlainFile);
     ("trees", Server.Directory (Server.Undecodable (PaperInfo := string)))] in
  exists body pre post,
    Server.get_available_folders (Server.Listing entries)
    = Returns ("# Available Topics" ++ nl ++ nl ++ body ++ nl ++ "Use @"
               ++ List.last (Server.topic_folders entries) ""
               ++ " to access papers in that topic." ++ nl)%string /\
    body = (pre ++ "- " ++ "graphs" ++ nl ++ post)%string.
Proof.
  apply (available_folders_lists_searchable_topics string
           [("graphs", Server.Directory (Server.Decoded [("2401.00001", "Flows")]));
            ("notes.txt", Server.PlainFile);
            ("trees", Server.Directory Server.Undecodable)]
           "graphs" (Server.Decoded [("2401.00001", "Flows")])).
  - now left.
  - reflexivity.
Defined.

(** ** Slash commands *)

Lemma split_from_nonempty (cur s : string) :
  cur <> EmptyString -> PyStr.split_from cur s <> [].
Proof.
  revert cur. induction s as [|c s IH]; intros cur Hcur; cbn.
  - destruct cur; [contradiction | discriminate].
  - destruct (PyStr.is_space c).
    + destruct cur; [contradiction | discriminate].
    + apply IH. destruct cur; discriminate.
Qed.

Lemma list_prompts_prints_only (st : PyState) :
  exists lines,
    Shell.list_prompts st
    = (Ok tt, {| self := self st; heap := heap st;
                 events := events st ++ map EvPrint lines |}).
Proof. eexists. apply list_prompts_lines. Qed.

(** X15: an ASCII line that starts with [/] once stripped is handled as a
    command.  Its first token always exists, so [parts[0]] cannot fail.
    Unless that token is [/prompt] in some spelling of upper and lower case,
    the turn only prints (the prompt list, or the unknown-command notice
    with the command in lower case), contacts no session and no backend, and
    the loop goes on.  When the token is [/prompt] and no name follows, the
    turn only prints the usage line; when a name follows, the turn is
    [execute_prompt] on that name and the arguments parsed from the
    remaining tokens, inside the error handler of the loop. *)
Theorem slash_command_only_prints (env : Env) (fuel : nat)
    (raw rest : string) (st : PyState) :
  PyStr.ascii_text raw = true ->
  PyStr.strip raw = ("/" ++ rest)%string ->
  let turn := Shell.chat_turn env fuel (Some (Shell.Enter raw)) st in
  let prints lines :=
    (Ok Next, {| self := self st; heap := heap st;
                 events := events st ++ map EvPrint lines |}) in
  exists part0 parts,
    PyStr.split (PyStr.strip raw) = part0 :: parts /\
    (String.eqb (PyStr.lower part0) "/prompt" = false ->
     exists lines,
       turn = prints lines /\
       (String.eqb (PyStr.lower part0) "/prompts" = false ->
        lines = [(nl ++ "Send a message: ")%string;
                 ("Unknown command: " ++ PyStr.lower part0)%string])) /\
    (String.eqb (PyStr.lower part0) "/prompt" = true ->
     match parts with
     | [] =>
         turn = prints [(nl ++ "Send a message: ")%string;
                        "Usage: /prompt <name> <arg1=value1> <arg2=value2>"]
     | prompt_name :: tokens =>
         turn
         = try_except
             (do! print (nl ++ "Send a message: ") in
              do! execute_prompt env fuel prompt_name (Shell.parse_args tokens) in
              ret Next)
             (fun e => do! print (nl ++ "Error: " ++ str_exn e) in ret Next) st
     end).
Proof.
  intros _ Hraw turn prints. subst turn prints.
  destruct (PyStr.split (PyStr.strip raw)) as [|part0 parts] eqn:Esplit.
  { exfalso. rewrite Hraw in Esplit. revert Esplit.
    apply (split_from_nonempty "/" rest). discriminate. }
  exists part0, parts. split; [reflexivity|].
  rewrite chat_turn_dispatch.
  2: { now rewrite Hraw. }
  2: { unfold Shell.is_quit. now rewrite Hraw. }
  unfold Shell.dispatch. rewrite Esplit. rewrite Hraw.
  replace (startswith ("/" ++ rest) "@") with false by reflexivity.
  replace (startswith ("/" ++ rest) "/") with true
    by (symmetry; apply (startswith_app "/" rest)).
  split.
  - intros Hnot. rewrite Hnot.
    unfold try_except. rewrite bind_eq. cbn [print emit]. rewrite bind_eq.
    destruct (String.eqb (PyStr.lower part0) "/prompts") eqn:Eprompts.
    + match goal with |- context [Shell.list_prompts ?s] =>
        destruct (list_prompts_prints_only s) as [lines Hlines]; rewrite Hlines
      end.
      cbn [ret self heap events].
      exists ((nl ++ "Send a message: ")%string :: lines). split.
      * cbn [map]. now rewrite <- app_assoc.
      * discriminate.
    + cbn [print emit ret self heap events]. eexists. split.
      * rewrite <- app_assoc. cbn [app].
        instantiate (1 := [_; _]). reflexivity.
      * reflexivity.
  - intros Hyes. rewrite Hyes.
    assert (Hp : String.eqb (PyStr.lower part0) "/prompts" = false).
    { apply String.eqb_eq in Hyes. now rewrite Hyes. }
    rewrite Hp. destruct parts as [|prompt_name tokens]; [|reflexivity].
    unfold try_except. rewrite bind_eq. cbn [print emit]. rewrite bind_eq.
    cbn [print emit ret self heap events map].
    now rewrite <- app_assoc.
Qed.

(** The lines [/Help me] (an unknown command) and [/PROMPT] (no name). *)
Lemma slash_command_only_prints_witness :
  Shell.chat_turn env_chat 3 (Some (Shell.Enter " /Help me ")) chat_ready
  = (Ok Next,
     {| self := self chat_ready; heap := heap chat_ready;
        events := events chat_ready
                  ++ map EvPrint [(nl ++ "Send a message: ")%string;
                                  "Unknown command: /help"] |}) /\
  Shell.chat_turn env_chat 3 (Some (Shell.Enter "/PROMPT")) chat_ready
  = (Ok Next,
     {| self := self chat_ready; heap := heap chat_ready;
        events := events chat_ready
                  ++ map EvPrint
                       [(nl ++ "Send a message: ")%string;
                        "Usage: /prompt <name> <arg1=value1> <arg2=value2>"] |}).
Proof.
  split.
  - destruct (slash_command_only_prints env_chat 3 " /Help me " "Help me"
                chat_ready eq_refl eq_refl)
      as (part0 & parts & Hsplit & Hother & _).
    injection Hsplit as <- <-.
    destruct (Hother eq_refl) as (lines & Hturn & Hlines).
    rewrite Hturn, (Hlines eq_refl). reflexivity.
  - destruct (slash_command_only_prints env_chat 3 "/PROMPT" "PROMPT"
                chat_ready eq_refl eq_refl)
      as (part0 & parts & Hsplit & _ & Hprompt).
    injection Hsplit as <- <-. exact (Hprompt eq_refl).
Defined.
